(** * ViOT scanner: discovery and identification engine

    A shallow embedding of the scanner's pure core
    ([viot-scanner/utils/fping_ip.go], [viot-scanner/services/collect.go],
    [viot-scanner/services/config.go], the persistence file of package
    [services] and [viot-scanner/global/global.go]) together with the
    properties its specification states about it.

    Conventions.
    - Go [string] is [string] (a sequence of bytes), Go [int], [int64] and
      [uint32] are [Z] with the wrap-around written out where the code can
      reach it.
    - Go [map[string]T] is [gmap string T]; the pending-list files are a
      [gmap] from file name to the list of CSV records the file holds.
    - Everything the code obtains from the network, the clock or an external
      process is an argument of the function that uses it. *)

From Stdlib Require Import ZArith Lia Bool Ascii String DecimalString.
From Stdlib.Strings Require Import Byte.
From stdpp Require Import base option list strings gmap.

Local Open Scope string_scope.
Local Open Scope list_scope.
Local Open Scope Z_scope.

(** ** Shared helpers: Go's [fmt] verbs and [strings] functions *)

(** [%d] on an integer. *)
Definition fmt_d (z : Z) : string := NilZero.string_of_int (Z.to_int z).

(** [strings.Contains(s, substr)]: [substr] occurs in [s] ([true] for the
    empty [substr]). *)
Fixpoint strings_Contains (s substr : string) : bool :=
  String.prefix substr s
  || match s with
     | EmptyString => false
     | String _ s' => strings_Contains s' substr
     end.

(** [slices.Contains(l, x)] on strings. *)
Definition slices_Contains (l : list string) (x : string) : bool :=
  bool_decide (x ∈ l).

(** [strings.Split(s, sep)] for a separator of one byte (the code splits on
    [" "] and on [":"]): the fields between the separators, [n + 1] of them
    for [n] separators. *)
Fixpoint strings_Split (s : string) (sep : ascii) : list string :=
  match s with
  | EmptyString => [EmptyString]
  | String c s' =>
      if Ascii.eqb c sep then EmptyString :: strings_Split s' sep
      else match strings_Split s' sep with
           | [] => [String c EmptyString]
           | f :: fs => String c f :: fs
           end
  end.

(** [strings.Join(elems, sep)]. *)
Fixpoint strings_Join (elems : list string) (sep : string) : string :=
  match elems with
  | [] => EmptyString
  | [e] => e
  | e :: rest => e +:+ sep +:+ strings_Join rest sep
  end.

(** The byte [c] occurs in [cutset]. *)
Fixpoint in_cutset (c : ascii) (cutset : string) : bool :=
  match cutset with
  | EmptyString => false
  | String d cutset' => Ascii.eqb c d || in_cutset c cutset'
  end.

Fixpoint strings_TrimLeft (s cutset : string) : string :=
  match s with
  | EmptyString => EmptyString
  | String c s' => if in_cutset c cutset then strings_TrimLeft s' cutset else s
  end.

Fixpoint strings_TrimRight (s cutset : string) : string :=
  match s with
  | EmptyString => EmptyString
  | String c s' =>
      match strings_TrimRight s' cutset with
      | EmptyString => if in_cutset c cutset then EmptyString
                       else String c EmptyString
      | r => String c r
      end
  end.

(** [strings.Trim(s, cutset)] for a cutset of ASCII bytes: every leading and
    trailing byte of [s] that occurs in [cutset] is removed. *)
Definition strings_Trim (s cutset : string) : string :=
  strings_TrimRight (strings_TrimLeft s cutset) cutset.

Definition is_digit (c : ascii) : bool :=
  let n := N_of_ascii c in ((48 <=? n) && (n <=? 57))%N.

Definition is_alnum (c : ascii) : bool :=
  let n := N_of_ascii c in
  (((48 <=? n) && (n <=? 57)) || ((65 <=? n) && (n <=? 90))
   || ((97 <=? n) && (n <=? 122)))%N.

Definition digit_value (c : ascii) : Z := Z.of_N (N_of_ascii c) - 48.

(** The value of a string of decimal digits read left to right, [None] when
    the string is empty or holds another byte ([strconv.ParseUint] in base
    10, before its range check). *)
Fixpoint digits_value_from (acc : Z) (s : string) : option Z :=
  match s with
  | EmptyString => Some acc
  | String c s' =>
      if is_digit c then digits_value_from (acc * 10 + digit_value c) s'
      else None
  end.

Definition digits_value (s : string) : option Z :=
  match s with
  | EmptyString => None
  | _ => digits_value_from 0 s
  end.

(** [strconv.ParseInt(s, 10, 64)]: an optional sign, decimal digits, and the
    value in the range of [int64]; [None] is any of its errors. *)
Definition strconv_ParseInt (s : string) : option Z :=
  match s with
  | EmptyString => None
  | String c rest =>
      let neg := Ascii.eqb c "-" in
      let body := if Ascii.eqb c "+" || Ascii.eqb c "-" then rest else s in
      match digits_value body with
      | None => None
      | Some un =>
          if negb neg && (un >=? 2 ^ 63) then None
          else if neg && (un >? 2 ^ 63) then None
          else Some (if neg then - un else un)
      end
  end.

(** Arithmetic of [int64]: the result of an operation is reduced into
    [-2^63, 2^63). *)
Definition wrap64 (z : Z) : Z := (z + 2 ^ 63) mod 2 ^ 64 - 2 ^ 63.
Definition mul64 (a b : Z) : Z := wrap64 (a * b).

(** Go's [error]: [None] is [nil]. The text of a message is not modelled
    beyond naming the place that produced it. *)
Definition error := option string.

(** * [utils/fping_ip.go] *)
Module FpingIP.

(** [net.IP] after [To4()]: four bytes. *)
Record IPv4 := mkIPv4 { ip0 : byte; ip1 : byte; ip2 : byte; ip3 : byte }.

Definition uint8 (b : byte) : Z := Z.of_N (Byte.to_N b).

(** Conversion [byte(n)] of an unsigned integer: the low eight bits. *)
Definition to_byte (n : Z) : byte :=
  default x00 (Byte.of_N (Z.to_N (n mod 256))).

Definition wrap32 (z : Z) : Z := z mod 2 ^ 32.
Definition max_uint32 : Z := 2 ^ 32 - 1.

(** [net.IP], a slice of bytes, in the two forms this file builds: the
    four-byte slice that [To4()] returns, and the 16-byte slice that
    [net.IPv4] returns, which is ten zero bytes, two bytes [0xff] and then
    the four bytes of the address. A four-byte value is read as the first
    form where a [net.IP] is expected. *)
Inductive IP :=
| IP_4 (addr : IPv4)
| IP_v4InV6 (addr : IPv4).

Coercion IP_4 : IPv4 >-> IP.

(** The bytes of the slice, and [ip[i]]; both forms hold at least four
    bytes, so the indices 0 to 3 are never out of range. *)
Definition IP_bytes (ip : IP) : list byte :=
  match ip with
  | IP_4 addr => [ip0 addr; ip1 addr; ip2 addr; ip3 addr]
  | IP_v4InV6 addr =>
      [x00; x00; x00; x00; x00; x00; x00; x00; x00; x00; xff; xff;
       ip0 addr; ip1 addr; ip2 addr; ip3 addr]
  end.

Definition IP_index (ip : IP) (i : nat) : byte := nth i (IP_bytes ip) x00.

(** [net.IPv4(a, b, c, d)]: the 16-byte form. *)
Definition net_IPv4 (a b c d : byte) : IP := IP_v4InV6 (mkIPv4 a b c d).

(** [To4()] on the two forms: the slice itself, or its last four bytes. *)
Definition IP_To4 (ip : IP) : IPv4 :=
  match ip with
  | IP_4 addr => addr
  | IP_v4InV6 addr => addr
  end.

(** [ipToUint32]: the bytes at the indices 0 to 3, big endian. *)
Definition ipToUint32 (ip : IP) : Z :=
  Z.lor (Z.lor (Z.lor (Z.shiftl (uint8 (IP_index ip 0)) 24)
                      (Z.shiftl (uint8 (IP_index ip 1)) 16))
               (Z.shiftl (uint8 (IP_index ip 2)) 8))
        (uint8 (IP_index ip 3)).

(** [uint32ToIP]: it returns the 16-byte form. *)
Definition uint32ToIP (n : Z) : IP :=
  net_IPv4 (to_byte (Z.shiftr n 24)) (to_byte (Z.shiftr n 16))
           (to_byte (Z.shiftr n 8)) (to_byte n).

(** [net.IP.String()]: for both forms the dotted decimal text of the four
    bytes of [To4()]. *)
Definition IP_String (ip : IP) : string :=
  let p4 := IP_To4 ip in
  fmt_d (uint8 (ip0 p4)) +:+ "." +:+ fmt_d (uint8 (ip1 p4)) +:+ "." +:+
  fmt_d (uint8 (ip2 p4)) +:+ "." +:+ fmt_d (uint8 (ip3 p4)).

(** [bits.Len32]: the number of bits needed to represent [x], [0] for [0]. *)
Definition Len32 (x : Z) : Z := if x =? 0 then 0 else Z.log2 x + 1.

(** The two failures of [CalculateCIDR] and [ExpandRange]. *)
Inductive ip_error := InvalidIPv4 | StartAfterEnd.

Inductive result (A : Type) :=
| Ok (a : A)
| Err (e : ip_error).
Arguments Ok {A} a.
Arguments Err {A} e.

(** The text of a CIDR block: [fmt.Sprintf("%s/%d", ip.String(), maskLen)]. *)
Definition cidr_text (network maskLen : Z) : string :=
  IP_String (uint32ToIP network) +:+ "/" +:+ fmt_d maskLen.

(** The address [x] lies in the block [n/p]: it agrees with [n] on the
    leading [p] bits. *)
Definition in_cidr (n p x : Z) : Prop :=
  Z.shiftr x (32 - p) = Z.shiftr n (32 - p).

Section WithParser.

(** [net.ParseIP(s).To4()], a function of Go's standard library: [None] is
    its [nil]. *)
Variable ParseIP_To4 : string -> option IPv4.

(** [maskLen] and [network] as [CalculateCIDR] computes them from the two
    32-bit integers. *)
Definition cidr_maskLen (startInt endInt : Z) : Z :=
  let diff := Z.lxor startInt endInt in
  32 - Len32 diff.

Definition cidr_network (startInt endInt : Z) : Z :=
  let maskLen := cidr_maskLen startInt endInt in
  Z.land startInt (wrap32 (Z.shiftl max_uint32 (32 - maskLen))).

Definition CalculateCIDR (startIP endIP : string) : result string :=
  match ParseIP_To4 startIP, ParseIP_To4 endIP with
  | Some start, Some end_ =>
      let startInt := ipToUint32 start in
      let endInt := ipToUint32 end_ in
      if startInt >? endInt then Err StartAfterEnd
      else
        let maskLen := cidr_maskLen startInt endInt in
        let network := cidr_network startInt endInt in
        Ok (cidr_text network maskLen)
  | _, _ => Err InvalidIPv4
  end.

(** The loop of [ExpandRange], [for i := startInt; i <= endInt; i++], with
    [i] a [uint32]: [None] when [fuel] iterations did not leave the loop. *)
Fixpoint ExpandRange_loop (fuel : nat) (i endInt : Z) (ips : list string)
  : option (list string) :=
  match fuel with
  | O => None
  | S fuel' =>
      if i <=? endInt
      then ExpandRange_loop fuel' (wrap32 (i + 1)) endInt
                            (ips ++ [IP_String (uint32ToIP i)])
      else Some ips
  end.

Definition ExpandRange (fuel : nat) (startIP endIP : string)
  : option (result (list string)) :=
  match ParseIP_To4 startIP, ParseIP_To4 endIP with
  | Some start, Some end_ =>
      let startInt := ipToUint32 start in
      let endInt := ipToUint32 end_ in
      if startInt >? endInt then Some (Err StartAfterEnd)
      else Ok <$> ExpandRange_loop fuel startInt endInt []
  | _, _ => Some (Err InvalidIPv4)
  end.

End WithParser.

Section WithProcess.

(** [exec.Command("fping", args...).CombinedOutput()]: the bytes the external
    tool printed and the error of running it. *)
Variable exec_CombinedOutput : list string -> string * error.

(** The tokens [bufio.Scanner] yields on the output (its lines), and
    [strings.TrimSpace]: functions of Go's standard library. *)
Variable bufio_ScanLines : string -> list string.
Variable strings_TrimSpace : string -> string.

(** The body of the scanning loop for one line. *)
Definition fping_scan_line (activeIPs : list string) (line : string)
  : list string :=
  let parts := strings_Split line ":" in
  if negb (length parts =? 2)%nat || strings_Contains (nth 1 parts "") "-"
  then activeIPs
  else
    let ip := strings_TrimSpace (nth 0 parts "") in
    activeIPs ++ [ip].

Definition ExecuteFping (cidr : string) (retries timeout : Z)
  : list string * error :=
  let args := ["-C"; fmt_d retries; "-t"; fmt_d timeout; "-r"; "0";
               "-A"; "-q"; "-g"; cidr] in
  let '(output, _) := exec_CombinedOutput args in
  let activeIPs := foldl fping_scan_line [] (bufio_ScanLines output) in
  (activeIPs, None).

End WithProcess.

(** The host of an output line that reports it alive, in the words of the
    specification: the line splits into exactly two fields at [":"] and the
    result side holds no ["-"]. *)
Definition alive_host (strings_TrimSpace : string -> string) (line : string)
  : option string :=
  match strings_Split line ":" with
  | [host; result] =>
      if strings_Contains result "-" then None
      else Some (strings_TrimSpace host)
  | _ => None
  end.

(** *** Instances of the library functions, for the examples *)

(** Dotted-decimal IPv4 text as [net.ParseIP] reads it: four fields of
    decimal digits, each at most 255 and without a leading zero. *)
Definition parse_octet (f : string) : option byte :=
  match digits_value f with
  | Some v =>
      if (v <=? 255) && implb (String.prefix "0" f) (String.length f =? 1)%nat
      then Byte.of_N (Z.to_N v) else None
  | None => None
  end.

Definition parse_dotted_quad (s : string) : option IPv4 :=
  match strings_Split s "." with
  | [a; b; c; d] =>
      match parse_octet a, parse_octet b, parse_octet c, parse_octet d with
      | Some a, Some b, Some c, Some d => Some (mkIPv4 a b c d)
      | _, _, _, _ => None
      end
  | _ => None
  end.

(** Lines of an output of short lines: split at line feeds, one trailing
    carriage return dropped from each line, no token for the empty rest
    after the last line feed. *)
Definition drop_cr (line : string) : string :=
  match String.length line with
  | O => line
  | S n => if String.eqb (String.substring n 1 line) (String "013" "")
           then String.substring 0 n line else line
  end.

Definition ascii_ScanLines (output : string) : list string :=
  let fields := strings_Split output "010" in
  let fields := match reverse fields with
                | EmptyString :: rest => reverse rest
                | _ => fields
                end in
  drop_cr <$> fields.

(** [strings.TrimSpace] on ASCII text. *)
Definition ascii_TrimSpace (s : string) : string :=
  strings_Trim s (String "009" (String "010" (String "011" (String "012"
                 (String "013" (String " " "")))))).

End FpingIP.

(** The reading of a four-byte value as a [net.IP] is used in the whole
    file. *)
Import (coercions) FpingIP.

(** * [models] *)
Module Models.

Definition PROTOCOL_SNMP : string := "snmp".
Definition PROTOCOL_MODBUS : string := "modbus".

Definition FIELD_MODEL_NAME : string := "model".
Definition FIELD_SERIAL_NUMBER_NAME : string := "serial_number".
Definition FIELD_VERSION_NAME : string := "version".
Definition FIELD_SNMP_ENGINE_ID_NAME : string := "snmp_engine_id".
Definition FIELD_UPTIME_NAME : string := "uptime".
Definition FIELD_SYS_NAME : string := "sys_name".
Definition FIELD_SYS_DESCR_NAME : string := "sys_descr".

Definition InstanceTypePDU : string := "pdu".
Definition InstanceTypeUnknown : string := "unknown".

Definition PDU4445_NAME : string := "PDU-DELTA-PDU4445".
Definition PDU1315_NAME : string := "PDU-DELTA-PDU1315".
Definition PDUE428_NAME : string := "PDU-DELTA-PDUE428".
Definition PDU6PS56_NAME : string := "PDU-VERTIV-6PS56".
Definition SWITCH5130_NAME : string := "SWITCH-HPE-5130".
Definition SWITCH5945_NAME : string := "SWITCH-HPE-5945".
Definition IOT_CLIENT_NAME : string := "IOT_CLIENT-LIENEO-WCM-421".
Definition UNKNOWN_NAME : string := "unknown".

Definition DEFAULT_UNKNOWN_VALUE : string := "unknown".

Definition REGISTRY_PDU_LIST : string := "registry_pdu.csv".
Definition REGISTRY_DEVICE_LIST : string := "registry_device.csv".
Definition SCAN_PDU_LIST : string := "scan_pdu.csv".
Definition SCAN_DEVICE_LIST : string := "scan_device.csv".

Definition SNMP_OID_SYS_NAME : string := "1.3.6.1.2.1.1.5.0".
Definition SNMP_OID_SYS_DESCR : string := "1.3.6.1.2.1.1.1.0".
Definition SNMP_OID_UPTIME : string := "1.3.6.1.2.1.1.3.0".
Definition SNMP_OID_SNMP_ENGINE_ID : string := "1.3.6.1.6.3.10.2.1.1.0".
Definition SNMP_OID_DELTA_PDU_MODEL : string := "1.3.6.1.4.1.2254.2.32.1.6.1.3.1".
Definition SNMP_OID_DELTA_PDU_SERIAL_NUMBER : string :=
  "1.3.6.1.4.1.2254.2.32.1.6.1.4.1".
Definition SNMP_OID_DELTA_PDU_VERSION : string := "1.3.6.1.4.1.2254.2.32.1.4.0".
Definition SNMP_OID_VERTIV_6PS56_MODEL : string := "1.3.6.1.4.1.21239.5.2.1.8.0".
Definition SNMP_OID_VERTIV_6PS56_SERIAL_NUMBER : string :=
  "1.3.6.1.4.1.21239.5.2.1.10.0".
Definition SNMP_OID_VERTIV_6PS56_VERSION : string := "1.3.6.1.4.1.21239.5.2.1.2.0".

Definition MODBUS_DELTA_PDU_MODEL_ADDRESS : Z := 1024.
Definition MODBUS_DELTA_PDU_SERIAL_ADDRESS : Z := 768.
Definition MODBUS_DELTA_PDU_MODEL_REGISTER_TYPE : string := "input".
Definition MODBUS_DELTA_PDU_SERIAL_REGISTER_TYPE : string := "holding".
Definition MODBUS_DELTA_PDU_SERIAL_LENGTH : Z := 8.
Definition MODBUS_DELTA_PDU_MODEL_LENGTH : Z := 8.

(** A value of type [interface{}] as the protocol clients return it: [nil],
    a [string], or a value of another dynamic type. *)
Inductive any := AnyNil | AnyString (s : string) | AnyOther.

Module SnmpConn.
Record t := mk { IP : string; Port : Z; Version : Z; Community : string }.
Definition zero : t := mk "" 0 0 "".
End SnmpConn.

Module SNMPRequest.
Record t := mk { Name : string; OID : string }.
End SNMPRequest.

Module SnmpSession.
Record t := mk { Conn : SnmpConn.t; Requests : list SNMPRequest.t }.
Definition zero : t := mk SnmpConn.zero [].
End SnmpSession.

Module ModbusConn.
(** [SlaveID] is a [byte]. *)
Record t := mk { IP : string; Port : Z; Mode : string; SlaveID : Z }.
Definition zero : t := mk "" 0 "" 0.
End ModbusConn.

Module ModbusRequest.
Record t := mk { RegisterType : string; RegisterName : string;
                 Address : Z; Length : Z }.
End ModbusRequest.

Module ModbusSession.
Record t := mk { Conn : ModbusConn.t; Requests : list ModbusRequest.t }.
Definition zero : t := mk ModbusConn.zero [].
End ModbusSession.

Module Target.
Record t := mk {
  Name : string;
  InstanceType : string;
  Manufacturer : string;
  Model : string;
  Protocol : string;
  SNMP_MatchValueContains : string;
  SNMP_MatchOID : string;
  Modbus_MatchValueContains : string;
  Modbus_MatchRegisterType : string;
  Modbus_MatchAddress : Z;
  Modbus_MatchLength : Z }.
End Target.

Module SNMPInstanceLib.
Record t := mk {
  TargetNames : list string;
  Targets : list Target.t;
  CustomModelSessions : list SnmpSession.t;
  DetailFieldSessions : list SnmpSession.t;
  UnknownSession : SnmpSession.t }.
Definition zero : t := mk [] [] [] [] SnmpSession.zero.
End SNMPInstanceLib.

Module ModbusInstanceLib.
Record t := mk {
  TargetNames : list string;
  Targets : list Target.t;
  MatchSession : ModbusSession.t;
  DetailSession : ModbusSession.t }.
Definition zero : t := mk [] [] ModbusSession.zero ModbusSession.zero.
End ModbusInstanceLib.

Module ModbusSettings.
Record t := mk { Port : list Z; Mode : string; Timeout : Z; Retry : Z;
                 SlaveID : list Z }.
End ModbusSettings.

Module SNMPSettings.
Record t := mk { Port : Z; Mode : string; Community : string; Version : Z;
                 Timeout : Z; Retry : Z }.
End SNMPSettings.

Module Dependencies.
Record t := mk { Protocol : string; SourceTarget : string;
                 LinkedTarget : list string }.
End Dependencies.

Module SnmpConnInfo.
Record t := mk { IP : string; Port : Z; Community : string; Version : Z }.
End SnmpConnInfo.

Module ModbusConnInfo.
Record t := mk { IP : string; Port : Z; SlaveID : Z; Model : string;
                 Manufacturer : string; InstanceType : string }.
End ModbusConnInfo.

Module ScanInstanceInfo.
Record t := mk {
  TargetName : string;
  IPKey : string;
  IP : string;
  Port : Z;
  SlaveID : Z;
  Protocol : string;
  Model : string;
  Version : string;
  SerialNumber : string;
  SnmpEngineID : string;
  SysName : string;
  SysDescr : string;
  Uptime : Z;
  InstanceType : string;
  Manufacturer : string;
  MacAddress : string;
  Factory : string;
  Phase : string;
  Datacenter : string;
  Room : string }.

(** The zero value of the struct. *)
Definition zero : t :=
  mk "" "" "" 0 0 "" "" "" "" "" "" "" 0 "" "" "" "" "" "" "".

Definition with_IPKey (ipKey : string) (r : t) : t :=
  mk (TargetName r) ipKey (IP r) (Port r) (SlaveID r) (Protocol r) (Model r)
     (Version r) (SerialNumber r) (SnmpEngineID r) (SysName r) (SysDescr r)
     (Uptime r) (InstanceType r) (Manufacturer r) (MacAddress r) (Factory r)
     (Phase r) (Datacenter r) (Room r).

(** The assignments [MatchSnmpInstances] makes after the detail query. *)
Definition with_snmp_detail (mac version serial engine sysName sysDescr : string)
    (uptime : Z) (r : t) : t :=
  mk (TargetName r) (IPKey r) (IP r) (Port r) (SlaveID r) (Protocol r)
     (Model r) version serial engine sysName sysDescr uptime (InstanceType r)
     (Manufacturer r) mac (Factory r) (Phase r) (Datacenter r) (Room r).

(** The assignments [MatchModbusInstances] makes after the detail query. *)
Definition with_modbus_detail (version serial : string) (uptime : Z) (r : t)
  : t :=
  mk (TargetName r) (IPKey r) (IP r) (Port r) (SlaveID r) (Protocol r)
     (Model r) version serial (SnmpEngineID r) (SysName r) (SysDescr r) uptime
     (InstanceType r) (Manufacturer r) (MacAddress r) (Factory r) (Phase r)
     (Datacenter r) (Room r).
End ScanInstanceInfo.

End Models.

(** * The pending and registry list files

    A CSV file is the list of its records, a record the list of its fields;
    the quoting done by [encoding/csv] is not modelled. A file that does not
    exist has no entry. *)
Abbreviation FS := (gmap string (list (list string))).

(** * [utils]: reading one column of a CSV file *)
Module Utils.

(** Index of the first header equal to [columnName]. *)
Fixpoint column_index (headers : list string) (columnName : string)
  : option nat :=
  match headers with
  | [] => None
  | header :: rest =>
      if String.eqb header columnName then Some O
      else S <$> column_index rest columnName
  end.

(** [ReadCSVByColumn]: the values of one column below the header row; the
    empty list when the file, the header row or the column is missing.
    [None] is the run-time panic of [record[columnIndex]] on a record that is
    too short. *)
Definition ReadCSVByColumn (fs : FS) (filename columnName : string)
  : option (list string) :=
  match fs !! filename with
  | None => Some []
  | Some [] => Some []
  | Some (headers :: rows) =>
      match column_index headers columnName with
      | None => Some []
      | Some columnIndex => mapM (fun record : list string => record !! columnIndex) rows
      end
  end.

End Utils.

(** * [global]: the package-level variables *)
Module Global.
Import Models.

Record t := mk {
  ModbusSettings : ModbusSettings.t;
  SNMPSettings : SNMPSettings.t;
  TargetSettings : list Target.t;
  Dependencies : list Dependencies.t;
  SNMPInstanceLib : SNMPInstanceLib.t;
  ModbusInstanceLib : ModbusInstanceLib.t;
  ScanResults : gmap string ScanInstanceInfo.t;
  ScanIPKeyList : list string }.

Definition with_ScanIPKeyList (l : list string) (g : t) : t :=
  mk (ModbusSettings g) (SNMPSettings g) (TargetSettings g) (Dependencies g)
     (SNMPInstanceLib g) (ModbusInstanceLib g) (ScanResults g) l.

Definition with_ScanResults (m : gmap string ScanInstanceInfo.t) (g : t) : t :=
  mk (ModbusSettings g) (SNMPSettings g) (TargetSettings g) (Dependencies g)
     (SNMPInstanceLib g) (ModbusInstanceLib g) m (ScanIPKeyList g).

Definition with_libs (s : SNMPInstanceLib.t) (m : ModbusInstanceLib.t) (g : t)
  : t :=
  mk (ModbusSettings g) (SNMPSettings g) (TargetSettings g) (Dependencies g)
     s m (ScanResults g) (ScanIPKeyList g).

(** [InitScanList]: the [ip_key] columns of the two pending lists, the PDU
    list first. *)
Definition InitScanList (fs : FS) (g : t) : option t :=
  scan_pdu_list ← Utils.ReadCSVByColumn fs SCAN_PDU_LIST "ip_key";
  scan_device_list ← Utils.ReadCSVByColumn fs SCAN_DEVICE_LIST "ip_key";
  Some (with_ScanIPKeyList (scan_pdu_list ++ scan_device_list) g).

(** [UpdateScanResults]. *)
Definition UpdateScanResults (results : list ScanInstanceInfo.t) (g : t) : t :=
  let '(updatedScanResults, keys) :=
    foldl (fun '(m, keys) result =>
             let ipKey := ScanInstanceInfo.IPKey result in
             (<[ipKey := result]> m,
              if slices_Contains keys ipKey then keys else keys ++ [ipKey]))
          (∅, ScanIPKeyList g) results in
  with_ScanResults updatedScanResults (with_ScanIPKeyList keys g).

End Global.

(** * [services]: protocol clients ([snmp.go], [modbus.go]) and
      identification ([collect.go]) *)
Module Collect.
Import Models.

(** [getStringValue]: the string stored under [key], [""] when the key is
    missing or holds a value of another type. *)
Definition getStringValue (result : gmap string any) (key : string) : string :=
  match result !! key with
  | Some (AnyString str) => str
  | _ => ""
  end.

(** [parseUptimeToSeconds]. *)
Definition parseUptimeToSeconds (uptimeStr : string) : Z :=
  if String.eqb uptimeStr "" then 0
  else
    let uptimeStr := strings_Trim uptimeStr "()" in
    let parts := strings_Split uptimeStr " " in
    match parts with
    | [part0; part1] =>
        match strconv_ParseInt part0 with
        | None => 0
        | Some value =>
            if String.eqb part1 "days" then mul64 (mul64 (mul64 value 24) 60) 60
            else if String.eqb part1 "hours" then mul64 (mul64 value 60) 60
            else if String.eqb part1 "minutes" then mul64 value 60
            else if String.eqb part1 "seconds" then value
            else 0
        end
    | _ => 0
    end.

(** The uptime text of the specification, ["(<n> <unit>)"], for a numeral
    [n] and a unit, and the seconds one unit stands for. *)
Definition uptime_text (n unit : string) : string :=
  "(" +:+ n +:+ " " +:+ unit +:+ ")".

Definition unit_seconds (unit : string) : option Z :=
  if String.eqb unit "days" then Some 86400
  else if String.eqb unit "hours" then Some 3600
  else if String.eqb unit "minutes" then Some 60
  else if String.eqb unit "seconds" then Some 1
  else None.

(** [ClassifyResults]: PDU records and all the others, each in input
    order. *)
Definition ClassifyResults (results : list ScanInstanceInfo.t)
  : list ScanInstanceInfo.t * list ScanInstanceInfo.t :=
  foldl (fun '(pduResult, deviceResult) result =>
           if String.eqb (ScanInstanceInfo.InstanceType result) InstanceTypePDU
           then (pduResult ++ [result], deviceResult)
           else (pduResult, deviceResult ++ [result]))
        ([], []) results.

(** The three variables [GetSNMPTargetByMatchModelValue] assigns in its
    loops. *)
Record snmp_match := mk_snmp_match {
  detailSession : SnmpSession.t;
  instanceInfo : ScanInstanceInfo.t;
  isMatchInstance : bool }.

(** The record built for a matching target. *)
Definition matched_info (target : Target.t) (ip : string) (port : Z)
    (protocol : string) : ScanInstanceInfo.t :=
  ScanInstanceInfo.mk (Target.Name target) "" ip port 0 protocol
    (Target.Model target) "" "" "" "" "" 0 (Target.InstanceType target)
    (Target.Manufacturer target) "" "" "" "" "".

(** The record built when nothing matched. *)
Definition unknown_info (g : Global.t) : ScanInstanceInfo.t :=
  ScanInstanceInfo.mk UNKNOWN_NAME "" "" (SNMPSettings.Port (Global.SNMPSettings g))
    0 PROTOCOL_SNMP DEFAULT_UNKNOWN_VALUE "" "" "" "" "" 0 InstanceTypeUnknown
    DEFAULT_UNKNOWN_VALUE "" "" "" "" "".

(** What the matching loops can leave in their variables: nothing yet, or
    the record of one of the given targets for the scanned address. *)
Definition match_of (targets : list Target.t) (ip : string) (port : Z)
    (protocol : string) (st : snmp_match) : Prop :=
  isMatchInstance st = false \/
  exists target, target ∈ targets /\
                 instanceInfo st = matched_info target ip port protocol.

(** The inner loop, [for i, target := range snmpInstanceLib.Targets], from
    index [i] on. The loop has no [break]: every target is visited. [None] is
    the run-time panic of [DetailFieldSessions[i]] out of range. *)
Fixpoint snmp_match_targets (lib : SNMPInstanceLib.t) (ip : string) (port : Z)
    (protocol matchValue : string) (i : nat) (targets : list Target.t)
    (st : snmp_match) : option snmp_match :=
  match targets with
  | [] => Some st
  | target :: rest =>
      if negb (String.eqb (Target.Protocol target) PROTOCOL_SNMP)
      then snmp_match_targets lib ip port protocol matchValue (S i) rest st
      else if strings_Contains matchValue (Target.SNMP_MatchValueContains target)
      then
        match SNMPInstanceLib.DetailFieldSessions lib !! i with
        | None => None
        | Some session =>
            snmp_match_targets lib ip port protocol matchValue (S i) rest
              (mk_snmp_match session (matched_info target ip port protocol) true)
        end
      else snmp_match_targets lib ip port protocol matchValue (S i) rest st
  end.

(** The outer loop, [for _, matchValue := range matchResult]. *)
Fixpoint snmp_match_values (lib : SNMPInstanceLib.t) (ip : string) (port : Z)
    (protocol : string) (matchResult : list string) (st : snmp_match)
  : option snmp_match :=
  match matchResult with
  | [] => Some st
  | matchValue :: rest =>
      if String.eqb matchValue "<nil>" || String.eqb matchValue ""
         || isMatchInstance st
      then snmp_match_values lib ip port protocol rest st
      else
        match snmp_match_targets lib ip port protocol matchValue 0
                (SNMPInstanceLib.Targets lib) st with
        | None => None
        | Some st' => snmp_match_values lib ip port protocol rest st'
        end
  end.

(** [GetSNMPTargetByMatchModelValue]. *)
Definition GetSNMPTargetByMatchModelValue (g : Global.t) (ip : string)
    (port : Z) (protocol : string) (matchResult : list string)
  : option (ScanInstanceInfo.t * SnmpSession.t) :=
  let snmpInstanceLib := Global.SNMPInstanceLib g in
  match snmp_match_values snmpInstanceLib ip port protocol matchResult
          (mk_snmp_match SnmpSession.zero ScanInstanceInfo.zero false) with
  | None => None
  | Some st =>
      if negb (isMatchInstance st)
      then Some (unknown_info g, SNMPInstanceLib.UnknownSession snmpInstanceLib)
      else Some (instanceInfo st, detailSession st)
  end.

Section WithNetwork.

(** What the scanned network answers. [gosnmp_Get conn oids] is connecting
    to [conn] and [Get(oids)]: the values of the returned variables, [None]
    for an error of either step. [modbus_Connect] is the handler's
    [Connect()]; the two reads return the bytes read, [None] for an error.
    [GetMacByArp] is the ARP resolution of [utils/arp.go]. The answers are
    functions of the request: a device does not change its answer during the
    scan of its address. *)
Variable gosnmp_Get : SnmpConn.t -> list string -> option (list any).
Variable modbus_Connect : ModbusConn.t -> bool.
Variable ReadInputRegisters : ModbusConn.t -> Z -> Z -> option string.
Variable ReadHoldingRegisters : ModbusConn.t -> Z -> Z -> option string.
Variable GetMacByArp : string -> string * error.

(** The search [GetSnmpValue] makes for the position of a request's OID:
    the index of the first equal OID, [0] when there is none. *)
Fixpoint oid_index_from (i : nat) (snmpOids : list string) (oid : string)
  : nat :=
  match snmpOids with
  | [] => O
  | o :: rest => if String.eqb o oid then i else oid_index_from (S i) rest oid
  end.

(** [GetSnmpValue] of [snmp.go]. The outer [option] is the panic of
    [result.Variables[oidIndex]] out of range, the inner one the returned
    error. *)
Definition GetSnmpValue (snmpSession : SnmpSession.t)
  : option (option (gmap string any)) :=
  let snmpOids := SNMPRequest.OID <$> SnmpSession.Requests snmpSession in
  match gosnmp_Get (SnmpSession.Conn snmpSession) snmpOids with
  | None => Some None
  | Some variables =>
      info ← foldl (fun (info : option (gmap string any)) request =>
                      info ← info;
                      value ← variables !! oid_index_from O snmpOids
                                             (SNMPRequest.OID request);
                      Some (<[SNMPRequest.Name request := value]> info))
                   (Some ∅) (SnmpSession.Requests snmpSession);
      Some (Some info)
  end.

(** The connection fields [MatchSnmpInstances] copies into a session. *)
Definition snmp_session_for (snmpConnInfo : SnmpConnInfo.t)
    (session : SnmpSession.t) : SnmpSession.t :=
  SnmpSession.mk
    (SnmpConn.mk (SnmpConnInfo.IP snmpConnInfo) (SnmpConnInfo.Port snmpConnInfo)
                 (SnmpConnInfo.Version snmpConnInfo)
                 (SnmpConnInfo.Community snmpConnInfo))
    (SnmpSession.Requests session).

(** The regular expression [[a-zA-Z0-9]] matches somewhere in [s]. *)
Fixpoint has_alnum (s : string) : bool :=
  match s with
  | EmptyString => false
  | String c s' => is_alnum c || has_alnum s'
  end.

(** The loop over the values of one match answer. [None] is the panic of the
    type assertion [value.(string)] on a value that is no string. *)
Definition snmp_collect_value (results : option (list string)) (value : any)
  : option (list string) :=
  results ← results;
  match value with
  | AnyNil => Some results
  | AnyOther => None
  | AnyString str =>
      if String.eqb str "" || String.eqb str " " then Some results
      else if negb (has_alnum str) then Some results
      else Some (results ++ [str])
  end.

(** The first loop of [MatchSnmpInstances]: one candidate string for every
    match session that answered. *)
Definition snmp_collect_session (snmpConnInfo : SnmpConnInfo.t)
    (snmpMatchResult : option (list string)) (matchSession : SnmpSession.t)
  : option (list string) :=
  snmpMatchResult ← snmpMatchResult;
  answer ← GetSnmpValue (snmp_session_for snmpConnInfo matchSession);
  match answer with
  | None => Some snmpMatchResult
  | Some result =>
      results ← foldl snmp_collect_value (Some []) (map_to_list result).*2;
      Some (snmpMatchResult ++ [strings_Join results " "])
  end.

(** [MatchSnmpInstances]: the record and the returned error, which is always
    [nil]; [None] is a panic. *)
Definition MatchSnmpInstances (g : Global.t) (snmpConnInfo : SnmpConnInfo.t)
  : option (ScanInstanceInfo.t * error) :=
  let snmpInstanceLib := Global.SNMPInstanceLib g in
  snmpMatchResult ← foldl (snmp_collect_session snmpConnInfo) (Some [])
                      (SNMPInstanceLib.CustomModelSessions snmpInstanceLib);
  '(instanceInfo, detailSession) ←
    GetSNMPTargetByMatchModelValue g (SnmpConnInfo.IP snmpConnInfo)
      (SnmpConnInfo.Port snmpConnInfo) PROTOCOL_SNMP snmpMatchResult;
  answer ← GetSnmpValue (snmp_session_for snmpConnInfo detailSession);
  let snmpDetailResult := default ∅ answer in
  let '(mac, _) := GetMacByArp (SnmpConnInfo.IP snmpConnInfo) in
  Some (ScanInstanceInfo.with_snmp_detail mac
          (getStringValue snmpDetailResult FIELD_VERSION_NAME)
          (getStringValue snmpDetailResult FIELD_SERIAL_NUMBER_NAME)
          (getStringValue snmpDetailResult FIELD_SNMP_ENGINE_ID_NAME)
          (getStringValue snmpDetailResult FIELD_SYS_NAME)
          (getStringValue snmpDetailResult FIELD_SYS_DESCR_NAME)
          (parseUptimeToSeconds (getStringValue snmpDetailResult FIELD_UPTIME_NAME))
          instanceInfo,
        None).

(** [allZeros] of [modbus.go]. *)
Fixpoint allZeros (data : string) : bool :=
  match data with
  | EmptyString => true
  | String b data' => if Ascii.eqb b "000" then allZeros data' else false
  end.

(** One iteration of the read loop of [GetModbusValue]; [None] is the
    returned error. *)
Definition modbus_read_request (conn : ModbusConn.t)
    (data : option (gmap string string)) (request : ModbusRequest.t)
  : option (gmap string string) :=
  data ← data;
  results ←
    (if String.eqb (ModbusRequest.RegisterType request) "input"
     then ReadInputRegisters conn (ModbusRequest.Address request)
                             (ModbusRequest.Length request)
     else if String.eqb (ModbusRequest.RegisterType request) "holding"
     then ReadHoldingRegisters conn (ModbusRequest.Address request)
                               (ModbusRequest.Length request)
     else None);
  if (String.length results =? 0)%nat || allZeros results then None
  else Some (<[ModbusRequest.RegisterName request := results]> data).

(** [GetModbusValue] with [NewModbusClient] of [modbus.go]: the map of the
    values read, every one of them a [string]; [None] is the returned
    error. *)
Definition GetModbusValue (session : ModbusSession.t)
  : option (gmap string string) :=
  let conn := ModbusSession.Conn session in
  if negb (String.eqb (ModbusConn.Mode conn) "RTUOverTCP"
           || String.eqb (ModbusConn.Mode conn) "TCP") then None
  else if negb (modbus_Connect conn) then None
  else foldl (modbus_read_request conn) (Some ∅) (ModbusSession.Requests session).

(** The target loop of [MatchModbusInstances]. Its body ends in an
    unconditional [break], so only the first target of the library is
    compared. *)
Definition modbus_match_targets (targets : list Target.t) (ip : string)
    (port slaveID : Z) (modelValue : string)
    (modbusConnInfos : list ModbusConnInfo.t) : list ModbusConnInfo.t :=
  match targets with
  | [] => modbusConnInfos
  | target :: _ =>
      if strings_Contains modelValue (Target.Modbus_MatchValueContains target)
      then modbusConnInfos ++
             [ModbusConnInfo.mk ip port slaveID (Target.Model target)
                (Target.Manufacturer target) (Target.InstanceType target)]
      else modbusConnInfos
  end.

(** The session with its connection pointed at [(ip, port, byte(slaveID))]. *)
Definition modbus_session_for (ip : string) (port slaveID : Z)
    (session : ModbusSession.t) : ModbusSession.t :=
  ModbusSession.mk
    (ModbusConn.mk ip port (ModbusConn.Mode (ModbusSession.Conn session))
                   (slaveID mod 256))
    (ModbusSession.Requests session).

(** The body of the slave-ID loop for one (port, slave ID) pair. *)
Definition modbus_match_pair (g : Global.t) (ip : string) (port : Z)
    (modbusConnInfos : list ModbusConnInfo.t) (slaveID : Z)
  : list ModbusConnInfo.t :=
  let lib := Global.ModbusInstanceLib g in
  let matchSession :=
    modbus_session_for ip port slaveID (ModbusInstanceLib.MatchSession lib) in
  match GetModbusValue matchSession with
  | None => modbusConnInfos
  | Some modbusResult =>
      foldl (fun infos modelValue =>
               modbus_match_targets (ModbusInstanceLib.Targets lib) ip port
                                    slaveID modelValue infos)
            modbusConnInfos (map_to_list modbusResult).*2
  end.

(** The detail loop for one candidate. *)
Definition modbus_detail (g : Global.t) (ip : string)
    (results : list ScanInstanceInfo.t) (modbusConnInfo : ModbusConnInfo.t)
  : list ScanInstanceInfo.t :=
  let lib := Global.ModbusInstanceLib g in
  let result :=
    ScanInstanceInfo.mk "" "" ip (ModbusConnInfo.Port modbusConnInfo)
      (ModbusConnInfo.SlaveID modbusConnInfo) PROTOCOL_MODBUS
      (ModbusConnInfo.Model modbusConnInfo) "" "" "" "" "" 0
      (ModbusConnInfo.InstanceType modbusConnInfo)
      (ModbusConnInfo.Manufacturer modbusConnInfo) "" "" "" "" "" in
  let detailSession :=
    modbus_session_for ip (ModbusConnInfo.Port modbusConnInfo)
      (ModbusConnInfo.SlaveID modbusConnInfo)
      (ModbusInstanceLib.DetailSession lib) in
  match GetModbusValue detailSession with
  | None => results
  | Some data =>
      let modbusDetailResult : gmap string any := AnyString <$> data in
      results ++
        [ScanInstanceInfo.with_modbus_detail
           (getStringValue modbusDetailResult FIELD_VERSION_NAME)
           (getStringValue modbusDetailResult FIELD_SERIAL_NUMBER_NAME)
           (parseUptimeToSeconds
              (getStringValue modbusDetailResult FIELD_UPTIME_NAME))
           result]
  end.

(** The body of the port loop: the candidate list [modbusConnInfos] is
    declared before the loop and carried from port to port. *)
Definition modbus_sweep_port (g : Global.t) (ip : string)
    (st : list ModbusConnInfo.t * list ScanInstanceInfo.t) (port : Z)
  : list ModbusConnInfo.t * list ScanInstanceInfo.t :=
  let '(modbusConnInfos, results) := st in
  let modbusConnInfos :=
    foldl (modbus_match_pair g ip port) modbusConnInfos
          (ModbusSettings.SlaveID (Global.ModbusSettings g)) in
  if (length modbusConnInfos =? 0)%nat then (modbusConnInfos, results)
  else (modbusConnInfos, foldl (modbus_detail g ip) results modbusConnInfos).

(** [MatchModbusInstances]. *)
Definition MatchModbusInstances (g : Global.t) (ip : string)
  : list ScanInstanceInfo.t :=
  snd (foldl (modbus_sweep_port g ip) ([], [])
             (ModbusSettings.Port (Global.ModbusSettings g))).

(** What one run of [ScanDevice] did: the records and errors it collected,
    and the addresses on which it called [MatchModbusInstances], in call
    order. *)
Record scan_outcome := mk_scan_outcome {
  results : list ScanInstanceInfo.t;
  scanErrors : list string;
  modbus_sweeps : list string }.

(** The dependency loop of [ScanDevice]. *)
Definition scan_dependency (g : Global.t) (snmpScanResult : ScanInstanceInfo.t)
    (out : scan_outcome) (d : Dependencies.t) : scan_outcome :=
  if String.eqb (ScanInstanceInfo.TargetName snmpScanResult)
                (Dependencies.SourceTarget d)
  then
    let ip := ScanInstanceInfo.IP snmpScanResult in
    let modbusResults := MatchModbusInstances g ip in
    if (0 <? length modbusResults)%nat
    then mk_scan_outcome (results out ++ modbusResults) (scanErrors out)
                         (modbus_sweeps out ++ [ip])
    else mk_scan_outcome (results out)
                         (scanErrors out ++ ["modbus: no device found"])
                         (modbus_sweeps out ++ [ip])
  else out.

(** The worker of [ScanDevice], run to completion: a panic of the SNMP step
    is recovered into an error. What the caller of [ScanDevice] gets back,
    which depends on the [select] between the end of the worker and the
    timer, is [CollectRest.ScanDevice_select]. *)
Definition ScanDevice (g : Global.t) (snmpConnInfo : SnmpConnInfo.t)
  : scan_outcome :=
  match MatchSnmpInstances g snmpConnInfo with
  | None => mk_scan_outcome [] ["recovered panic"] []
  | Some (snmpScanResult, err) =>
      let out := mk_scan_outcome [snmpScanResult] [] [] in
      match err with
      | None => foldl (scan_dependency g snmpScanResult) out (Global.Dependencies g)
      | Some _ => out
      end
  end.

End WithNetwork.

End Collect.

(** * [services/config.go]: building the signature libraries *)
Module Config.
Import Models.

Definition getSNMPInstanceFieldRequest (targetName : string)
  : list SNMPRequest.t :=
  if String.eqb targetName PDUE428_NAME then
    [SNMPRequest.mk FIELD_MODEL_NAME SNMP_OID_DELTA_PDU_MODEL;
     SNMPRequest.mk FIELD_SERIAL_NUMBER_NAME SNMP_OID_DELTA_PDU_SERIAL_NUMBER;
     SNMPRequest.mk FIELD_VERSION_NAME SNMP_OID_DELTA_PDU_VERSION;
     SNMPRequest.mk FIELD_UPTIME_NAME SNMP_OID_UPTIME]
  else if String.eqb targetName PDU6PS56_NAME then
    [SNMPRequest.mk FIELD_MODEL_NAME SNMP_OID_VERTIV_6PS56_MODEL;
     SNMPRequest.mk FIELD_SERIAL_NUMBER_NAME SNMP_OID_VERTIV_6PS56_SERIAL_NUMBER;
     SNMPRequest.mk FIELD_VERSION_NAME SNMP_OID_VERTIV_6PS56_VERSION;
     SNMPRequest.mk FIELD_UPTIME_NAME SNMP_OID_UPTIME]
  else if String.eqb targetName SWITCH5130_NAME
          || String.eqb targetName SWITCH5945_NAME
          || String.eqb targetName IOT_CLIENT_NAME then
    [SNMPRequest.mk FIELD_SNMP_ENGINE_ID_NAME SNMP_OID_SNMP_ENGINE_ID;
     SNMPRequest.mk FIELD_SYS_DESCR_NAME SNMP_OID_SYS_DESCR;
     SNMPRequest.mk FIELD_SYS_NAME SNMP_OID_SYS_NAME;
     SNMPRequest.mk FIELD_UPTIME_NAME SNMP_OID_UPTIME]
  else if String.eqb targetName UNKNOWN_NAME then
    [SNMPRequest.mk FIELD_SYS_NAME SNMP_OID_SYS_NAME;
     SNMPRequest.mk FIELD_SYS_DESCR_NAME SNMP_OID_SYS_DESCR;
     SNMPRequest.mk FIELD_UPTIME_NAME SNMP_OID_UPTIME]
  else [].

Definition getModbusInstanceFieldRequest (targetName : string)
  : list ModbusRequest.t :=
  if String.eqb targetName PDU1315_NAME || String.eqb targetName PDU4445_NAME
  then
    [ModbusRequest.mk MODBUS_DELTA_PDU_MODEL_REGISTER_TYPE FIELD_MODEL_NAME
       MODBUS_DELTA_PDU_MODEL_ADDRESS MODBUS_DELTA_PDU_MODEL_LENGTH;
     ModbusRequest.mk MODBUS_DELTA_PDU_SERIAL_REGISTER_TYPE
       FIELD_SERIAL_NUMBER_NAME MODBUS_DELTA_PDU_SERIAL_ADDRESS
       MODBUS_DELTA_PDU_SERIAL_LENGTH]
  else [].

(** The body of the target loop of [loadSNMPInstanceLib]. *)
Definition snmp_lib_add (lib : SNMPInstanceLib.t) (targetConfig : Target.t)
  : SNMPInstanceLib.t :=
  if negb (String.eqb (Target.Protocol targetConfig) PROTOCOL_SNMP) then lib
  else
    let matchSession :=
      SnmpSession.mk SnmpConn.zero
        [SNMPRequest.mk (Target.Name targetConfig)
                        (Target.SNMP_MatchOID targetConfig)] in
    let detailSession :=
      SnmpSession.mk SnmpConn.zero
        (getSNMPInstanceFieldRequest (Target.Name targetConfig)) in
    SNMPInstanceLib.mk
      (SNMPInstanceLib.TargetNames lib ++ [Target.Name targetConfig])
      (SNMPInstanceLib.Targets lib ++ [targetConfig])
      (SNMPInstanceLib.CustomModelSessions lib ++ [matchSession])
      (SNMPInstanceLib.DetailFieldSessions lib ++ [detailSession])
      (SNMPInstanceLib.UnknownSession lib).

(** [loadSNMPInstanceLib]: the value it stores in [global.SNMPInstanceLib]. *)
Definition loadSNMPInstanceLib (snmp : SNMPSettings.t)
    (targets : list Target.t) : SNMPInstanceLib.t :=
  let lib := foldl snmp_lib_add SNMPInstanceLib.zero targets in
  let baseConn :=
    SnmpConn.mk "" (SNMPSettings.Port snmp) (SNMPSettings.Version snmp)
                (SNMPSettings.Community snmp) in
  SNMPInstanceLib.mk (SNMPInstanceLib.TargetNames lib)
    (SNMPInstanceLib.Targets lib) (SNMPInstanceLib.CustomModelSessions lib)
    (SNMPInstanceLib.DetailFieldSessions lib)
    (SnmpSession.mk baseConn (getSNMPInstanceFieldRequest UNKNOWN_NAME)).

(** Conversion [uint16(n)]. *)
Definition to_uint16 (n : Z) : Z := n mod 2 ^ 16.

(** The body of the target loop of [loadModbusInstanceLib]; [mfg_targets] is
    the list of manufacturers seen so far for this (port, slave ID) pair, the
    manufacturer of the current target included. *)
Definition modbus_lib_add (baseConn : ModbusConn.t)
    (st : list string * ModbusInstanceLib.t) (targetConfig : Target.t)
  : list string * ModbusInstanceLib.t :=
  let '(mfg_targets, lib) := st in
  let mfg_targets := mfg_targets ++ [Target.Manufacturer targetConfig] in
  if negb (String.eqb (Target.Protocol targetConfig) PROTOCOL_MODBUS)
  then (mfg_targets, lib)
  else if negb (slices_Contains mfg_targets (Target.Manufacturer targetConfig))
  then (mfg_targets, lib)
  else
    let matchSession :=
      ModbusSession.mk baseConn
        [ModbusRequest.mk (Target.Modbus_MatchRegisterType targetConfig)
           (Target.Name targetConfig)
           (to_uint16 (Target.Modbus_MatchAddress targetConfig))
           (to_uint16 (Target.Modbus_MatchLength targetConfig))] in
    let detailSession :=
      ModbusSession.mk baseConn
        (getModbusInstanceFieldRequest (Target.Name targetConfig)) in
    (mfg_targets,
     ModbusInstanceLib.mk
       (ModbusInstanceLib.TargetNames lib ++ [Target.Name targetConfig])
       (ModbusInstanceLib.Targets lib ++ [targetConfig])
       matchSession detailSession).

(** [loadModbusInstanceLib]: the value it stores in
    [global.ModbusInstanceLib]. *)
Definition loadModbusInstanceLib (config : ModbusSettings.t)
    (targets : list Target.t) : ModbusInstanceLib.t :=
  foldl (fun lib port =>
           foldl (fun lib slaveID =>
                    let baseConn :=
                      ModbusConn.mk "" port (ModbusSettings.Mode config)
                                    (slaveID mod 256) in
                    snd (foldl (modbus_lib_add baseConn) ([], lib) targets))
                 lib (ModbusSettings.SlaveID config))
        ModbusInstanceLib.zero (ModbusSettings.Port config).

End Config.

(** * [services]: deduplication and persistence *)
Module Persist.
Import Models.

Definition pending_pdu_header : list string :=
  ["ip_key"; "model"; "ip"; "protocol"; "version"; "serial_number";
   "mac_address"; "instance_type"; "manufacturer"; "uptime"; "updated_at"].

Definition pending_device_header : list string :=
  ["ip_key"; "ip"; "protocol"; "model"; "mac_address"; "instance_type";
   "manufacturer"; "uptime"; "updated_at"].

(** The identity key [FilteredResults] derives for a record. *)
Definition ip_key (result : ScanInstanceInfo.t) : string :=
  let ipKey := ScanInstanceInfo.IP result +:+ ":" +:+
               fmt_d (ScanInstanceInfo.Port result) in
  if String.eqb (ScanInstanceInfo.Protocol result) PROTOCOL_MODBUS
  then ScanInstanceInfo.IP result +:+ ":" +:+
       fmt_d (ScanInstanceInfo.Port result) +:+ ":" +:+
       fmt_d (ScanInstanceInfo.SlaveID result)
  else if String.eqb (ScanInstanceInfo.Protocol result) PROTOCOL_SNMP
  then ScanInstanceInfo.IP result +:+ ":" +:+
       fmt_d (ScanInstanceInfo.Port result)
  else ipKey.

(** The body of the loop of [FilteredResults]. The lookup in
    [global.ScanResults] comes after the append; both of its outcomes go on
    to the next record. *)
Definition filter_step (g : Global.t)
    (filteredResults : list ScanInstanceInfo.t) (result : ScanInstanceInfo.t)
  : list ScanInstanceInfo.t :=
  if String.eqb (ScanInstanceInfo.Model result) DEFAULT_UNKNOWN_VALUE
  then filteredResults
  else
    let ipKey := ip_key result in
    let filteredResults :=
      if negb (slices_Contains (Global.ScanIPKeyList g) ipKey)
      then filteredResults ++ [ScanInstanceInfo.with_IPKey ipKey result]
      else filteredResults in
    match Global.ScanResults g !! ipKey with
    | Some _ => filteredResults
    | None => filteredResults
    end.

Definition FilteredResults (g : Global.t) (results : list ScanInstanceInfo.t)
  : list ScanInstanceInfo.t :=
  foldl (filter_step g) [] results.

(** A record passes the filter: its model is known and its identity key is
    not in the pending index. *)
Definition is_new (g : Global.t) (result : ScanInstanceInfo.t) : Prop :=
  ScanInstanceInfo.Model result <> DEFAULT_UNKNOWN_VALUE /\
  ip_key result ∉ Global.ScanIPKeyList g.

#[export] Instance is_new_dec g result : Decision (is_new g result).
Proof. unfold is_new. apply _. Defined.

(** The record with its identity key filled in. *)
Definition keyed (result : ScanInstanceInfo.t) : ScanInstanceInfo.t :=
  ScanInstanceInfo.with_IPKey (ip_key result) result.

(** The record [saveToCSV] writes for a result. *)
Definition csv_record (isPDU : bool) (currentTime : string)
    (result : ScanInstanceInfo.t) : list string :=
  if isPDU then
    [ScanInstanceInfo.IPKey result; ScanInstanceInfo.Model result;
     ScanInstanceInfo.IP result; ScanInstanceInfo.Protocol result;
     ScanInstanceInfo.Version result; ScanInstanceInfo.SerialNumber result;
     ScanInstanceInfo.MacAddress result; ScanInstanceInfo.InstanceType result;
     ScanInstanceInfo.Manufacturer result;
     fmt_d (ScanInstanceInfo.Uptime result); currentTime]
  else
    [ScanInstanceInfo.IPKey result; ScanInstanceInfo.IP result;
     ScanInstanceInfo.Protocol result; ScanInstanceInfo.Model result;
     ScanInstanceInfo.MacAddress result; ScanInstanceInfo.InstanceType result;
     ScanInstanceInfo.Manufacturer result;
     fmt_d (ScanInstanceInfo.Uptime result); currentTime].

Section WithSystem.

(** [os.OpenFile(filename, O_APPEND|O_WRONLY|O_CREATE, 0644)] succeeds, and
    the time [formatTime(time.Now())] of the write, in RFC 3339 text. *)
Variable can_open : string -> bool.
Variable currentTime : string.

(** [saveToCSV]: the files after the call and the returned error. The file
    is opened for appending: what it held stays in front. *)
Definition saveToCSV (results : list ScanInstanceInfo.t) (isPDU : bool)
    (fs : FS) : FS * error :=
  let filename := if isPDU then SCAN_PDU_LIST else SCAN_DEVICE_LIST in
  let header := if isPDU then pending_pdu_header else pending_device_header in
  let fileExists := bool_decide (is_Some (fs !! filename)) in
  if negb (can_open filename) then (fs, Some "open failed")
  else
    let content := default [] (fs !! filename) in
    let content := if negb fileExists then content ++ [header] else content in
    let content := content ++ (csv_record isPDU currentTime <$> results) in
    (<[filename := content]> fs, None).

(** [SaveResults]: the files after the call, the returned list and the
    returned error. *)
Definition SaveResults (g : Global.t) (results : list ScanInstanceInfo.t)
    (fs : FS) : FS * list ScanInstanceInfo.t * error :=
  let filteredResults := FilteredResults g results in
  let '(pduResult, deviceResult) := Collect.ClassifyResults filteredResults in
  if (length pduResult =? 0)%nat && (length deviceResult =? 0)%nat
  then (fs, [], None)
  else
    let '(fs, saveErrors) :=
      if (0 <? length pduResult)%nat
      then match saveToCSV pduResult true fs with
           | (fs', Some e) => (fs', ["pdu: " +:+ e])
           | (fs', None) => (fs', [])
           end
      else (fs, []) in
    let '(fs, saveErrors) :=
      if (0 <? length deviceResult)%nat
      then match saveToCSV deviceResult false fs with
           | (fs', Some e) => (fs', saveErrors ++ ["device: " +:+ e])
           | (fs', None) => (fs', saveErrors)
           end
      else (fs, saveErrors) in
    if (0 <? length saveErrors)%nat
    then (fs, [], Some "save errors")
    else (fs, filteredResults, None).

End WithSystem.

(** The files [fs'] are the files [fs] with rows appended: every file is
    unchanged or holds what it held, in the same order, followed by rows
    that satisfy [Q]. *)
Definition appended_only (Q : list string -> Prop) (fs fs' : FS) : Prop :=
  forall filename,
    fs' !! filename = fs !! filename \/
    exists added,
      fs' !! filename = Some (default [] (fs !! filename) ++ added) /\
      Forall Q added.

(** A row written for one of [results] that passed the filter of the
    cycle: its first column is the identity key of the record, and the key
    is not in the pending index. *)
Definition new_row (g : Global.t) (results : list ScanInstanceInfo.t)
    (row : list string) : Prop :=
  exists result,
    result ∈ results /\ is_new g result /\ head row = Some (ip_key result).

Definition is_header (row : list string) : Prop :=
  row = pending_pdu_header \/ row = pending_device_header.

(** A pending list after the records [part] have been written to it: the
    header row first when the list did not exist, then one row per record,
    in order; the list as it was when there is no record, since
    [SaveResults] does not call [saveToCSV] then. *)
Definition appended_file (isPDU : bool) (currentTime : string)
    (part : list ScanInstanceInfo.t) (old : option (list (list string)))
  : option (list (list string)) :=
  match part with
  | [] => old
  | _ :: _ =>
      Some (default [if isPDU then pending_pdu_header else pending_device_header]
                    old
            ++ (csv_record isPDU currentTime <$> part))
  end.

End Persist.

(** * A sample configuration, for the examples *)
Module Sample.
Import Models.

Definition snmp_settings : SNMPSettings.t :=
  SNMPSettings.mk 161 "" "public" 2 2 1.

Definition modbus_settings : ModbusSettings.t :=
  ModbusSettings.mk [7000; 7001] "RTUOverTCP" 2 1 [1; 2].

(** Two SNMP targets, the signature of the first a prefix of the second's. *)
Definition target_A : Target.t :=
  Target.mk "A" "pdu" "DELTA" "PDU" "snmp" "PDU" "1.3.6.1.2.1.1.1.0" "" "" 0 0.

Definition target_B : Target.t :=
  Target.mk "B" "pdu" "DELTA" "PDUX" "snmp" "PDUX" "1.3.6.1.2.1.1.1.0" "" "" 0 0.

(** The gateway of the dependency table and two Modbus PDUs behind it. *)
Definition target_gateway : Target.t :=
  Target.mk IOT_CLIENT_NAME "gateway" "LIENEO" "WCM-421" "snmp" "WCM-421"
            "1.3.6.1.4.1.2021.50.3.101.1" "" "" 0 0.

Definition target_pdu1315 : Target.t :=
  Target.mk PDU1315_NAME "pdu" "DELTA" "PDU1315" "modbus" "" ""
            "PDU1315" "input" 1024 8.

Definition target_pdu4445 : Target.t :=
  Target.mk PDU4445_NAME "pdu" "DELTA" "PDU4445" "modbus" "" ""
            "PDU4445" "input" 1024 8.

(** [global.Init] and [loadTargetSettings] on a configuration. *)
Definition load (targets : list Target.t) (deps : list Dependencies.t)
  : Global.t :=
  Global.mk modbus_settings snmp_settings targets deps
    (Config.loadSNMPInstanceLib snmp_settings targets)
    (Config.loadModbusInstanceLib modbus_settings targets) ∅ [].

(** A network with one gateway at 10.1.1.1 that answers SNMP and has a
    Delta PDU behind Modbus port 7000, slave 1; nothing else answers. *)
Definition gateway_snmp (conn : SnmpConn.t) (oids : list string)
  : option (list any) :=
  if String.eqb (SnmpConn.IP conn) "10.1.1.1"
  then Some ((fun oid =>
                if String.eqb oid "1.3.6.1.4.1.2021.50.3.101.1"
                then AnyString "WCM-421"
                else if String.eqb oid SNMP_OID_UPTIME then AnyString "(3 days)"
                else AnyString "lieneo") <$> oids)
  else None.

Definition gateway_connect (conn : ModbusConn.t) : bool :=
  String.eqb (ModbusConn.IP conn) "10.1.1.1" && (ModbusConn.Port conn =? 7000).

Definition gateway_input (conn : ModbusConn.t) (address length : Z)
  : option string :=
  if ModbusConn.SlaveID conn =? 1 then Some "PDU1315 " else None.

Definition gateway_holding (conn : ModbusConn.t) (address length : Z)
  : option string :=
  if ModbusConn.SlaveID conn =? 1 then Some "SN123456" else None.

(** A network on which nothing answers. *)
Definition down_snmp (conn : SnmpConn.t) (oids : list string)
  : option (list any) := None.
Definition down_connect (conn : ModbusConn.t) : bool := false.
Definition down_read (conn : ModbusConn.t) (address length : Z)
  : option string := None.

Definition no_arp (ip : string) : string * error := ("", Some "no MAC address").

Definition gateway_dependency : Dependencies.t :=
  Dependencies.mk "modbus" IOT_CLIENT_NAME [PDU1315_NAME; PDU4445_NAME].

Definition unknown_dependency : Dependencies.t :=
  Dependencies.mk "modbus" UNKNOWN_NAME [PDU1315_NAME].

Definition gateway_config : Global.t :=
  load [target_gateway; target_pdu1315; target_pdu4445] [gateway_dependency].

Definition unknown_source_config : Global.t :=
  load [target_gateway; target_pdu1315; target_pdu4445] [unknown_dependency].

(** Records as the scan of the gateway produces them: the gateway itself,
    and the PDU behind it, which the sweep reports once per port. *)
Definition gateway_record : ScanInstanceInfo.t :=
  ScanInstanceInfo.mk IOT_CLIENT_NAME "" "10.1.1.1" 161 0 "snmp" "WCM-421"
    "r1.0" "" "80001f88" "lieneo" "lieneo" 259200 "gateway" "LIENEO"
    "00:18:23:68:4a:9d" "" "" "" "".

Definition pdu_record : ScanInstanceInfo.t :=
  ScanInstanceInfo.mk "" "" "10.1.1.1" 7000 1 "modbus" "PDU1315" "v1.2.3"
    "SN123456" "" "" "" 0 "pdu" "DELTA" "" "" "" "" "".

(** What [ScanDevice] returns for the gateway. *)
Definition gateway_scan : list ScanInstanceInfo.t :=
  Collect.results
    (Collect.ScanDevice gateway_snmp gateway_connect gateway_input
       gateway_holding no_arp gateway_config
       (SnmpConnInfo.mk "10.1.1.1" 161 "public" 2)).

(** A registry list that already holds the PDU behind the gateway. *)
Definition registry_files : FS :=
  {[ REGISTRY_PDU_LIST :=
       [["ip_key"; "model"]; ["10.1.1.1:7000:1"; "PDU1315"]] ]}.

(** The two orders of the targets A and B. *)
Definition ab_config : Global.t := load [target_A; target_B] [].
Definition ba_config : Global.t := load [target_B; target_A] [].

(** The in-memory map of an earlier cycle that holds the PDU. *)
Definition registered : gmap string ScanInstanceInfo.t :=
  {[ "10.1.1.1:7000:1" := pdu_record ]}.

(** An invocation of the sweep tool that fails: the tool is not installed. *)
Definition failing_exec (args : list string) : string * error :=
  ("", Some "exec: fping: executable file not found in $PATH").

(** A device behind the gateway that presents itself as the second Modbus
    target. *)
Definition input_4445 (conn : ModbusConn.t) (address length : Z)
  : option string :=
  if ModbusConn.SlaveID conn =? 1 then Some "PDU4445 " else None.

Definition always_open (filename : string) : bool := true.
Definition never_open (filename : string) : bool := false.
Definition sample_time : string := "2025-05-01T08:00:00+08:00".

End Sample.

(** * The rest of [utils/fping_ip.go] *)
Module FpingRest.
Import FpingIP.

Section WithLibrary.

Variable ParseIP_To4 : string -> option IPv4.
Variable exec_CombinedOutput : list string -> string * error.
Variable bufio_ScanLines : string -> list string.
Variable strings_TrimSpace : string -> string.

(** [HasAliveIPsInCIDR]. *)
Definition HasAliveIPsInCIDR (cidr : string) (retries timeout : Z)
  : bool * list string * error :=
  match ExecuteFping exec_CombinedOutput bufio_ScanLines strings_TrimSpace
                     cidr retries timeout with
  | (_, Some e) => (false, [], Some e)
  | (aliveIPs, None) => ((0 <? length aliveIPs)%nat, aliveIPs, None)
  end.

(** The loop of [HasAliveIPsInRange] over the alive hosts: those in the
    target set are kept, in order. *)
Definition range_match (targetSet : gset string) (matched : list string)
    (ip : string) : list string :=
  if bool_decide (ip ∈ targetSet) then matched ++ [ip] else matched.

(** [HasAliveIPsInRange]; [None] when [ExpandRange] does not leave its loop
    within [fuel] iterations. *)
Definition HasAliveIPsInRange (fuel : nat) (startIP endIP : string)
    (retries timeout : Z) : option (bool * list string * error) :=
  match CalculateCIDR ParseIP_To4 startIP endIP with
  | Err _ => Some (false, [], Some "CIDR")
  | Ok cidr =>
      match ExecuteFping exec_CombinedOutput bufio_ScanLines strings_TrimSpace
                         cidr retries timeout with
      | (_, Some _) => Some (false, [], Some "fping")
      | (aliveIPs, None) =>
          match ExpandRange ParseIP_To4 fuel startIP endIP with
          | None => None
          | Some (Err _) => Some (false, [], Some "expand")
          | Some (Ok targetRange) =>
              let targetSet : gset string := list_to_set targetRange in
              let matched := foldl (range_match targetSet) [] aliveIPs in
              Some ((0 <? length matched)%nat, matched, None)
          end
      end
  end.

End WithLibrary.

End FpingRest.

(** * The rest of [services/collect.go] and [services/config.go] *)
Module CollectRest.
Import Models.

(** A default for an empty string field. *)
Definition or_default (value default : string) : string :=
  if String.eqb value "" then default else value.

(** [formatInstances]. *)
Definition formatInstances (result : ScanInstanceInfo.t) : ScanInstanceInfo.t :=
  ScanInstanceInfo.mk
    (ScanInstanceInfo.TargetName result) (ScanInstanceInfo.IPKey result)
    (ScanInstanceInfo.IP result) (ScanInstanceInfo.Port result)
    (ScanInstanceInfo.SlaveID result) (ScanInstanceInfo.Protocol result)
    (or_default (ScanInstanceInfo.Model result) DEFAULT_UNKNOWN_VALUE)
    (or_default (ScanInstanceInfo.Version result) DEFAULT_UNKNOWN_VALUE)
    (or_default (ScanInstanceInfo.SerialNumber result) DEFAULT_UNKNOWN_VALUE)
    (ScanInstanceInfo.SnmpEngineID result)
    (or_default (ScanInstanceInfo.SysName result) DEFAULT_UNKNOWN_VALUE)
    (or_default (ScanInstanceInfo.SysDescr result) DEFAULT_UNKNOWN_VALUE)
    (if ScanInstanceInfo.Uptime result =? 0 then 0
     else ScanInstanceInfo.Uptime result)
    (or_default (ScanInstanceInfo.InstanceType result) InstanceTypeUnknown)
    (or_default (ScanInstanceInfo.Manufacturer result) DEFAULT_UNKNOWN_VALUE)
    (or_default (ScanInstanceInfo.MacAddress result) DEFAULT_UNKNOWN_VALUE)
    (ScanInstanceInfo.Factory result) (ScanInstanceInfo.Phase result)
    (ScanInstanceInfo.Datacenter result) (ScanInstanceInfo.Room result).

(** [FilterScanList]: the connections whose IP is not an element of
    [global.ScanIPKeyList]. *)
Definition FilterScanList (g : Global.t) (results : list SnmpConnInfo.t)
  : list SnmpConnInfo.t :=
  foldl (fun filteredResults result =>
           if slices_Contains (Global.ScanIPKeyList g) (SnmpConnInfo.IP result)
           then filteredResults
           else filteredResults ++ [result])
        [] results.

(** The zero value of [models.Target]. *)
Definition Target_zero : Target.t := Target.mk "" "" "" "" "" "" "" "" "" 0 0.

(** [FindTargetByName] of [config.go]. *)
Fixpoint find_target (targets : list Target.t) (targetName : string)
  : Target.t :=
  match targets with
  | [] => Target_zero
  | target :: rest =>
      if String.eqb (Target.Name target) targetName then target
      else find_target rest targetName
  end.

Definition FindTargetByName (g : Global.t) (targetName : string) : Target.t :=
  find_target (Global.TargetSettings g) targetName.

(** [FilterRegisteredDevices] of the persistence file: the records whose
    identity key is in neither registry list; [None] is a panic of
    [ReadCSVByColumn]. *)
Definition FilterRegisteredDevices (fs : FS) (results : list ScanInstanceInfo.t)
  : option (list ScanInstanceInfo.t) :=
  registry_pdu_list ← Utils.ReadCSVByColumn fs REGISTRY_PDU_LIST "ip_key";
  registry_device_list ← Utils.ReadCSVByColumn fs REGISTRY_DEVICE_LIST "ip_key";
  let registered_devices := registry_pdu_list ++ registry_device_list in
  Some (foldl (fun filtered_results result =>
                 let ipKey := Persist.ip_key result in
                 if negb (slices_Contains registered_devices ipKey)
                 then filtered_results ++ [result]
                 else filtered_results)
              [] results).

(** What the read loop of [GetModbusValue] has stored: every value is a usable read of one of
    the requests. *)
Definition usable_reads (requests : list ModbusRequest.t)
    (data : gmap string string) : Prop :=
  forall name value,
    data !! name = Some value ->
    value <> "" /\ Collect.allZeros value = false /\
    exists request, request ∈ requests /\
                    ModbusRequest.RegisterName request = name.

(** The read [GetModbusValue] issues for one request: [None] is an error of
    the read, or a register type that is neither ["input"] nor
    ["holding"]. *)
Definition modbus_read
    (ReadInputRegisters ReadHoldingRegisters : ModbusConn.t -> Z -> Z -> option string)
    (conn : ModbusConn.t) (request : ModbusRequest.t) : option string :=
  if String.eqb (ModbusRequest.RegisterType request) "input"
  then ReadInputRegisters conn (ModbusRequest.Address request)
                          (ModbusRequest.Length request)
  else if String.eqb (ModbusRequest.RegisterType request) "holding"
  then ReadHoldingRegisters conn (ModbusRequest.Address request)
                            (ModbusRequest.Length request)
  else None.

(** The bytes [GetModbusValue] accepts: not empty and not all zero. *)
Definition usable (value : string) : Prop :=
  value <> "" /\ Collect.allZeros value = false.

(** A candidate of a Modbus sweep of [ip]: a configured port and slave ID,
    classified as the first target of the library. *)
Definition modbus_candidate_of (g : Global.t) (ip : string)
    (info : ModbusConnInfo.t) : Prop :=
  ModbusConnInfo.IP info = ip /\
  ModbusConnInfo.Port info ∈ ModbusSettings.Port (Global.ModbusSettings g) /\
  ModbusConnInfo.SlaveID info ∈ ModbusSettings.SlaveID (Global.ModbusSettings g) /\
  exists first,
    head (ModbusInstanceLib.Targets (Global.ModbusInstanceLib g)) = Some first /\
    ModbusConnInfo.Model info = Target.Model first /\
    ModbusConnInfo.Manufacturer info = Target.Manufacturer first /\
    ModbusConnInfo.InstanceType info = Target.InstanceType first.

(** A record of a Modbus sweep of [ip]. *)
Definition modbus_record_of (g : Global.t) (ip : string)
    (r : ScanInstanceInfo.t) : Prop :=
  ScanInstanceInfo.Protocol r = PROTOCOL_MODBUS /\
  ScanInstanceInfo.IP r = ip /\
  ScanInstanceInfo.TargetName r = "" /\
  ScanInstanceInfo.IPKey r = "" /\
  ScanInstanceInfo.Port r ∈ ModbusSettings.Port (Global.ModbusSettings g) /\
  ScanInstanceInfo.SlaveID r ∈ ModbusSettings.SlaveID (Global.ModbusSettings g) /\
  exists first,
    head (ModbusInstanceLib.Targets (Global.ModbusInstanceLib g)) = Some first /\
    ScanInstanceInfo.Model r = Target.Model first /\
    ScanInstanceInfo.Manufacturer r = Target.Manufacturer first /\
    ScanInstanceInfo.InstanceType r = Target.InstanceType first.

Section WithTimer.

Variable gosnmp_Get : SnmpConn.t -> list string -> option (list any).
Variable modbus_Connect : ModbusConn.t -> bool.
Variable ReadInputRegisters : ModbusConn.t -> Z -> Z -> option string.
Variable ReadHoldingRegisters : ModbusConn.t -> Z -> Z -> option string.
Variable GetMacByArp : string -> string * error.

(** The variables [results] and [scanErrors] of [ScanDevice] when its worker
    has made [steps] steps: none; then the SNMP step with the append of its
    record; then one iteration of the dependency loop per step. A panic of
    the SNMP step ends the worker with the error its deferred function
    appends. *)
Definition worker_progress (g : Global.t) (snmpConnInfo : SnmpConnInfo.t)
    (steps : nat) : list ScanInstanceInfo.t * list string :=
  match steps with
  | O => ([], [])
  | S n =>
      match Collect.MatchSnmpInstances gosnmp_Get GetMacByArp g snmpConnInfo with
      | None => ([], ["recovered panic"])
      | Some (snmpScanResult, err) =>
          let out := Collect.mk_scan_outcome [snmpScanResult] [] [] in
          let out :=
            match err with
            | None =>
                foldl (Collect.scan_dependency modbus_Connect ReadInputRegisters
                         ReadHoldingRegisters g snmpScanResult)
                      out (take n (Global.Dependencies g))
            | Some _ => out
            end in
          (Collect.results out, Collect.scanErrors out)
      end
  end.

(** [ScanDevice] as its caller sees it, the [select] at its end. With
    [timer = None] the worker ended before the timer: the list of the
    worker is returned, with an error when the worker recorded one. With
    [timer = Some steps] the timer fired when the worker had made [steps]
    steps: the list as the worker has left it so far is returned with the
    time-out error. *)
Definition ScanDevice_select (timer : option nat) (g : Global.t)
    (snmpConnInfo : SnmpConnInfo.t) : list ScanInstanceInfo.t * error :=
  match timer with
  | None =>
      let out := Collect.ScanDevice gosnmp_Get modbus_Connect ReadInputRegisters
                   ReadHoldingRegisters GetMacByArp g snmpConnInfo in
      (Collect.results out,
       if (0 <? length (Collect.scanErrors out))%nat
       then Some "scan errors" else None)
  | Some steps =>
      (fst (worker_progress g snmpConnInfo steps), Some "scan timed out")
  end.

End WithTimer.

(** [GetScanResultByIPKey] of [global.go]. *)
Definition GetScanResultByIPKey (g : Global.t) (ipKey : string)
  : ScanInstanceInfo.t * bool :=
  match Global.ScanResults g !! ipKey with
  | Some result => (result, true)
  | None => (ScanInstanceInfo.zero, false)
  end.

End CollectRest.

(** * [global/scan_task.go]: the scan schedule of a room

    An instant ([time.Time]) and a duration are integers, nanoseconds on one
    clock; the instant of a call ([time.Now()]) is an argument. *)
Module ScanTask.

Module TemporaryScanTask.
Record t := mk {
  Room : string;
  Interval : Z;
  StartTime : Z;
  EndTime : Z;
  IsActive : bool;
  CreatedAt : Z;
  UpdatedAt : Z }.
End TemporaryScanTask.

Module RoomScanSchedule.
Record t := mk {
  DefaultInterval : Z;
  TemporaryTasks : list TemporaryScanTask.t }.
End RoomScanSchedule.

Definition NewRoomScanSchedule (defaultInterval : Z) : RoomScanSchedule.t :=
  RoomScanSchedule.mk defaultInterval [].

(** The test both loops make: an active task of the room. *)
Definition active_for (room : string) (t : TemporaryScanTask.t) : bool :=
  String.eqb (TemporaryScanTask.Room t) room && TemporaryScanTask.IsActive t.

(** The loop of [AddTemporaryTask]: the first active task of the room is
    overwritten; [None] when there is none. *)
Fixpoint replace_active (room : string) (task : TemporaryScanTask.t)
    (tasks : list TemporaryScanTask.t) : option (list TemporaryScanTask.t) :=
  match tasks with
  | [] => None
  | t :: rest =>
      if active_for room t then Some (task :: rest)
      else cons t <$> replace_active room task rest
  end.

(** [AddTemporaryTask]; its error is always [nil]. *)
Definition AddTemporaryTask (now : Z) (room : string) (interval duration : Z)
    (s : RoomScanSchedule.t) : RoomScanSchedule.t :=
  let task := TemporaryScanTask.mk room interval now (now + duration) true
                                   now now in
  RoomScanSchedule.mk (RoomScanSchedule.DefaultInterval s)
    (match replace_active room task (RoomScanSchedule.TemporaryTasks s) with
     | Some tasks => tasks
     | None => RoomScanSchedule.TemporaryTasks s ++ [task]
     end).

(** The loop of [GetRoomInterval]. The assignment [task.IsActive = false]
    is made to the loop variable, a copy: the schedule is not changed. *)
Fixpoint room_interval (now : Z) (room : string) (defaultInterval : Z)
    (tasks : list TemporaryScanTask.t) : Z :=
  match tasks with
  | [] => defaultInterval
  | task :: rest =>
      if active_for room task
      then if now >? TemporaryScanTask.EndTime task
           then room_interval now room defaultInterval rest
           else TemporaryScanTask.Interval task
      else room_interval now room defaultInterval rest
  end.

Definition GetRoomInterval (now : Z) (room : string) (s : RoomScanSchedule.t)
  : Z :=
  room_interval now room (RoomScanSchedule.DefaultInterval s)
                (RoomScanSchedule.TemporaryTasks s).

(** [CleanupExpiredTasks]. *)
Definition CleanupExpiredTasks (now : Z) (s : RoomScanSchedule.t)
  : RoomScanSchedule.t :=
  RoomScanSchedule.mk (RoomScanSchedule.DefaultInterval s)
    (foldl (fun activeTasks task =>
              if TemporaryScanTask.IsActive task
                 && (now <? TemporaryScanTask.EndTime task)
              then activeTasks ++ [task] else activeTasks)
           [] (RoomScanSchedule.TemporaryTasks s)).

(** The fields of [Scanner] the schedule functions use. The map holds
    pointers to schedules; a schedule is reached through the map only, so
    a change of a schedule is an update of the map. *)
Module Scanner.
Record t := mk {
  ScanInterval : Z;
  roomSchedules : gmap string RoomScanSchedule.t }.
End Scanner.

Definition with_schedule (room : string) (schedule : RoomScanSchedule.t)
    (s : Scanner.t) : Scanner.t :=
  Scanner.mk (Scanner.ScanInterval s)
             (<[room := schedule]> (Scanner.roomSchedules s)).

(** [UpdateRoomInterval]. *)
Definition UpdateRoomInterval (now : Z) (room : string) (interval duration : Z)
    (s : Scanner.t) : Scanner.t * error :=
  match Scanner.roomSchedules s !! room with
  | None => (s, Some "room does not exist")
  | Some schedule =>
      (with_schedule room (AddTemporaryTask now room interval duration schedule) s,
       None)
  end.

(** [GetRoomSchedule]. *)
Definition GetRoomSchedule (room : string) (s : Scanner.t)
  : Scanner.t * RoomScanSchedule.t :=
  match Scanner.roomSchedules s !! room with
  | Some schedule => (s, schedule)
  | None =>
      let schedule := NewRoomScanSchedule (Scanner.ScanInterval s) in
      (with_schedule room schedule s, schedule)
  end.

(** [UpdateRoomSchedule]. *)
Definition UpdateRoomSchedule (room : string) (interval : Z) (s : Scanner.t)
  : Scanner.t :=
  match Scanner.roomSchedules s !! room with
  | Some _ => s
  | None => with_schedule room (NewRoomScanSchedule interval) s
  end.

(** [CleanupExpiredSchedules]. *)
Definition CleanupExpiredSchedules (now : Z) (s : Scanner.t) : Scanner.t :=
  Scanner.mk (Scanner.ScanInterval s)
             (CleanupExpiredTasks now <$> Scanner.roomSchedules s).

(** [GetScanInterval] (and [GetRoomScanInterval], which has the same
    body). *)
Definition GetScanInterval (now : Z) (room : string) (s : Scanner.t) : Z :=
  match Scanner.roomSchedules s !! room with
  | None => Scanner.ScanInterval s
  | Some schedule => GetRoomInterval now room schedule
  end.

(** [AddTemporaryScanTask]. *)
Definition AddTemporaryScanTask (now : Z) (roomID : string) (duration : Z)
    (s : Scanner.t) : Scanner.t :=
  let schedule :=
    default (NewRoomScanSchedule (Scanner.ScanInterval s))
            (Scanner.roomSchedules s !! roomID) in
  with_schedule roomID
    (AddTemporaryTask now roomID (Scanner.ScanInterval s) duration schedule) s.

End ScanTask.

(** * Vocabulary for the pending lists on disk *)
Module PendingFiles.
Import Models.

(** The first field of every row. *)
Definition first_column (rows : list (list string)) : list string :=
  (fun row : list string => default "" (head row)) <$> rows.

(** The identity keys a pending list holds: the first column below the
    header row. *)
Definition file_keys (file : option (list (list string))) : list string :=
  match file with
  | Some (_ :: rows) => first_column rows
  | _ => []
  end.

(** A pending list as [saveToCSV] leaves it: absent, or a header row whose
    first column is [ip_key] followed by rows that are not empty. *)
Definition file_ok (file : option (list (list string))) : Prop :=
  match file with
  | None => True
  | Some content =>
      exists header rows,
        content = header :: rows /\
        Utils.column_index header "ip_key" = Some O /\
        Forall (fun row => row <> []) rows
  end.

(** The file [saveToCSV] writes for each kind of record. *)
Definition list_name (isPDU : bool) : string :=
  if isPDU then SCAN_PDU_LIST else SCAN_DEVICE_LIST.

Definition well_formed (fs : FS) : Prop :=
  file_ok (fs !! SCAN_PDU_LIST) /\ file_ok (fs !! SCAN_DEVICE_LIST).

End PendingFiles.

(** * More sample data, for the examples of the further properties *)
Module SampleRest.
Import Models.

(** A sweep that reports one host of the range alive, one host outside of
    it alive, and one host of the range unreachable. *)
Definition sweep_exec (args : list string) : string * error :=
  ("10.0.0.1 : 1.2 0.4" +:+ String "010" "10.0.0.9 : 0.5 0.5"
   +:+ String "010" "10.0.0.2 : - -" +:+ String "010" "", None).

(** The record of the PDU behind the gateway as the Modbus sweep of
    [Sample.gateway_config] on the sample network returns it. *)
Definition swept_pdu : ScanInstanceInfo.t :=
  ScanInstanceInfo.mk "" "" "10.1.1.1" 7000 1 "modbus" "PDU1315" ""
    "SN123456" "" "" "" 0 "pdu" "DELTA" "" "" "" "" "".

(** A scanner with one room schedule that holds an expired task and a
    task of another room. *)
Definition room_a_schedule : ScanTask.RoomScanSchedule.t :=
  ScanTask.RoomScanSchedule.mk 300
    [ScanTask.TemporaryScanTask.mk "room-a" 30 0 100 true 0 0;
     ScanTask.TemporaryScanTask.mk "room-b" 45 0 5000 true 0 0].

Definition sample_scanner : ScanTask.Scanner.t :=
  ScanTask.Scanner.mk 600 {[ "room-a" := room_a_schedule ]}.

End SampleRest.

(** * Properties *)

(** ** The helpers against Go's library *)

Lemma prefix_iff_append p s :
  String.prefix p s = true <-> exists rest, s = p +:+ rest.
Proof.
  revert s. induction p as [|c p IH]; intros s.
  - split; [intros _; exists s; reflexivity | intros _; destruct s; reflexivity].
  - destruct s as [|d s].
    + split; [discriminate | intros [rest Hrest]; discriminate Hrest].
    + cbn [String.prefix]. destruct (ascii_dec c d) as [->|Hne].
      * rewrite IH. split; intros [rest Hrest]; exists rest.
        -- rewrite Hrest. reflexivity.
        -- change (String d p +:+ rest) with (String d (p +:+ rest)) in Hrest.
           congruence.
      * split; [discriminate |].
        intros [rest Hrest].
        change (String c p +:+ rest) with (String c (p +:+ rest)) in Hrest.
        congruence.
Qed.

(** [strings_Contains] holds exactly when the substring occurs. *)
Lemma strings_Contains_iff s substr :
  strings_Contains s substr = true
  <-> exists before after, s = before +:+ substr +:+ after.
Proof.
  induction s as [|c s IH].
  - cbn [strings_Contains]. rewrite orb_false_r, prefix_iff_append. split.
    + intros [rest Hrest]. exists "", rest. exact Hrest.
    + intros ([|? ?] & after & Heq); [exists after; exact Heq | discriminate Heq].
  - cbn [strings_Contains]. rewrite orb_true_iff, prefix_iff_append, IH. split.
    + intros [[rest Hrest]|(before & after & Heq)].
      * exists "", rest. exact Hrest.
      * exists (String c before), after. rewrite Heq. reflexivity.
    + intros ([|d before] & after & Heq).
      * left. exists after. exact Heq.
      * right. exists before, after.
        change (String d before +:+ substr +:+ after)
          with (String d (before +:+ substr +:+ after)) in Heq.
        congruence.
Qed.

Example helpers_on_samples :
  strings_Contains "PDUX-1000" "PDU" = true /\
  strings_Contains "PDU" "PDUX" = false /\
  strings_Contains "anything" "" = true /\
  strings_Split "10.0.0.1 : 1.2 0.4" ":" = ["10.0.0.1 "; " 1.2 0.4"] /\
  strings_Split "" ":" = [""] /\
  strings_Split "a::b" ":" = ["a"; ""; "b"] /\
  strings_Trim "((3 days))" "()" = "3 days" /\
  strings_Join ["a"; "b"; "c"] " " = "a b c" /\
  strconv_ParseInt "-12" = Some (-12) /\
  strconv_ParseInt "+7" = Some 7 /\
  strconv_ParseInt "9223372036854775808" = None /\
  strconv_ParseInt "-9223372036854775808" = Some (- 2 ^ 63) /\
  strconv_ParseInt "1_000" = None /\
  fmt_d 0 = "0" /\ fmt_d (-5) = "-5" /\ fmt_d 7000 = "7000".
Proof. repeat split; vm_compute; reflexivity. Qed.

(** ** The CIDR and range utility *)

Section CIDR_facts.
Import FpingIP.

Lemma uint8_range b : 0 <= uint8 b < 256.
Proof.
  unfold uint8. pose proof (Byte.to_N_bounded b) as Hb.
  split; [apply N2Z.is_nonneg | lia].
Qed.

Lemma ipToUint32_range ip : 0 <= ipToUint32 ip < 2 ^ 32.
Proof.
  unfold ipToUint32.
  pose proof (uint8_range (IP_index ip 0)) as H0.
  pose proof (uint8_range (IP_index ip 1)) as H1.
  pose proof (uint8_range (IP_index ip 2)) as H2.
  pose proof (uint8_range (IP_index ip 3)) as H3.
  assert (Hlor : forall a b n, 0 < n -> 0 <= a < 2 ^ n -> 0 <= b < 2 ^ n ->
                               0 <= Z.lor a b < 2 ^ n).
  { intros a b n Hn Ha Hb. split; [apply Z.lor_nonneg; lia |].
    destruct (Z.eq_dec (Z.lor a b) 0) as [->|Hne]; [lia |].
    apply Z.log2_lt_pow2; [pose proof (Z.lor_nonneg a b); lia |].
    rewrite Z.log2_lor by lia.
    apply Z.max_lub_lt.
    - destruct (Z.eq_dec a 0) as [->|]; [simpl; lia |].
      apply Z.log2_lt_pow2; lia.
    - destruct (Z.eq_dec b 0) as [->|]; [simpl; lia |].
      apply Z.log2_lt_pow2; lia. }
  rewrite !Z.shiftl_mul_pow2 by lia.
  repeat apply Hlor; lia.
Qed.

Lemma Len32_nonneg d : 0 <= d -> 0 <= Len32 d.
Proof.
  intros Hd. unfold Len32. destruct (Z.eqb_spec d 0); [lia |].
  pose proof (Z.log2_nonneg d). lia.
Qed.

Lemma Len32_upper d : 0 <= d -> d < 2 ^ Len32 d.
Proof.
  intros Hd. unfold Len32. destruct (Z.eqb_spec d 0) as [->|Hne]; [simpl; lia |].
  replace (Z.log2 d + 1) with (Z.succ (Z.log2 d)) by lia.
  apply Z.log2_spec. lia.
Qed.

Lemma Len32_le d j : 0 <= d -> 0 <= j -> d < 2 ^ j -> Len32 d <= j.
Proof.
  intros Hd Hj Hlt. unfold Len32. destruct (Z.eqb_spec d 0) as [->|Hne]; [lia |].
  assert (Z.log2 d < j) by (apply Z.log2_lt_pow2; lia). lia.
Qed.

Lemma lxor_range a b n :
  0 < n -> 0 <= a < 2 ^ n -> 0 <= b < 2 ^ n -> 0 <= Z.lxor a b < 2 ^ n.
Proof.
  intros Hn Ha Hb.
  assert (Hnn : 0 <= Z.lxor a b) by (apply Z.lxor_nonneg; lia).
  split; [exact Hnn |].
  destruct (Z.eq_dec (Z.lxor a b) 0) as [->|Hne]; [lia |].
  apply Z.log2_lt_pow2; [lia |].
  eapply Z.le_lt_trans; [apply Z.log2_lxor; lia |].
  apply Z.max_lub_lt.
  - destruct (Z.eq_dec a 0) as [->|]; [simpl; lia |]. apply Z.log2_lt_pow2; lia.
  - destruct (Z.eq_dec b 0) as [->|]; [simpl; lia |]. apply Z.log2_lt_pow2; lia.
Qed.

Lemma cidr_maskLen_range s e :
  0 <= s < 2 ^ 32 -> 0 <= e < 2 ^ 32 -> 0 <= cidr_maskLen s e <= 32.
Proof.
  intros Hs He. unfold cidr_maskLen. cbv zeta.
  pose proof (lxor_range s e 32 ltac:(lia) Hs He) as Hd.
  pose proof (Len32_nonneg (Z.lxor s e) ltac:(lia)).
  pose proof (Len32_le (Z.lxor s e) 32 ltac:(lia) ltac:(lia) ltac:(lia)). lia.
Qed.

(** Two addresses agree above bit [j] exactly when their XOR is below
    [2^j]. *)
Lemma shiftr_eq_lxor_small s e j :
  0 <= j -> 0 <= s -> 0 <= e ->
  (Z.shiftr s j = Z.shiftr e j <-> Z.lxor s e < 2 ^ j).
Proof.
  intros Hj Hs He.
  assert (Hnn : 0 <= Z.lxor s e) by (apply Z.lxor_nonneg; lia).
  rewrite <- Z.lxor_eq_0_iff, <- Z.shiftr_lxor, Z.shiftr_div_pow2 by lia.
  assert (0 < 2 ^ j) by (apply Z.pow_pos_nonneg; lia).
  split; intros Hx.
  - apply Z.div_small_iff in Hx; lia.
  - apply Z.div_small. lia.
Qed.

(** The network address is the start address with the bits below the prefix
    cleared. *)
Lemma cidr_network_clear s e :
  0 <= s < 2 ^ 32 -> 0 <= e < 2 ^ 32 ->
  cidr_network s e =
  Z.shiftl (Z.shiftr s (Len32 (Z.lxor s e))) (Len32 (Z.lxor s e)).
Proof.
  intros Hs He. unfold cidr_network, cidr_maskLen. cbv zeta.
  set (k := Len32 (Z.lxor s e)).
  assert (Hk : 0 <= k <= 32).
  { pose proof (cidr_maskLen_range s e Hs He) as H. unfold cidr_maskLen in H.
    cbv zeta in H. fold k in H. lia. }
  replace (32 - (32 - k)) with k by lia.
  unfold wrap32, max_uint32.
  apply Z.bits_inj'. intros i Hi.
  rewrite Z.land_spec, Z.testbit_mod_pow2, !Z.shiftl_spec by lia.
  change (2 ^ 32 - 1) with (Z.ones 32).
  destruct (Z.ltb_spec i k) as [Hik|Hik].
  - rewrite !(Z.testbit_neg_r _ (i - k)) by lia.
    rewrite andb_false_r. apply andb_false_r.
  - rewrite Z.shiftr_spec by lia. replace (i - k + k) with i by lia.
    destruct (Z.ltb_spec i 32) as [Hi32|Hi32].
    + rewrite Z.ones_spec_low by lia. apply andb_true_r.
    + rewrite andb_false_l, andb_false_r.
      symmetry. apply Z.bits_above_log2; [lia |].
      destruct (Z.eq_dec s 0) as [->|Hne]; [simpl; lia |].
      assert (Z.log2 s < 32) by (apply Z.log2_lt_pow2; lia). lia.
Qed.

Lemma cidr_network_in_block s e :
  0 <= s < 2 ^ 32 -> 0 <= e < 2 ^ 32 ->
  in_cidr (cidr_network s e) (cidr_maskLen s e) s.
Proof.
  intros Hs He. unfold in_cidr.
  rewrite cidr_network_clear by assumption.
  unfold cidr_maskLen. cbv zeta.
  set (k := Len32 (Z.lxor s e)).
  assert (Hk : 0 <= k) by (apply Len32_nonneg, Z.lxor_nonneg; lia).
  replace (32 - (32 - k)) with k by lia.
  rewrite Z.shiftr_shiftl_l by lia. rewrite Z.sub_diag. reflexivity.
Qed.

(** The block covers the whole range. *)
Lemma cidr_covers s e x :
  0 <= s < 2 ^ 32 -> 0 <= e < 2 ^ 32 -> s <= x <= e ->
  in_cidr (cidr_network s e) (cidr_maskLen s e) x.
Proof.
  intros Hs He Hx.
  pose proof (cidr_network_in_block s e Hs He) as Hin.
  unfold in_cidr in *. rewrite <- Hin.
  unfold cidr_maskLen. cbv zeta.
  set (k := Len32 (Z.lxor s e)).
  assert (Hk : 0 <= k) by (apply Len32_nonneg, Z.lxor_nonneg; lia).
  replace (32 - (32 - k)) with k by lia.
  assert (Hse : Z.shiftr s k = Z.shiftr e k).
  { apply shiftr_eq_lxor_small; [lia | lia | lia |].
    apply Len32_upper, Z.lxor_nonneg; lia. }
  rewrite !Z.shiftr_div_pow2 in * by lia.
  assert (0 < 2 ^ k) by (apply Z.pow_pos_nonneg; lia).
  assert (s / 2 ^ k <= x / 2 ^ k) by (apply Z.div_le_mono; lia).
  assert (x / 2 ^ k <= e / 2 ^ k) by (apply Z.div_le_mono; lia).
  lia.
Qed.

(** No longer prefix holds both endpoints. *)
Lemma cidr_minimal s e n p :
  0 <= s < 2 ^ 32 -> 0 <= e < 2 ^ 32 -> p <= 32 ->
  in_cidr n p s -> in_cidr n p e -> p <= cidr_maskLen s e.
Proof.
  intros Hs He Hp Hns Hne. unfold in_cidr in *.
  assert (Hse : Z.shiftr s (32 - p) = Z.shiftr e (32 - p)) by congruence.
  apply shiftr_eq_lxor_small in Hse; [| lia | lia | lia].
  unfold cidr_maskLen. cbv zeta.
  pose proof (Len32_le (Z.lxor s e) (32 - p)
                ltac:(apply Z.lxor_nonneg; lia) ltac:(lia) Hse). lia.
Qed.

End CIDR_facts.

(** C4. For all valid IPv4 inputs with start <= end (as unsigned 32-bit
    integers), [CalculateCIDR] returns the text of the block whose prefix
    length is the number of leading zero bits of the XOR of the two
    integers and whose network address is the start address masked to that
    prefix. The block contains every address of [start, end], its network
    address has no bit set below the prefix, and no block with a longer
    prefix contains both endpoints. 172.5.0.1 and 172.5.7.254 give
    172.5.0.0/21. An input that does not parse as IPv4 gives the
    invalid-address error, start > end gives the range-order error. *)
Theorem CalculateCIDR_smallest_cover
    (ParseIP_To4 : string -> option FpingIP.IPv4) (startIP endIP : string) :
  (forall start end_,
      ParseIP_To4 startIP = Some start -> ParseIP_To4 endIP = Some end_ ->
      FpingIP.ipToUint32 start <= FpingIP.ipToUint32 end_ ->
      let s := FpingIP.ipToUint32 start in
      let e := FpingIP.ipToUint32 end_ in
      let maskLen := 32 - FpingIP.Len32 (Z.lxor s e) in
      let network :=
        Z.land s (FpingIP.wrap32 (Z.shiftl FpingIP.max_uint32 (32 - maskLen))) in
      FpingIP.CalculateCIDR ParseIP_To4 startIP endIP
        = FpingIP.Ok (FpingIP.cidr_text network maskLen) /\
      0 <= maskLen <= 32 /\
      network mod 2 ^ (32 - maskLen) = 0 /\
      (forall x, s <= x <= e -> FpingIP.in_cidr network maskLen x) /\
      (forall n p, maskLen < p <= 32 ->
                   ~ (FpingIP.in_cidr n p s /\ FpingIP.in_cidr n p e))) /\
  (ParseIP_To4 startIP = None \/ ParseIP_To4 endIP = None ->
   FpingIP.CalculateCIDR ParseIP_To4 startIP endIP
     = FpingIP.Err FpingIP.InvalidIPv4) /\
  (forall start end_,
      ParseIP_To4 startIP = Some start -> ParseIP_To4 endIP = Some end_ ->
      FpingIP.ipToUint32 start > FpingIP.ipToUint32 end_ ->
      FpingIP.CalculateCIDR ParseIP_To4 startIP endIP
        = FpingIP.Err FpingIP.StartAfterEnd) /\
  FpingIP.CalculateCIDR FpingIP.parse_dotted_quad "172.5.0.1" "172.5.7.254"
    = FpingIP.Ok "172.5.0.0/21".
Proof.
  split; [| split; [| split]].
  - intros start end_ Hs He Hle s e maskLen network.
    pose proof (ipToUint32_range start) as Rs.
    pose proof (ipToUint32_range end_) as Re.
    fold s in Rs. fold e in Re.
    assert (Hmask : maskLen = FpingIP.cidr_maskLen s e) by reflexivity.
    assert (Hnet : network = FpingIP.cidr_network s e) by reflexivity.
    pose proof (cidr_maskLen_range s e Rs Re) as Hr.
    split; [| split; [| split; [| split]]].
    + unfold FpingIP.CalculateCIDR. rewrite Hs, He.
      destruct (Z.gtb_spec (FpingIP.ipToUint32 start)
                           (FpingIP.ipToUint32 end_)); [lia | reflexivity].
    + lia.
    + rewrite Hnet, cidr_network_clear by assumption.
      assert (Hk : 32 - maskLen = FpingIP.Len32 (Z.lxor s e))
        by (subst maskLen; lia).
      rewrite Hk. rewrite Z.shiftl_mul_pow2 by lia.
      apply Z.mod_mul. apply Z.pow_nonzero; lia.
    + intros x Hx. rewrite Hnet, Hmask. apply cidr_covers; assumption.
    + intros n p Hp [Hin_s Hin_e].
      pose proof (cidr_minimal s e n p Rs Re ltac:(lia) Hin_s Hin_e). lia.
  - intros [Hn|Hn]; unfold FpingIP.CalculateCIDR; rewrite Hn;
      [reflexivity | destruct (ParseIP_To4 startIP); reflexivity].
  - intros start end_ Hs He Hgt. unfold FpingIP.CalculateCIDR. rewrite Hs, He.
    destruct (Z.gtb_spec (FpingIP.ipToUint32 start) (FpingIP.ipToUint32 end_));
      [reflexivity | lia].
  - vm_compute. reflexivity.
Qed.

Lemma CalculateCIDR_smallest_cover_witness :
  FpingIP.CalculateCIDR FpingIP.parse_dotted_quad "172.5.0.1" "172.5.7.254"
    = FpingIP.Ok (FpingIP.cidr_text 2886008832 21) /\
  FpingIP.CalculateCIDR FpingIP.parse_dotted_quad "172.5.0.x" "172.5.7.254"
    = FpingIP.Err FpingIP.InvalidIPv4 /\
  FpingIP.CalculateCIDR FpingIP.parse_dotted_quad "172.5.7.254" "172.5.0.1"
    = FpingIP.Err FpingIP.StartAfterEnd.
Proof.
  split; [| split].
  - destruct (CalculateCIDR_smallest_cover FpingIP.parse_dotted_quad
                "172.5.0.1" "172.5.7.254") as (Hok & _).
    destruct (Hok (FpingIP.mkIPv4 xac x05 x00 x01)
                  (FpingIP.mkIPv4 xac x05 x07 xfe)
                  eq_refl eq_refl ltac:(vm_compute; discriminate)) as (Heq & _).
    exact Heq.
  - destruct (CalculateCIDR_smallest_cover FpingIP.parse_dotted_quad
                "172.5.0.x" "172.5.7.254") as (_ & Herr & _).
    apply Herr. left. reflexivity.
  - destruct (CalculateCIDR_smallest_cover FpingIP.parse_dotted_quad
                "172.5.7.254" "172.5.0.1") as (_ & _ & Hord & _).
    apply (Hord (FpingIP.mkIPv4 xac x05 x07 xfe)
                (FpingIP.mkIPv4 xac x05 x00 x01) eq_refl eq_refl).
    vm_compute. reflexivity.
Defined.

Section ExpandRange_facts.
Import FpingIP.

(** With the end at the largest [uint32] the loop condition [i <= endInt]
    holds for every [i], also after [i++] has wrapped to [0]. *)
Lemma ExpandRange_loop_max_end fuel i ips :
  0 <= i < 2 ^ 32 -> ExpandRange_loop fuel i max_uint32 ips = None.
Proof.
  revert i ips. induction fuel as [|fuel IH]; intros i ips Hi; [reflexivity |].
  simpl. unfold max_uint32 at 1.
  destruct (Z.leb_spec i (2 ^ 32 - 1)) as [_|Hgt]; [| lia].
  apply IH. unfold wrap32. apply Z.mod_pos_bound. lia.
Qed.

(** Below the largest [uint32] the loop leaves after one iteration per
    address, with the addresses in ascending order. *)
Lemma ExpandRange_loop_below_max (n : nat) : forall fuel i e ips,
  0 <= i -> i + Z.of_nat n = e + 1 -> e < max_uint32 -> (n < fuel)%nat ->
  ExpandRange_loop fuel i e ips
    = Some (ips ++ ((fun a => IP_String (uint32ToIP a)) <$> seqZ i (Z.of_nat n))).
Proof.
  unfold max_uint32.
  induction n as [|n IH]; intros fuel i e ips Hi Hn He Hfuel;
    (destruct fuel as [|fuel]; [lia |]); simpl ExpandRange_loop.
  - destruct (Z.leb_spec i e); [lia |].
    change (Z.of_nat 0) with 0. rewrite seqZ_nil by lia.
    simpl. rewrite app_nil_r. reflexivity.
  - destruct (Z.leb_spec i e); [| lia].
    assert (Hw : wrap32 (i + 1) = i + 1) by (unfold wrap32; apply Z.mod_small; lia).
    rewrite Hw, (IH fuel (i + 1) e) by lia.
    rewrite (seqZ_cons i (Z.of_nat (S n))) by lia.
    replace (Z.succ i) with (i + 1) by lia.
    replace (Z.pred (Z.of_nat (S n))) with (Z.of_nat n) by lia.
    rewrite fmap_cons, <- app_assoc. reflexivity.
Qed.

(** For a range that ends below 255.255.255.255 [ExpandRange] returns, given
    one unit of fuel per address and one more, the addresses from start to
    end in ascending order. *)
Lemma ExpandRange_below_max_returns
    (ParseIP_To4 : string -> option IPv4) fuel startIP endIP start end_ :
  ParseIP_To4 startIP = Some start -> ParseIP_To4 endIP = Some end_ ->
  ipToUint32 start <= ipToUint32 end_ < max_uint32 ->
  (Z.to_nat (ipToUint32 end_ - ipToUint32 start + 1) < fuel)%nat ->
  ExpandRange ParseIP_To4 fuel startIP endIP
    = Some (Ok ((fun a => IP_String (uint32ToIP a)) <$>
                seqZ (ipToUint32 start) (ipToUint32 end_ - ipToUint32 start + 1))).
Proof.
  intros Hs He Hle Hfuel. unfold ExpandRange. rewrite Hs, He.
  destruct (Z.gtb_spec (ipToUint32 start) (ipToUint32 end_)); [lia |].
  pose proof (ipToUint32_range start).
  rewrite (ExpandRange_loop_below_max
             (Z.to_nat (ipToUint32 end_ - ipToUint32 start + 1))) by lia.
  rewrite Z2Nat.id by lia. reflexivity.
Qed.

Lemma ExpandRange_reversed_is_error
    (ParseIP_To4 : string -> option IPv4) fuel startIP endIP start end_ :
  ParseIP_To4 startIP = Some start -> ParseIP_To4 endIP = Some end_ ->
  ipToUint32 start > ipToUint32 end_ ->
  ExpandRange ParseIP_To4 fuel startIP endIP = Some (Err StartAfterEnd).
Proof.
  intros Hs He Hgt. unfold ExpandRange. rewrite Hs, He.
  destruct (Z.gtb_spec (ipToUint32 start) (ipToUint32 end_)); [reflexivity | lia].
Qed.

Example ExpandRange_three :
  ExpandRange parse_dotted_quad 5 "10.0.0.1" "10.0.0.3"
    = Some (Ok ["10.0.0.1"; "10.0.0.2"; "10.0.0.3"]).
Proof. vm_compute. reflexivity. Qed.

End ExpandRange_facts.

(** C6, at the input where the code leaves it. When the end address is
    255.255.255.255 the loop of [ExpandRange] never ends: its counter is a
    [uint32], the condition [i <= endInt] cannot fail, and no amount of fuel
    produces a result. (For every other valid pair with start <= end the
    list of addresses is returned, see [ExpandRange_below_max_returns].) *)
Theorem ExpandRange_never_returns_at_max_end
    (ParseIP_To4 : string -> option FpingIP.IPv4) fuel startIP endIP start end_ :
  ParseIP_To4 startIP = Some start -> ParseIP_To4 endIP = Some end_ ->
  FpingIP.ipToUint32 end_ = FpingIP.max_uint32 ->
  FpingIP.ExpandRange ParseIP_To4 fuel startIP endIP = None.
Proof.
  intros Hs He Hmax. unfold FpingIP.ExpandRange. rewrite Hs, He, Hmax.
  pose proof (ipToUint32_range start) as Hr.
  destruct (Z.gtb_spec (FpingIP.ipToUint32 start) FpingIP.max_uint32) as [Hgt|_].
  - unfold FpingIP.max_uint32 in Hgt. lia.
  - rewrite ExpandRange_loop_max_end by exact Hr. reflexivity.
Qed.

Lemma ExpandRange_never_returns_at_max_end_witness :
  FpingIP.ExpandRange FpingIP.parse_dotted_quad 1000
    "255.255.255.255" "255.255.255.255" = None.
Proof.
  apply (ExpandRange_never_returns_at_max_end FpingIP.parse_dotted_quad 1000
           "255.255.255.255" "255.255.255.255"
           (FpingIP.mkIPv4 xff xff xff xff) (FpingIP.mkIPv4 xff xff xff xff)
           eq_refl eq_refl).
  vm_compute. reflexivity.
Defined.

(** ** The liveness prober *)

Section Fping_facts.
Import FpingIP.

Variable strings_TrimSpace : string -> string.

Lemma fping_scan_line_alive activeIPs line :
  fping_scan_line strings_TrimSpace activeIPs line
    = activeIPs ++ option_list (alive_host strings_TrimSpace line).
Proof.
  unfold fping_scan_line, alive_host.
  destruct (strings_Split line ":") as [|p0 [|p1 [|p2 rest]]]; simpl;
    rewrite ?app_nil_r; try reflexivity.
  destruct (strings_Contains p1 "-"); simpl; rewrite ?app_nil_r; reflexivity.
Qed.

Lemma fping_scan_lines_alive lines : forall activeIPs,
  foldl (fping_scan_line strings_TrimSpace) activeIPs lines
    = activeIPs ++ omap (alive_host strings_TrimSpace) lines.
Proof.
  induction lines as [|line lines IH]; intros activeIPs; simpl.
  - rewrite app_nil_r. reflexivity.
  - rewrite IH, fping_scan_line_alive, <- app_assoc.
    destruct (alive_host strings_TrimSpace line); reflexivity.
Qed.

End Fping_facts.

(** C7, as the code has it. [ExecuteFping] returns exactly the hosts of the
    output lines that split into exactly two [":"]-delimited fields and whose
    result side contains no ["-"], in output order; it never returns an
    error: the error of running the external tool is discarded, and an empty
    host list comes with a [nil] error like any other. *)
Theorem ExecuteFping_alive_hosts_no_error
    (exec_CombinedOutput : list string -> string * error)
    (bufio_ScanLines : string -> list string)
    (strings_TrimSpace : string -> string)
    (cidr : string) (retries timeout : Z) :
  let args := ["-C"; fmt_d retries; "-t"; fmt_d timeout; "-r"; "0";
               "-A"; "-q"; "-g"; cidr] in
  FpingIP.ExecuteFping exec_CombinedOutput bufio_ScanLines strings_TrimSpace
                       cidr retries timeout
  = (omap (FpingIP.alive_host strings_TrimSpace)
          (bufio_ScanLines (fst (exec_CombinedOutput args))),
     None).
Proof.
  intros args. unfold FpingIP.ExecuteFping. fold args.
  destruct (exec_CombinedOutput args) as [output run_err]. simpl.
  rewrite fping_scan_lines_alive. reflexivity.
Qed.

(** C7 as stated fails where the tool cannot be run: the invocation reports
    an error and [ExecuteFping] still returns a [nil] error. *)
Lemma ExecuteFping_invocation_error_not_returned :
  snd (Sample.failing_exec
         ["-C"; "2"; "-t"; "100"; "-r"; "0"; "-A"; "-q"; "-g"; "10.0.0.0/24"])
    <> None /\
  FpingIP.ExecuteFping Sample.failing_exec FpingIP.ascii_ScanLines
                       FpingIP.ascii_TrimSpace "10.0.0.0/24" 2 100 = ([], None).
Proof. split; [discriminate | vm_compute; reflexivity]. Qed.

Example ExecuteFping_two_lines :
  FpingIP.ExecuteFping
    (fun _ => ("10.0.0.1 : 1.2 0.4" +:+ String "010" "10.0.0.2 : - -"
               +:+ String "010" "", None))
    FpingIP.ascii_ScanLines FpingIP.ascii_TrimSpace "10.0.0.0/30" 2 100
  = (["10.0.0.1"], None).
Proof. vm_compute. reflexivity. Qed.

(** ** Uptime normalization *)

Section Uptime_facts.
Import Collect.

Lemma is_digit_not_special c :
  is_digit c = true ->
  in_cutset c "()" = false /\ Ascii.eqb c " " = false /\
  Ascii.eqb c "+" = false /\ Ascii.eqb c "-" = false.
Proof.
  destruct c as [[] [] [] [] [] [] [] []]; vm_compute; intros H;
    try discriminate H; repeat split; reflexivity.
Qed.

Lemma digits_value_from_inv s : forall acc n,
  0 <= acc -> digits_value_from acc s = Some n ->
  acc <= n /\
  forall c s1 s2, s = s1 +:+ String c s2 -> is_digit c = true.
Proof.
  induction s as [|d s IH]; intros acc n Hacc Hv; cbn [digits_value_from] in Hv.
  - inversion Hv; subst. split; [lia |].
    intros c [|? ?] s2 Heq; discriminate Heq.
  - destruct (is_digit d) eqn:Hd; [| discriminate Hv].
    assert (Hdv : 0 <= digit_value d <= 9).
    { unfold digit_value. unfold is_digit in Hd.
      apply andb_true_iff in Hd as [H1 H2].
      apply N.leb_le in H1, H2. lia. }
    destruct (IH (acc * 10 + digit_value d) n ltac:(lia) Hv) as [Hle Hall].
    split; [lia |].
    intros c [|c1 s1] s2 Heq; simpl in Heq; inversion Heq; subst; [exact Hd |].
    eapply Hall. reflexivity.
Qed.

(** [strings.Split] cuts at the first separator. *)
Lemma strings_Split_app a sep b :
  (forall c s1 s2, a = s1 +:+ String c s2 -> Ascii.eqb c sep = false) ->
  strings_Split (a +:+ String sep b) sep = a :: strings_Split b sep.
Proof.
  induction a as [|c a IH]; intros Hno.
  - change ("" +:+ String sep b) with (String sep b).
    cbn [strings_Split]. rewrite Ascii.eqb_refl. reflexivity.
  - change (String c a +:+ String sep b) with (String c (a +:+ String sep b)).
    cbn [strings_Split]. rewrite (Hno c "" a eq_refl).
    rewrite IH; [reflexivity |].
    intros c' s1 s2 Heq. apply (Hno c' (String c s1) s2).
    rewrite Heq. reflexivity.
Qed.

Lemma strings_TrimRight_app a b cutset :
  strings_TrimRight b cutset <> "" ->
  strings_TrimRight (a +:+ b) cutset = a +:+ strings_TrimRight b cutset.
Proof.
  intros Hb. induction a as [|c a IH]; [reflexivity |].
  change (String c a +:+ b) with (String c (a +:+ b)).
  cbn [strings_TrimRight]. rewrite IH.
  change (String c a +:+ strings_TrimRight b cutset)
    with (String c (a +:+ strings_TrimRight b cutset)).
  destruct (a +:+ strings_TrimRight b cutset) eqn:Heq; [| reflexivity].
  destruct a; [contradiction | discriminate Heq].
Qed.

Lemma wrap64_small z : - 2 ^ 63 <= z < 2 ^ 63 -> wrap64 z = z.
Proof. intros Hz. unfold wrap64. rewrite Z.mod_small; lia. Qed.

Lemma mul64_small a b : - 2 ^ 63 <= a * b < 2 ^ 63 -> mul64 a b = a * b.
Proof. apply wrap64_small. Qed.

(** The units the code knows end in a byte that [Trim] keeps and hold no
    space. *)
Lemma unit_seconds_some unit f :
  unit_seconds unit = Some f ->
  (unit = "days" /\ f = 86400) \/ (unit = "hours" /\ f = 3600) \/
  (unit = "minutes" /\ f = 60) \/ (unit = "seconds" /\ f = 1).
Proof.
  unfold unit_seconds. intros H.
  destruct (String.eqb_spec unit "days");
    [left; split; congruence |].
  destruct (String.eqb_spec unit "hours");
    [right; left; split; congruence |].
  destruct (String.eqb_spec unit "minutes");
    [right; right; left; split; congruence |].
  destruct (String.eqb_spec unit "seconds");
    [right; right; right; split; congruence | discriminate H].
Qed.

Lemma parse_uptime_text ds n unit f :
  digits_value ds = Some n -> unit_seconds unit = Some f -> n * f < 2 ^ 63 ->
  strings_Split (strings_Trim (uptime_text ds unit) "()") " " = [ds; unit] /\
  strconv_ParseInt ds = Some n /\ 0 <= n.
Proof.
  intros Hds Hunit Hlt.
  destruct ds as [|d ds]; [discriminate Hds |].
  unfold digits_value in Hds.
  destruct (digits_value_from_inv _ _ _ (Z.le_refl 0) Hds) as [Hn Hall].
  pose proof (Hall d "" ds eq_refl) as Hd.
  destruct (is_digit_not_special d Hd) as (Hcut & _ & Hplus & Hminus).
  assert (Hf : 1 <= f /\ strings_Split unit " " = [unit] /\
               forall a, strings_TrimRight (a +:+ " " +:+ unit +:+ ")") "()"
                         = a +:+ " " +:+ unit).
  { destruct (unit_seconds_some _ _ Hunit) as [[-> ->]|[[-> ->]|[[-> ->]|[-> ->]]]];
      (split; [lia | split; [reflexivity |]]);
      intros a; rewrite strings_TrimRight_app by (vm_compute; discriminate);
      reflexivity. }
  destruct Hf as (Hf1 & Hsplit & Htrim).
  split; [| split; [| lia]].
  - unfold strings_Trim, uptime_text.
    change ("(" +:+ String d ds +:+ " " +:+ unit +:+ ")")
      with (String "(" (String d (ds +:+ " " +:+ unit +:+ ")"))).
    cbn [strings_TrimLeft]. change (in_cutset "(" "()") with true. cbv iota.
    rewrite Hcut.
    change (String d (ds +:+ " " +:+ unit +:+ ")"))
      with (String d ds +:+ " " +:+ unit +:+ ")").
    rewrite Htrim.
    change (String d ds +:+ " " +:+ unit)
      with (String d ds +:+ String " " unit).
    rewrite strings_Split_app, Hsplit; [reflexivity |].
    intros c s1 s2 Heq. apply (is_digit_not_special c). eapply Hall, Heq.
  - unfold strconv_ParseInt. rewrite Hplus, Hminus. cbn [orb negb andb].
    unfold digits_value. rewrite Hds.
    destruct (Z.geb_spec n (2 ^ 63)); [nia | reflexivity].
Qed.

End Uptime_facts.

(** C8, as the code has it. For every numeral [n] of decimal digits and
    every unit among days, hours, minutes and seconds whose product
    n x (seconds per unit) is below 2^63, [parseUptimeToSeconds] maps
    ["(<n> <unit>)"] to that product (["(3 days)"] to 259200,
    ["(45 minutes)"] to 2700). The empty string gives 0, and a result other
    than 0 is only returned for a text that, with its leading and trailing
    parentheses removed, is a decimal [int64] and a known unit separated by
    one space. The function is total: it has no error result. *)
Theorem parseUptimeToSeconds_normalizes :
  (forall ds n unit f,
      digits_value ds = Some n -> Collect.unit_seconds unit = Some f ->
      n * f < 2 ^ 63 ->
      Collect.parseUptimeToSeconds (Collect.uptime_text ds unit) = n * f) /\
  Collect.parseUptimeToSeconds "(3 days)" = 259200 /\
  Collect.parseUptimeToSeconds "(45 minutes)" = 2700 /\
  Collect.parseUptimeToSeconds "" = 0 /\
  (forall s,
      Collect.parseUptimeToSeconds s <> 0 ->
      exists numeral unit value f,
        strings_Split (strings_Trim s "()") " " = [numeral; unit] /\
        strconv_ParseInt numeral = Some value /\
        Collect.unit_seconds unit = Some f).
Proof.
  split; [| split; [| split; [| split]]];
    [| vm_compute; reflexivity | vm_compute; reflexivity | reflexivity |].
  - intros ds n unit f Hds Hunit Hlt.
    destruct (parse_uptime_text ds n unit f Hds Hunit Hlt) as (Hsplit & Hparse & Hn).
    unfold Collect.parseUptimeToSeconds.
    assert (Hne : String.eqb (Collect.uptime_text ds unit) "" = false) by reflexivity.
    rewrite Hne, Hsplit, Hparse.
    destruct (unit_seconds_some _ _ Hunit) as [[-> ->]|[[-> ->]|[[-> ->]|[-> ->]]]];
      cbn [String.eqb Ascii.eqb Bool.eqb].
    + rewrite (mul64_small n 24), (mul64_small (n * 24) 60),
        (mul64_small (n * 24 * 60) 60) by lia. lia.
    + rewrite (mul64_small n 60), (mul64_small (n * 60) 60) by lia. lia.
    + rewrite (mul64_small n 60) by lia. lia.
    + lia.
  - intros s Hnz. unfold Collect.parseUptimeToSeconds in Hnz.
    destruct (String.eqb s ""); [contradiction |].
    destruct (strings_Split (strings_Trim s "()") " ")
      as [|numeral [|unit [|? ?]]]; try contradiction.
    destruct (strconv_ParseInt numeral) as [value|] eqn:Hvalue; [| contradiction].
    destruct (Collect.unit_seconds unit) as [f|] eqn:Hunit.
    + exists numeral, unit, value, f. repeat split; [exact Hvalue | exact Hunit].
    + exfalso. apply Hnz. unfold Collect.unit_seconds in Hunit.
      destruct (String.eqb unit "days"); [discriminate |].
      destruct (String.eqb unit "hours"); [discriminate |].
      destruct (String.eqb unit "minutes"); [discriminate |].
      destruct (String.eqb unit "seconds"); [discriminate | reflexivity].
Qed.

Lemma parseUptimeToSeconds_normalizes_witness :
  Collect.parseUptimeToSeconds (Collect.uptime_text "12" "hours") = 12 * 3600.
Proof.
  destruct parseUptimeToSeconds_normalizes as (Hform & _).
  apply (Hform "12" 12 "hours" 3600); [reflexivity | reflexivity | lia].
Defined.

(** C8 as stated fails twice: a product beyond the range of [int64] wraps
    around, and a text without the parentheses of the form, which the claim
    counts as malformed, is not mapped to 0. *)
Lemma parseUptimeToSeconds_claim_fails :
  (digits_value "106751991167301" = Some 106751991167301 /\
   Collect.parseUptimeToSeconds (Collect.uptime_text "106751991167301" "days")
     = -9223372036854745216 /\
   106751991167301 * 86400 <> -9223372036854745216) /\
  ((forall n unit, "3 days" <> Collect.uptime_text n unit) /\
   Collect.parseUptimeToSeconds "3 days" = 259200).
Proof.
  split; [split; [| split] | split].
  - reflexivity.
  - vm_compute. reflexivity.
  - lia.
  - intros n unit Heq. discriminate Heq.
  - vm_compute. reflexivity.
Qed.

(** ** SNMP signature matching *)

Section SNMP_match_facts.
Import Models Collect.

Variables (lib : SNMPInstanceLib.t) (ip : string) (port : Z)
          (protocol matchValue : string).

(** The target loop runs through a concatenation part by part. *)
Lemma snmp_match_targets_app ts us : forall i st,
  snmp_match_targets lib ip port protocol matchValue i (ts ++ us) st
  = st1 ← snmp_match_targets lib ip port protocol matchValue i ts st;
    snmp_match_targets lib ip port protocol matchValue (i + length ts) us st1.
Proof.
  induction ts as [|t ts IH]; intros i st; simpl.
  - rewrite Nat.add_0_r. reflexivity.
  - replace (i + S (length ts))%nat with (S i + length ts)%nat by lia.
    destruct (negb (String.eqb (Target.Protocol t) PROTOCOL_SNMP)); [apply IH |].
    destruct (strings_Contains matchValue (Target.SNMP_MatchValueContains t));
      [| apply IH].
    destruct (SNMPInstanceLib.DetailFieldSessions lib !! i); [apply IH | reflexivity].
Qed.

(** With a detail session for every target the loop does not panic. *)
Lemma snmp_match_targets_total ts : forall i st,
  (i + length ts <= length (SNMPInstanceLib.DetailFieldSessions lib))%nat ->
  is_Some (snmp_match_targets lib ip port protocol matchValue i ts st).
Proof.
  induction ts as [|t ts IH]; intros i st Hlen; simpl in *; [eauto |].
  destruct (negb (String.eqb (Target.Protocol t) PROTOCOL_SNMP));
    [apply IH; lia |].
  destruct (strings_Contains matchValue (Target.SNMP_MatchValueContains t));
    [| apply IH; lia].
  destruct (lookup_lt_is_Some_2 (SNMPInstanceLib.DetailFieldSessions lib) i
              ltac:(lia)) as [session ->].
  apply IH. lia.
Qed.

(** Once a candidate has matched, the later candidates are skipped. *)
Lemma snmp_match_values_matched matchResult st :
  isMatchInstance st = true ->
  snmp_match_values lib ip port protocol matchResult st = Some st.
Proof.
  intros Hm. induction matchResult as [|v rest IH]; simpl; [reflexivity |].
  rewrite Hm, orb_true_r. exact IH.
Qed.

End SNMP_match_facts.

(** X5. The last target wins: when the last target of the library is an SNMP
    target whose signature occurs in the first candidate, the device is
    classified as that target, whatever the targets before it are and
    whether or not their signatures occur in the candidate too. *)
Lemma GetSNMPTarget_last_match_wins (g : Global.t) ip port protocol
    (targets : list Models.Target.t) (last : Models.Target.t)
    (sessions : list Models.SnmpSession.t) (session : Models.SnmpSession.t)
    (candidate : string) (rest : list string) :
  Models.SNMPInstanceLib.Targets (Global.SNMPInstanceLib g) = targets ++ [last] ->
  Models.SNMPInstanceLib.DetailFieldSessions (Global.SNMPInstanceLib g)
    = sessions ++ [session] ->
  length targets = length sessions ->
  Models.Target.Protocol last = Models.PROTOCOL_SNMP ->
  candidate <> "" -> candidate <> "<nil>" ->
  strings_Contains candidate (Models.Target.SNMP_MatchValueContains last) = true ->
  Collect.GetSNMPTargetByMatchModelValue g ip port protocol (candidate :: rest)
  = Some (Collect.matched_info last ip port protocol, session).
Proof.
  intros Hts Hss Hlen Hproto Hne Hnil Hcontains.
  unfold Collect.GetSNMPTargetByMatchModelValue. cbn [Collect.snmp_match_values].
  apply String.eqb_neq in Hne, Hnil. rewrite Hne, Hnil. cbn [orb Collect.isMatchInstance].
  rewrite Hts, snmp_match_targets_app.
  destruct (snmp_match_targets_total (Global.SNMPInstanceLib g) ip port protocol
              candidate targets 0
              (Collect.mk_snmp_match Models.SnmpSession.zero
                                     Models.ScanInstanceInfo.zero false))
    as [st1 Hst1].
  { rewrite Hss, length_app. simpl. lia. }
  rewrite Hst1. cbn [mbind option_bind Collect.snmp_match_targets].
  rewrite Hproto, String.eqb_refl, Hcontains. cbn [negb].
  rewrite Hss, Hlen. cbn [Nat.add].
  rewrite lookup_app_r, Nat.sub_diag by lia. cbn [lookup list_lookup].
  rewrite snmp_match_values_matched by reflexivity.
  reflexivity.
Qed.

(** C1, at the input where the code leaves it. With target A (signature
    ["PDU"]) configured before target B (signature ["PDUX"]), the candidate
    ["PDUX-1000"] classifies as B, not A: the target loop has no [break], so
    the later matching target overwrites the earlier one. With the order
    reversed the same candidate classifies as A. *)
Theorem GetSNMPTarget_PDUX_classifies_as_B :
  (Models.ScanInstanceInfo.TargetName ∘ fst)
    <$> Collect.GetSNMPTargetByMatchModelValue Sample.ab_config
          "10.1.1.1" 161 "snmp" ["PDUX-1000"]
    = Some "B" /\
  (Models.ScanInstanceInfo.TargetName ∘ fst)
    <$> Collect.GetSNMPTargetByMatchModelValue Sample.ba_config
          "10.1.1.1" 161 "snmp" ["PDUX-1000"]
    = Some "A".
Proof. split; vm_compute; reflexivity. Qed.

(** ** The dependency cascade of [ScanDevice] *)

Section Cascade_facts.
Import Models Collect.

Lemma snmp_match_targets_inv lib ip port protocol matchValue all ts :
  forall i st st',
    (forall t, t ∈ ts -> t ∈ all) ->
    match_of all ip port protocol st ->
    snmp_match_targets lib ip port protocol matchValue i ts st = Some st' ->
    match_of all ip port protocol st'.
Proof.
  induction ts as [|t ts IH]; intros i st st' Hsub Hst Hrun; simpl in Hrun.
  - inversion Hrun; subst. exact Hst.
  - assert (Hsub' : forall t', t' ∈ ts -> t' ∈ all)
      by (intros t' Ht'; apply Hsub; right; exact Ht').
    destruct (negb (String.eqb (Target.Protocol t) PROTOCOL_SNMP));
      [eapply IH; eassumption |].
    destruct (strings_Contains matchValue (Target.SNMP_MatchValueContains t));
      [| eapply IH; eassumption].
    destruct (SNMPInstanceLib.DetailFieldSessions lib !! i) as [session|];
      [| discriminate Hrun].
    eapply IH; [exact Hsub' | | exact Hrun].
    right. exists t. split; [apply Hsub; left | reflexivity].
Qed.

Lemma snmp_match_values_inv lib ip port protocol matchResult :
  forall st st',
    match_of (SNMPInstanceLib.Targets lib) ip port protocol st ->
    snmp_match_values lib ip port protocol matchResult st = Some st' ->
    match_of (SNMPInstanceLib.Targets lib) ip port protocol st'.
Proof.
  induction matchResult as [|v rest IH]; intros st st' Hst Hrun; simpl in Hrun.
  - inversion Hrun; subst. exact Hst.
  - destruct (String.eqb v "<nil>" || String.eqb v "" || isMatchInstance st);
      [eapply IH; eassumption |].
    destruct (snmp_match_targets lib ip port protocol v 0
                (SNMPInstanceLib.Targets lib) st) as [st1|] eqn:Hin;
      [| discriminate Hrun].
    eapply IH; [| exact Hrun].
    eapply snmp_match_targets_inv; [| exact Hst | exact Hin]. auto.
Qed.

(** [GetSNMPTargetByMatchModelValue] returns the unknown record or the
    record of a target of the library for the address it was given. *)
Lemma GetSNMPTarget_result g ip port protocol matchResult info session :
  GetSNMPTargetByMatchModelValue g ip port protocol matchResult
    = Some (info, session) ->
  info = unknown_info g \/
  exists target, target ∈ SNMPInstanceLib.Targets (Global.SNMPInstanceLib g) /\
                 info = matched_info target ip port protocol.
Proof.
  unfold GetSNMPTargetByMatchModelValue. intros Hrun.
  destruct (snmp_match_values (Global.SNMPInstanceLib g) ip port protocol
              matchResult _) as [st|] eqn:Hvalues; [| discriminate Hrun].
  apply snmp_match_values_inv in Hvalues; [| left; reflexivity].
  destruct (isMatchInstance st) eqn:Hm; simpl in Hrun; inversion Hrun; subst.
  - destruct Hvalues as [Hf|Hex]; [congruence | right; exact Hex].
  - left. reflexivity.
Qed.

Section Network.
Variable gosnmp_Get : SnmpConn.t -> list string -> option (list any).
Variable modbus_Connect : ModbusConn.t -> bool.
Variable ReadInputRegisters : ModbusConn.t -> Z -> Z -> option string.
Variable ReadHoldingRegisters : ModbusConn.t -> Z -> Z -> option string.
Variable GetMacByArp : string -> string * error.

(** [MatchSnmpInstances] never returns an error, and its record is the
    unknown record (no address in it) or that of a library target at the
    scanned address. *)
Lemma MatchSnmpInstances_result g snmpConnInfo r err :
  MatchSnmpInstances gosnmp_Get GetMacByArp g snmpConnInfo = Some (r, err) ->
  err = None /\
  ((ScanInstanceInfo.TargetName r = UNKNOWN_NAME /\ ScanInstanceInfo.IP r = "") \/
   (exists target,
       target ∈ SNMPInstanceLib.Targets (Global.SNMPInstanceLib g) /\
       ScanInstanceInfo.TargetName r = Target.Name target /\
       ScanInstanceInfo.IP r = SnmpConnInfo.IP snmpConnInfo)).
Proof.
  unfold MatchSnmpInstances. intros Hrun.
  destruct (foldl _ _ _) as [snmpMatchResult|]; [| discriminate Hrun].
  cbn [mbind option_bind] in Hrun.
  destruct (GetSNMPTargetByMatchModelValue g _ _ _ snmpMatchResult)
    as [[info session]|] eqn:Hmatch; [| discriminate Hrun].
  cbn [mbind option_bind] in Hrun.
  destruct (GetSnmpValue gosnmp_Get _) as [answer|]; [| discriminate Hrun].
  cbn [mbind option_bind] in Hrun.
  destruct (GetMacByArp _) as [mac arp_err].
  inversion Hrun; subst. split; [reflexivity |].
  destruct (GetSNMPTarget_result _ _ _ _ _ _ _ Hmatch) as [->|(target & Hin & ->)].
  - left. split; reflexivity.
  - right. exists target. repeat split. exact Hin.
Qed.

(** The dependency loop calls the Modbus sweep once for every entry whose
    source is the SNMP result's target name, on the address stored in the
    SNMP result. *)
Lemma scan_dependency_sweeps g r deps : forall out,
  modbus_sweeps
    (foldl (scan_dependency modbus_Connect ReadInputRegisters
                            ReadHoldingRegisters g r) out deps)
  = modbus_sweeps out ++
    ((fun _ => ScanInstanceInfo.IP r) <$>
     filter (fun d => Dependencies.SourceTarget d = ScanInstanceInfo.TargetName r)
            deps).
Proof.
  induction deps as [|d deps IH]; intros out; simpl.
  - rewrite app_nil_r. reflexivity.
  - rewrite IH. unfold scan_dependency.
    rewrite filter_cons.
    destruct (String.eqb_spec (ScanInstanceInfo.TargetName r)
                              (Dependencies.SourceTarget d)) as [Heq|Hne].
    + rewrite decide_True by congruence.
      destruct (0 <? length _)%nat; simpl; rewrite <- app_assoc; reflexivity.
    + rewrite decide_False by congruence. reflexivity.
Qed.

(** When no SNMP request is answered the device is classified as unknown,
    without an error. *)
Lemma MatchSnmpInstances_unreachable g snmpConnInfo :
  (forall conn oids, gosnmp_Get conn oids = None) ->
  exists r,
    MatchSnmpInstances gosnmp_Get GetMacByArp g snmpConnInfo = Some (r, None) /\
    ScanInstanceInfo.TargetName r = UNKNOWN_NAME.
Proof.
  intros Hdown. unfold MatchSnmpInstances.
  assert (Hget : forall session, GetSnmpValue gosnmp_Get session = Some None).
  { intros session. unfold GetSnmpValue. rewrite Hdown. reflexivity. }
  assert (Hcollect : forall sessions acc,
             foldl (snmp_collect_session gosnmp_Get snmpConnInfo) (Some acc)
                   sessions = Some acc).
  { induction sessions as [|session sessions IH]; intros acc; simpl;
      [reflexivity |].
    unfold snmp_collect_session at 1. cbn [mbind option_bind].
    rewrite Hget. cbn [mbind option_bind]. apply IH. }
  rewrite Hcollect. cbn [mbind option_bind].
  unfold GetSNMPTargetByMatchModelValue. cbn [snmp_match_values isMatchInstance negb].
  cbn [mbind option_bind]. rewrite Hget. cbn [mbind option_bind].
  destruct (GetMacByArp _) as [mac arp_err].
  eexists. split; reflexivity.
Qed.

End Network.
End Cascade_facts.

(** C2, as the code has it. For every per-IP scan, [ScanDevice] calls the
    Modbus sweep once for every entry of the dependency table whose source
    is the SNMP result's target name, so at least once exactly when that
    name appears as a source, and every such call is on the address stored
    in the SNMP result, which is the scanned address whenever the result is
    not the unknown record. A device classified as a non-source target does
    not trigger Modbus. An unknown result, which is also what an SNMP
    connection-level failure produces ([MatchSnmpInstances] returns no
    error), does not trigger Modbus as long as ["unknown"] is not itself a
    source of the table; a panic of the SNMP step triggers nothing. *)
Theorem ScanDevice_modbus_trigger
    (gosnmp_Get : Models.SnmpConn.t -> list string -> option (list Models.any))
    (modbus_Connect : Models.ModbusConn.t -> bool)
    (ReadInputRegisters ReadHoldingRegisters :
       Models.ModbusConn.t -> Z -> Z -> option string)
    (GetMacByArp : string -> string * error)
    (g : Global.t) (snmpConnInfo : Models.SnmpConnInfo.t) :
  let out := Collect.ScanDevice gosnmp_Get modbus_Connect ReadInputRegisters
               ReadHoldingRegisters GetMacByArp g snmpConnInfo in
  let sources := Models.Dependencies.SourceTarget <$> Global.Dependencies g in
  (forall r err,
      Collect.MatchSnmpInstances gosnmp_Get GetMacByArp g snmpConnInfo
        = Some (r, err) ->
      Collect.modbus_sweeps out
        = ((fun _ => Models.ScanInstanceInfo.IP r) <$>
           filter (fun d => Models.Dependencies.SourceTarget d
                            = Models.ScanInstanceInfo.TargetName r)
                  (Global.Dependencies g)) /\
      (Collect.modbus_sweeps out <> [] <->
       Models.ScanInstanceInfo.TargetName r ∈ sources) /\
      (Models.ScanInstanceInfo.TargetName r <> Models.UNKNOWN_NAME ->
       Models.ScanInstanceInfo.IP r = Models.SnmpConnInfo.IP snmpConnInfo)) /\
  (Collect.MatchSnmpInstances gosnmp_Get GetMacByArp g snmpConnInfo = None ->
   Collect.modbus_sweeps out = []) /\
  ((forall conn oids, gosnmp_Get conn oids = None) ->
   Models.UNKNOWN_NAME ∉ sources ->
   Collect.modbus_sweeps out = []).
Proof.
  intros out sources.
  assert (Hmain : forall r err,
    Collect.MatchSnmpInstances gosnmp_Get GetMacByArp g snmpConnInfo
      = Some (r, err) ->
    Collect.modbus_sweeps out
      = ((fun _ => Models.ScanInstanceInfo.IP r) <$>
         filter (fun d => Models.Dependencies.SourceTarget d
                          = Models.ScanInstanceInfo.TargetName r)
                (Global.Dependencies g))).
  { intros r err Hrun.
    destruct (MatchSnmpInstances_result _ _ _ _ _ _ Hrun) as [-> _].
    subst out. unfold Collect.ScanDevice. rewrite Hrun.
    rewrite scan_dependency_sweeps. reflexivity. }
  split; [| split].
  - intros r err Hrun. split; [apply (Hmain r err Hrun) | split].
    + rewrite (Hmain r err Hrun). subst sources. split.
      * intros Hne.
        destruct (filter _ (Global.Dependencies g)) as [|d ds] eqn:Hf;
          [contradiction |].
        assert (Hd : d ∈ filter
                  (fun d => Models.Dependencies.SourceTarget d
                            = Models.ScanInstanceInfo.TargetName r)
                  (Global.Dependencies g)) by (rewrite Hf; left).
        apply list_elem_of_filter in Hd as [Hsrc Hin].
        apply list_elem_of_fmap. exists d. split; [congruence | exact Hin].
      * intros Hin. apply list_elem_of_fmap in Hin as (d & Hsrc & Hin).
        assert (Hd : d ∈ filter
                  (fun d => Models.Dependencies.SourceTarget d
                            = Models.ScanInstanceInfo.TargetName r)
                  (Global.Dependencies g))
          by (apply list_elem_of_filter; split; [congruence | exact Hin]).
        destruct (filter _ (Global.Dependencies g));
          [inversion Hd | discriminate].
    + intros Hknown.
      destruct (MatchSnmpInstances_result _ _ _ _ _ _ Hrun)
        as [_ [[Hunk _]|(target & _ & _ & Hip)]]; [contradiction | exact Hip].
  - intros Hpanic. subst out. unfold Collect.ScanDevice. rewrite Hpanic.
    reflexivity.
  - intros Hdown Hnot.
    destruct (MatchSnmpInstances_unreachable gosnmp_Get GetMacByArp g
                snmpConnInfo Hdown) as (r & Hrun & Hname).
    rewrite (Hmain r None Hrun).
    destruct (filter _ (Global.Dependencies g)) as [|d ds] eqn:Hf;
      [reflexivity |].
    exfalso. apply Hnot. subst sources.
    assert (Hd : d ∈ filter
              (fun d => Models.Dependencies.SourceTarget d
                        = Models.ScanInstanceInfo.TargetName r)
              (Global.Dependencies g)) by (rewrite Hf; left).
    apply list_elem_of_filter in Hd as [Hsrc Hin].
    apply list_elem_of_fmap. exists d. split; [congruence | exact Hin].
Qed.

Lemma ScanDevice_modbus_trigger_witness :
  Collect.modbus_sweeps
    (Collect.ScanDevice Sample.gateway_snmp Sample.gateway_connect
       Sample.gateway_input Sample.gateway_holding Sample.no_arp
       Sample.gateway_config (Models.SnmpConnInfo.mk "10.1.1.1" 161 "public" 2))
    = ["10.1.1.1"] /\
  Collect.modbus_sweeps
    (Collect.ScanDevice Sample.down_snmp Sample.down_connect Sample.down_read
       Sample.down_read Sample.no_arp Sample.gateway_config
       (Models.SnmpConnInfo.mk "10.1.1.2" 161 "public" 2))
    = [].
Proof.
  split.
  - destruct (ScanDevice_modbus_trigger Sample.gateway_snmp
                Sample.gateway_connect Sample.gateway_input
                Sample.gateway_holding Sample.no_arp Sample.gateway_config
                (Models.SnmpConnInfo.mk "10.1.1.1" 161 "public" 2))
      as (Hmatched & _).
    destruct (Collect.MatchSnmpInstances Sample.gateway_snmp Sample.no_arp
                Sample.gateway_config
                (Models.SnmpConnInfo.mk "10.1.1.1" 161 "public" 2))
      as [[r err]|] eqn:Hrun; [| vm_compute in Hrun; discriminate Hrun].
    destruct (Hmatched r err eq_refl) as (Hsweeps & _).
    rewrite Hsweeps. vm_compute in Hrun. injection Hrun as <- <-.
    vm_compute. reflexivity.
  - destruct (ScanDevice_modbus_trigger Sample.down_snmp Sample.down_connect
                Sample.down_read Sample.down_read Sample.no_arp
                Sample.gateway_config
                (Models.SnmpConnInfo.mk "10.1.1.2" 161 "public" 2))
      as (_ & _ & Hdown).
    apply Hdown; [reflexivity |].
    vm_compute. intros Hin.
    apply list_elem_of_In in Hin. destruct Hin as [Heq|[]]. discriminate Heq.
Defined.

(** C2 as stated fails when ["unknown"] is a source of the dependency
    table: a device that answers no SNMP request at all is classified as
    unknown without an error, and the Modbus sweep is called, on the empty
    address of the unknown record. *)
Lemma ScanDevice_unknown_source_triggers_modbus :
  (forall conn oids, Sample.down_snmp conn oids = None) /\
  Collect.modbus_sweeps
    (Collect.ScanDevice Sample.down_snmp Sample.down_connect Sample.down_read
       Sample.down_read Sample.no_arp Sample.unknown_source_config
       (Models.SnmpConnInfo.mk "10.1.1.2" 161 "public" 2))
    = [""].
Proof. split; [reflexivity | vm_compute; reflexivity]. Qed.

(** ** Modbus signature matching *)

Section Modbus_lib_facts.
Import Models Config.

(** A loop over a list that is not empty ends in a state its body
    establishes from any state that satisfies the invariant. *)
Lemma foldl_establishes {A B} (f : A -> B -> A) (I P : A -> Prop) :
  (forall a b, I a -> P (f a b)) -> (forall a, P a -> I a) ->
  forall l a, l <> [] -> I a -> P (foldl f a l).
Proof.
  intros Hstep Hweak. induction l as [|b l IH]; intros a Hne Ha; [contradiction |].
  simpl. destruct l as [|b' l']; [apply Hstep, Ha |].
  apply IH; [discriminate | apply Hweak, Hstep, Ha].
Qed.

(** The manufacturer test of [modbus_lib_add] cannot fail: the manufacturer
    has just been appended to the list it is looked up in. *)
Lemma modbus_lib_add_modbus baseConn mfg lib t :
  Target.Protocol t = PROTOCOL_MODBUS ->
  snd (modbus_lib_add baseConn (mfg, lib) t)
  = ModbusInstanceLib.mk
      (ModbusInstanceLib.TargetNames lib ++ [Target.Name t])
      (ModbusInstanceLib.Targets lib ++ [t])
      (ModbusSession.mk baseConn
         [ModbusRequest.mk (Target.Modbus_MatchRegisterType t) (Target.Name t)
            (to_uint16 (Target.Modbus_MatchAddress t))
            (to_uint16 (Target.Modbus_MatchLength t))])
      (ModbusSession.mk baseConn (getModbusInstanceFieldRequest (Target.Name t))).
Proof.
  intros Hp. unfold modbus_lib_add. rewrite Hp, String.eqb_refl. cbn [negb].
  unfold slices_Contains. rewrite bool_decide_eq_true_2; [reflexivity |].
  apply elem_of_app. right. left.
Qed.

Lemma modbus_lib_add_other baseConn mfg lib t :
  Target.Protocol t <> PROTOCOL_MODBUS ->
  snd (modbus_lib_add baseConn (mfg, lib) t) = lib.
Proof.
  intros Hp. unfold modbus_lib_add.
  apply String.eqb_neq in Hp. rewrite Hp. reflexivity.
Qed.

(** One pass over the configured targets appends the Modbus targets, in
    configuration order, and leaves a match session of one request when
    there is a Modbus target. *)
Lemma modbus_lib_pass baseConn targets : forall mfg lib,
  let lib' := snd (foldl (modbus_lib_add baseConn) (mfg, lib) targets) in
  ModbusInstanceLib.Targets lib'
    = ModbusInstanceLib.Targets lib ++
      filter (fun t => Target.Protocol t = PROTOCOL_MODBUS) targets /\
  (filter (fun t => Target.Protocol t = PROTOCOL_MODBUS) targets <> [] \/
   length (ModbusSession.Requests (ModbusInstanceLib.MatchSession lib)) = 1%nat ->
   length (ModbusSession.Requests (ModbusInstanceLib.MatchSession lib')) = 1%nat).
Proof.
  induction targets as [|t targets IH]; intros mfg lib; cbn zeta.
  - simpl. rewrite app_nil_r. split; [reflexivity |].
    intros [Hne|Hlen]; [contradiction | exact Hlen].
  - cbn [foldl]. rewrite filter_cons.
    destruct (modbus_lib_add baseConn (mfg, lib) t) as [mfg' lib1] eqn:Hadd.
    assert (Hlib1 : lib1 = snd (modbus_lib_add baseConn (mfg, lib) t))
      by (rewrite Hadd; reflexivity).
    destruct (IH mfg' lib1) as [Htargets Hsession]. cbn zeta in Htargets, Hsession.
    destruct (decide (Target.Protocol t = PROTOCOL_MODBUS)) as [Hp|Hp].
    + rewrite (modbus_lib_add_modbus _ _ _ _ Hp) in Hlib1.
      split.
      * rewrite Htargets, Hlib1. cbn [ModbusInstanceLib.Targets].
        rewrite <- app_assoc. reflexivity.
      * intros _. apply Hsession. right. rewrite Hlib1. reflexivity.
    + rewrite (modbus_lib_add_other _ _ _ _ Hp) in Hlib1. subst lib1.
      split; [exact Htargets | exact Hsession].
Qed.

(** The library [loadModbusInstanceLib] builds, for a configuration with at
    least one port, one slave ID and one Modbus target: its first target is
    the first Modbus target of the configuration, and its match session
    holds one request. *)
Lemma loadModbusInstanceLib_first config targets first :
  ModbusSettings.Port config <> [] -> ModbusSettings.SlaveID config <> [] ->
  head (filter (fun t => Target.Protocol t = PROTOCOL_MODBUS) targets)
    = Some first ->
  let lib := loadModbusInstanceLib config targets in
  head (ModbusInstanceLib.Targets lib) = Some first /\
  length (ModbusSession.Requests (ModbusInstanceLib.MatchSession lib)) = 1%nat.
Proof.
  intros Hports Hslaves Hfirst. cbn zeta. unfold loadModbusInstanceLib.
  set (I := fun lib : ModbusInstanceLib.t =>
              ModbusInstanceLib.Targets lib = [] \/
              head (ModbusInstanceLib.Targets lib) = Some first).
  set (P := fun lib : ModbusInstanceLib.t =>
              head (ModbusInstanceLib.Targets lib) = Some first /\
              length (ModbusSession.Requests (ModbusInstanceLib.MatchSession lib))
                = 1%nat).
  assert (Hweak : forall lib, P lib -> I lib) by (intros lib [Hh _]; right; exact Hh).
  assert (Hne : filter (fun t => Target.Protocol t = PROTOCOL_MODBUS) targets <> [])
    by (intros Hnil; rewrite Hnil in Hfirst; discriminate Hfirst).
  assert (Hpass : forall baseConn lib,
             I lib -> P (snd (foldl (modbus_lib_add baseConn) ([], lib) targets))).
  { intros baseConn lib Hlib.
    destruct (modbus_lib_pass baseConn targets [] lib) as [Htargets Hsession].
    cbn zeta in Htargets, Hsession. split; [| apply Hsession; left; exact Hne].
    rewrite Htargets. destruct Hlib as [->|Hhead]; [exact Hfirst |].
    destruct (ModbusInstanceLib.Targets lib); [discriminate Hhead | exact Hhead]. }
  apply (foldl_establishes _ I P); [| exact Hweak | exact Hports | left; reflexivity].
  intros lib port Hlib.
  apply (foldl_establishes _ I P); [| exact Hweak | exact Hslaves | exact Hlib].
  intros lib' slaveID Hlib'. apply Hpass, Hlib'.
Qed.

(** Without a Modbus target the library has no target. *)
Lemma loadModbusInstanceLib_empty config targets :
  filter (fun t => Target.Protocol t = PROTOCOL_MODBUS) targets = [] ->
  ModbusInstanceLib.Targets (loadModbusInstanceLib config targets) = [].
Proof.
  intros Hnone. unfold loadModbusInstanceLib.
  set (I := fun lib : ModbusInstanceLib.t => ModbusInstanceLib.Targets lib = []).
  assert (Hfold : forall {B} (f : ModbusInstanceLib.t -> B -> ModbusInstanceLib.t),
             (forall a b, I a -> I (f a b)) -> forall l a, I a -> I (foldl f a l)).
  { intros B f Hstep l. induction l as [|b l IH]; intros a Ha; [exact Ha |].
    simpl. apply IH, Hstep, Ha. }
  apply (Hfold _ _); [| reflexivity].
  intros lib port Hlib. apply (Hfold _ _); [| exact Hlib].
  intros lib' slaveID Hlib'.
  destruct (modbus_lib_pass
              (ModbusConn.mk "" port (ModbusSettings.Mode config) (slaveID mod 256))
              targets [] lib') as [Htargets _].
  cbn zeta in Htargets. unfold I. rewrite Htargets, Hnone, Hlib'. reflexivity.
Qed.

End Modbus_lib_facts.

Section Modbus_match_facts.
Import Models Collect.

Variable modbus_Connect : ModbusConn.t -> bool.
Variable ReadInputRegisters : ModbusConn.t -> Z -> Z -> option string.
Variable ReadHoldingRegisters : ModbusConn.t -> Z -> Z -> option string.

(** A successful read of a session with one request returns one value, and
    that value is neither empty nor all zero. *)
Lemma GetModbusValue_one_request session data :
  length (ModbusSession.Requests session) = 1%nat ->
  GetModbusValue modbus_Connect ReadInputRegisters ReadHoldingRegisters session
    = Some data ->
  exists name value,
    data = {[name := value]} /\ value <> "" /\ allZeros value = false.
Proof.
  intros Hlen Hread. unfold GetModbusValue in Hread.
  destruct (ModbusSession.Requests session) as [|request [|? ?]];
    try discriminate Hlen.
  destruct (negb _); [discriminate Hread |].
  destruct (negb _); [discriminate Hread |].
  cbn [foldl] in Hread. unfold modbus_read_request in Hread.
  cbn [mbind option_bind] in Hread.
  match type of Hread with
  | ?read ≫= _ = _ => destruct read as [results|]
  end; [| discriminate Hread].
  cbn [mbind option_bind] in Hread.
  destruct results as [|b results]; [discriminate Hread |].
  cbn [String.length Nat.eqb orb] in Hread.
  destruct (allZeros (String b results)) eqn:Hzero; [discriminate Hread |].
  inversion Hread; subst.
  exists (ModbusRequest.RegisterName request), (String b results).
  rewrite insert_empty. repeat split; [discriminate | exact Hzero].
Qed.

End Modbus_match_facts.

(** C5. During a Modbus sweep of one IP, for every (port, slave ID) pair
    whose match read succeeds, the bytes read are one value that is neither
    empty nor all zero, and [MatchModbusInstances] compares that value, as
    text, with the match signature of one target only: the first target of
    the library, which is the first Modbus target of the configuration (the
    manufacturer test of the library construction excludes none). When the
    signature occurs in the text the pair is identified as that target, and
    otherwise the pair is not identified at all; no later target is
    compared. Without a Modbus target in the configuration no pair is ever
    identified. *)
Theorem MatchModbus_pair_compares_first_target
    (modbus_Connect : Models.ModbusConn.t -> bool)
    (ReadInputRegisters ReadHoldingRegisters :
       Models.ModbusConn.t -> Z -> Z -> option string)
    (g : Global.t) (config : Models.ModbusSettings.t)
    (targets : list Models.Target.t)
    (ip : string) (port slaveID : Z)
    (modbusConnInfos : list Models.ModbusConnInfo.t) :
  Global.ModbusInstanceLib g = Config.loadModbusInstanceLib config targets ->
  let modbus_targets :=
    filter (fun t => Models.Target.Protocol t = Models.PROTOCOL_MODBUS) targets in
  let matchSession :=
    Collect.modbus_session_for ip port slaveID
      (Models.ModbusInstanceLib.MatchSession (Global.ModbusInstanceLib g)) in
  let identified :=
    Collect.modbus_match_pair modbus_Connect ReadInputRegisters
      ReadHoldingRegisters g ip port modbusConnInfos slaveID in
  (forall first data,
      Models.ModbusSettings.Port config <> [] ->
      Models.ModbusSettings.SlaveID config <> [] ->
      head modbus_targets = Some first ->
      Collect.GetModbusValue modbus_Connect ReadInputRegisters
        ReadHoldingRegisters matchSession = Some data ->
      exists name value,
        data = {[name := value]} /\ value <> "" /\
        Collect.allZeros value = false /\
        identified =
          if strings_Contains value (Models.Target.Modbus_MatchValueContains first)
          then modbusConnInfos ++
                 [Models.ModbusConnInfo.mk ip port slaveID
                    (Models.Target.Model first) (Models.Target.Manufacturer first)
                    (Models.Target.InstanceType first)]
          else modbusConnInfos) /\
  (modbus_targets = [] -> identified = modbusConnInfos).
Proof.
  intros Hlib modbus_targets matchSession identified. split.
  - intros first data Hports Hslaves Hfirst Hread.
    destruct (loadModbusInstanceLib_first config targets first Hports Hslaves
                Hfirst) as [Hhead Hone].
    cbn zeta in Hhead, Hone. rewrite <- Hlib in Hhead, Hone.
    destruct (GetModbusValue_one_request modbus_Connect ReadInputRegisters
                ReadHoldingRegisters matchSession data Hone Hread)
      as (name & value & -> & Hne & Hzero).
    exists name, value. repeat split; [exact Hne | exact Hzero |].
    subst identified. unfold Collect.modbus_match_pair. fold matchSession.
    rewrite Hread, map_to_list_singleton. cbn [fmap list_fmap snd foldl].
    destruct (Models.ModbusInstanceLib.Targets (Global.ModbusInstanceLib g))
      as [|t rest]; [discriminate Hhead |].
    injection Hhead as ->. reflexivity.
  - intros Hnone. subst identified. unfold Collect.modbus_match_pair.
    rewrite Hlib, (loadModbusInstanceLib_empty config targets Hnone).
    destruct (Collect.GetModbusValue _ _ _ _) as [data|]; [| reflexivity].
    induction ((map_to_list data).*2) as [|v vs IH]; [reflexivity | exact IH].
Qed.

Lemma MatchModbus_pair_compares_first_target_witness :
  exists value,
    value <> "" /\
    Collect.modbus_match_pair Sample.gateway_connect Sample.gateway_input
      Sample.gateway_holding Sample.gateway_config "10.1.1.1" 7000 [] 1
    = if strings_Contains value "PDU1315"
      then [Models.ModbusConnInfo.mk "10.1.1.1" 7000 1 "PDU1315" "DELTA" "pdu"]
      else [].
Proof.
  destruct (MatchModbus_pair_compares_first_target Sample.gateway_connect
              Sample.gateway_input Sample.gateway_holding Sample.gateway_config
              Sample.modbus_settings
              [Sample.target_gateway; Sample.target_pdu1315; Sample.target_pdu4445]
              "10.1.1.1" 7000 1 [] eq_refl) as [Hfirst _].
  destruct (Collect.GetModbusValue Sample.gateway_connect Sample.gateway_input
              Sample.gateway_holding
              (Collect.modbus_session_for "10.1.1.1" 7000 1
                 (Models.ModbusInstanceLib.MatchSession
                    (Global.ModbusInstanceLib Sample.gateway_config))))
    as [data|] eqn:Hread; [| vm_compute in Hread; discriminate Hread].
  destruct (Hfirst Sample.target_pdu1315 data ltac:(discriminate)
              ltac:(discriminate) ltac:(vm_compute; reflexivity) eq_refl)
    as (name & value & _ & Hne & _ & Hid).
  exists value. split; [exact Hne | exact Hid].
Defined.

Example MatchModbusInstances_second_target_never_found :
  Models.ModbusInstanceLib.Targets
    (Global.ModbusInstanceLib Sample.gateway_config)
    !! 1%nat = Some Sample.target_pdu4445 /\
  Collect.MatchModbusInstances Sample.gateway_connect Sample.input_4445
    Sample.gateway_holding Sample.gateway_config "10.1.1.1" = [].
Proof. split; vm_compute; reflexivity. Qed.

(** ** Deduplication and persistence *)

Section Persist_facts.
Import Models Persist.

Lemma filter_step_spec g acc result :
  filter_step g acc result
  = acc ++ (if decide (is_new g result) then [keyed result] else []).
Proof.
  unfold filter_step, is_new, slices_Contains, keyed.
  destruct (String.eqb_spec (ScanInstanceInfo.Model result) DEFAULT_UNKNOWN_VALUE)
    as [Heq|Hne].
  - rewrite decide_False by (intros [Hm _]; contradiction).
    rewrite app_nil_r. reflexivity.
  - destruct (decide (ip_key result ∈ Global.ScanIPKeyList g)) as [Hin|Hout].
    + rewrite bool_decide_eq_true_2 by exact Hin. cbn [negb].
      rewrite decide_False by (intros [_ Hk]; contradiction).
      rewrite app_nil_r.
      destruct (Global.ScanResults g !! ip_key result); reflexivity.
    + rewrite bool_decide_eq_false_2 by exact Hout. cbn [negb].
      rewrite decide_True by (split; assumption).
      destruct (Global.ScanResults g !! ip_key result); reflexivity.
Qed.

(** [FilteredResults] keeps, in input order and with multiplicity, the
    records of known model whose key is not in the pending index. *)
Lemma FilteredResults_spec g results :
  FilteredResults g results = keyed <$> filter (is_new g) results.
Proof.
  unfold FilteredResults.
  assert (Hgen : forall acc,
             foldl (filter_step g) acc results
             = acc ++ (keyed <$> filter (is_new g) results)).
  { induction results as [|r results IH]; intros acc; simpl.
    - rewrite app_nil_r. reflexivity.
    - rewrite IH, filter_step_spec, filter_cons, <- app_assoc.
      destruct (decide (is_new g r)); reflexivity. }
  apply (Hgen []).
Qed.

Lemma ClassifyResults_spec results :
  Collect.ClassifyResults results
  = (filter (fun r => ScanInstanceInfo.InstanceType r = InstanceTypePDU) results,
     filter (fun r => ScanInstanceInfo.InstanceType r <> InstanceTypePDU) results).
Proof.
  unfold Collect.ClassifyResults.
  assert (Hgen : forall pdu dev,
    foldl (fun '(pduResult, deviceResult) result =>
             if String.eqb (ScanInstanceInfo.InstanceType result) InstanceTypePDU
             then (pduResult ++ [result], deviceResult)
             else (pduResult, deviceResult ++ [result]))
          (pdu, dev) results
    = (pdu ++ filter (fun r => ScanInstanceInfo.InstanceType r = InstanceTypePDU)
                     results,
       dev ++ filter (fun r => ScanInstanceInfo.InstanceType r <> InstanceTypePDU)
                     results)).
  { induction results as [|r results IH]; intros pdu dev; simpl.
    - rewrite !app_nil_r. reflexivity.
    - rewrite !filter_cons.
      destruct (String.eqb_spec (ScanInstanceInfo.InstanceType r) InstanceTypePDU)
        as [Heq|Hne]; rewrite IH.
      + rewrite decide_True by exact Heq.
        rewrite decide_False by (intros Hc; contradiction).
        rewrite <- app_assoc. reflexivity.
      + rewrite decide_False by exact Hne.
        rewrite decide_True by exact Hne.
        rewrite <- app_assoc. reflexivity. }
  apply (Hgen [] []).
Qed.

End Persist_facts.

(** C10. The output of [FilteredResults] does not depend on the in-memory
    registered-results map: for two global states with the same
    [ScanIPKeyList] and any contents of [ScanResults], the same input list
    gives the same filtered list. The lookup in [ScanResults] comes after
    the append and both of its outcomes continue with the next record. *)
Theorem FilteredResults_ignores_ScanResults
    (g1 g2 : Global.t) (results : list Models.ScanInstanceInfo.t) :
  Global.ScanIPKeyList g1 = Global.ScanIPKeyList g2 ->
  Persist.FilteredResults g1 results = Persist.FilteredResults g2 results.
Proof.
  intros Hkeys. unfold Persist.FilteredResults.
  generalize (@nil Models.ScanInstanceInfo.t) as acc.
  induction results as [|r results IH]; intros acc; simpl; [reflexivity |].
  assert (Hstep : Persist.filter_step g1 acc r = Persist.filter_step g2 acc r).
  { unfold Persist.filter_step. rewrite Hkeys.
    destruct (String.eqb _ _); [reflexivity |].
    destruct (Global.ScanResults g1 !! Persist.ip_key r),
             (Global.ScanResults g2 !! Persist.ip_key r); reflexivity. }
  rewrite Hstep. apply IH.
Qed.

Lemma FilteredResults_ignores_ScanResults_witness :
  Persist.FilteredResults
    (Global.with_ScanResults Sample.registered Sample.gateway_config)
    [Sample.gateway_record; Sample.pdu_record]
  = Persist.FilteredResults Sample.gateway_config
      [Sample.gateway_record; Sample.pdu_record].
Proof.
  apply (FilteredResults_ignores_ScanResults
           (Global.with_ScanResults Sample.registered Sample.gateway_config)
           Sample.gateway_config [Sample.gateway_record; Sample.pdu_record]).
  reflexivity.
Defined.

Section Save_facts.
Import Models Persist.

Variable can_open : string -> bool.
Variable currentTime : string.

Lemma appended_only_refl Q fs : appended_only Q fs fs.
Proof. intros filename. left. reflexivity. Qed.

Lemma appended_only_trans Q fs fs1 fs2 :
  appended_only Q fs fs1 -> appended_only Q fs1 fs2 -> appended_only Q fs fs2.
Proof.
  intros H1 H2 filename.
  destruct (H1 filename) as [Heq1|(added1 & Heq1 & HQ1)],
           (H2 filename) as [Heq2|(added2 & Heq2 & HQ2)].
  - left. congruence.
  - right. exists added2. split; [congruence | exact HQ2].
  - right. exists added1. split; [congruence | exact HQ1].
  - right. exists (added1 ++ added2). split.
    + rewrite Heq2, Heq1. cbn [default]. rewrite app_assoc. reflexivity.
    + apply Forall_app. split; assumption.
Qed.

(** One call of [saveToCSV] appends, to its own file only, the header when
    the file did not exist and then one row per result. *)
Lemma saveToCSV_appended results isPDU fs :
  appended_only
    (fun row => is_header row \/
                exists result, result ∈ results /\
                               row = csv_record isPDU currentTime result)
    fs (fst (saveToCSV can_open currentTime results isPDU fs)).
Proof.
  intros filename. unfold saveToCSV.
  set (target := if isPDU then SCAN_PDU_LIST else SCAN_DEVICE_LIST).
  destruct (can_open target); cbn [negb fst]; [| left; reflexivity].
  destruct (decide (filename = target)) as [->|Hne];
    [| left; apply lookup_insert_ne; congruence].
  right. rewrite lookup_insert_eq. cbv zeta.
  exists ((if bool_decide (is_Some (fs !! target)) then []
           else [if isPDU then pending_pdu_header else pending_device_header])
          ++ (csv_record isPDU currentTime <$> results)).
  split.
  - destruct (bool_decide (is_Some (fs !! target))); cbn [negb];
      [reflexivity | rewrite <- app_assoc; reflexivity].
  - apply Forall_app. split.
    + destruct (bool_decide _); [constructor |].
      apply Forall_cons; split; [| constructor].
      left. destruct isPDU; [left | right]; reflexivity.
    + apply Forall_fmap, Forall_forall. intros result Hin. right.
      exists result. split; [exact Hin | reflexivity].
Qed.

Lemma csv_record_head isPDU result :
  head (csv_record isPDU currentTime result) = Some (ScanInstanceInfo.IPKey result).
Proof. destruct isPDU; reflexivity. Qed.

Lemma appended_only_weaken (Q Q' : list string -> Prop) fs fs' :
  (forall row, Q row -> Q' row) ->
  appended_only Q fs fs' -> appended_only Q' fs fs'.
Proof.
  intros Himp H filename.
  destruct (H filename) as [Heq|(added & Heq & HQ)]; [left; exact Heq |].
  right. exists added. split; [exact Heq |].
  eapply Forall_impl; eassumption.
Qed.

(** [SaveResults] only appends, and every row it appends is a header or the
    row of an input record that passed the filter. *)
Lemma SaveResults_appended g results fs :
  appended_only (fun row => is_header row \/ new_row g results row)
    fs (fst (fst (SaveResults can_open currentTime g results fs))).
Proof.
  unfold SaveResults.
  rewrite ClassifyResults_spec, FilteredResults_spec.
  set (filtered := keyed <$> filter (is_new g) results).
  set (pdu := filter (fun r => ScanInstanceInfo.InstanceType r = InstanceTypePDU)
                     filtered).
  set (dev := filter (fun r => ScanInstanceInfo.InstanceType r <> InstanceTypePDU)
                     filtered).
  assert (Hrow : forall isPDU (part : list ScanInstanceInfo.t) row,
             (forall r, r ∈ part -> r ∈ filtered) ->
             (is_header row \/
              exists result, result ∈ part /\
                             row = csv_record isPDU currentTime result) ->
             is_header row \/ new_row g results row).
  { intros isPDU part row Hsub [Hh|(r & Hin & ->)]; [left; exact Hh | right].
    apply Hsub in Hin. subst filtered.
    apply list_elem_of_fmap in Hin as (r0 & -> & Hin0).
    apply list_elem_of_filter in Hin0 as [Hnew Hin0].
    exists r0. split; [exact Hin0 | split; [exact Hnew |]].
    rewrite csv_record_head. reflexivity. }
  assert (Hpdu : forall r, r ∈ pdu -> r ∈ filtered)
    by (intros r Hr; apply list_elem_of_filter in Hr as [_ Hr]; exact Hr).
  assert (Hdev : forall r, r ∈ dev -> r ∈ filtered)
    by (intros r Hr; apply list_elem_of_filter in Hr as [_ Hr]; exact Hr).
  assert (Hsave : forall isPDU part fs0,
             (forall r, r ∈ part -> r ∈ filtered) ->
             appended_only (fun row => is_header row \/ new_row g results row)
               fs0 (fst (saveToCSV can_open currentTime part isPDU fs0))).
  { intros isPDU part fs0 Hsub.
    eapply appended_only_weaken; [| apply saveToCSV_appended].
    intros row. apply (Hrow isPDU part row Hsub). }
  destruct ((length pdu =? 0)%nat && (length dev =? 0)%nat);
    [apply appended_only_refl |].
  destruct (0 <? length pdu)%nat.
  - pose proof (Hsave true pdu fs Hpdu) as H1.
    destruct (saveToCSV can_open currentTime pdu true fs) as [fsa ea].
    cbn [fst] in H1.
    destruct ea; cbv beta iota zeta;
      (destruct (0 <? length dev)%nat; [| exact H1]);
      pose proof (Hsave false dev fsa Hdev) as H2;
      destruct (saveToCSV can_open currentTime dev false fsa) as [fsb eb];
      cbn [fst] in H2;
      assert (H12 := appended_only_trans _ _ _ _ H1 H2);
      destruct eb; exact H12.
  - cbv beta iota zeta. destruct (0 <? length dev)%nat.
    + pose proof (Hsave false dev fs Hdev) as H2.
      destruct (saveToCSV can_open currentTime dev false fs) as [fsb eb].
      cbn [fst] in H2.
      destruct eb; exact H2.
    + apply appended_only_refl.
Qed.

(** [saveToCSV] on a file that opens. *)
Lemma saveToCSV_opened part (isPDU : bool) (fs : FS) :
  can_open (if isPDU then SCAN_PDU_LIST else SCAN_DEVICE_LIST) = true ->
  saveToCSV can_open currentTime part isPDU fs
  = (<[(if isPDU then SCAN_PDU_LIST else SCAN_DEVICE_LIST) :=
         default [if isPDU then pending_pdu_header else pending_device_header]
                 (fs !! (if isPDU then SCAN_PDU_LIST else SCAN_DEVICE_LIST))
         ++ (csv_record isPDU currentTime <$> part)]> fs, None).
Proof.
  intros Hopen. unfold saveToCSV. rewrite Hopen. cbn [negb].
  destruct (fs !! (if isPDU then SCAN_PDU_LIST else SCAN_DEVICE_LIST))
    as [old|] eqn:Hold.
  - rewrite bool_decide_eq_true_2 by eauto. reflexivity.
  - rewrite bool_decide_eq_false_2 by (intros [x Hx]; discriminate Hx).
    reflexivity.
Qed.

(** When the lists open, [SaveResults] writes one row for every record
    that passed the filter, duplicates of a key included, and returns the
    filtered list. *)
Lemma SaveResults_rows g results (fs : FS) :
  (forall filename, can_open filename = true) ->
  let filtered := keyed <$> filter (is_new g) results in
  let pdu := filter (fun r => ScanInstanceInfo.InstanceType r = InstanceTypePDU)
                    filtered in
  let dev := filter (fun r => ScanInstanceInfo.InstanceType r <> InstanceTypePDU)
                    filtered in
  exists fs' : FS,
    SaveResults can_open currentTime g results fs = (fs', filtered, None) /\
    fs' !! SCAN_PDU_LIST
      = appended_file true currentTime pdu (fs !! SCAN_PDU_LIST) /\
    fs' !! SCAN_DEVICE_LIST
      = appended_file false currentTime dev (fs !! SCAN_DEVICE_LIST) /\
    forall other,
      other <> SCAN_PDU_LIST -> other <> SCAN_DEVICE_LIST ->
      fs' !! other = fs !! other.
Proof.
  intros Hopen filtered pdu dev. unfold SaveResults.
  rewrite ClassifyResults_spec, FilteredResults_spec.
  fold filtered. fold pdu. fold dev.
  assert (Hempty : pdu = [] -> dev = [] -> filtered = []).
  { subst pdu dev. destruct filtered as [|r rest]; [reflexivity |].
    rewrite !filter_cons.
    destruct (decide (ScanInstanceInfo.InstanceType r = InstanceTypePDU))
      as [Hp|Hd].
    - discriminate.
    - rewrite decide_True by exact Hd. discriminate. }
  destruct pdu as [|p pdu'] eqn:Hpdu, dev as [|d dev'] eqn:Hdev;
    cbn [length Nat.eqb andb Nat.ltb Nat.leb appended_file].
  - exists fs. rewrite (Hempty eq_refl eq_refl). repeat split.
  - rewrite (saveToCSV_opened (d :: dev') false fs (Hopen _)).
    cbn [length Nat.ltb Nat.leb].
    eexists. split; [reflexivity |]. split; [| split].
    + apply lookup_insert_ne. discriminate.
    + apply lookup_insert_eq.
    + intros other _ Hne. apply lookup_insert_ne. congruence.
  - rewrite (saveToCSV_opened (p :: pdu') true fs (Hopen _)).
    cbn [length Nat.ltb Nat.leb].
    eexists. split; [reflexivity |]. split; [| split].
    + apply lookup_insert_eq.
    + apply lookup_insert_ne. discriminate.
    + intros other Hne _. apply lookup_insert_ne. congruence.
  - rewrite (saveToCSV_opened (p :: pdu') true fs (Hopen _)).
    rewrite (saveToCSV_opened (d :: dev') false _ (Hopen _)).
    cbn [length Nat.ltb Nat.leb].
    eexists. split; [reflexivity |]. split; [| split].
    + rewrite lookup_insert_ne by discriminate. apply lookup_insert_eq.
    + rewrite lookup_insert_eq, lookup_insert_ne by discriminate. reflexivity.
    + intros other Hp Hd. rewrite !lookup_insert_ne by congruence. reflexivity.
Qed.

End Save_facts.

(** C3, as the code has it. The pending index of a cycle is the [ip_key]
    columns of the two on-disk pending lists (the registry lists are not
    read; files that agree on the pending lists give the same index). In
    that cycle [SaveResults] only appends to the files, and every row it
    appends is a header row or the row of an input record of known model
    whose identity key is not in the pending index. Records that share an
    identity key within the batch are not collapsed: when the lists can be
    opened, the rows appended to the PDU list are exactly one row for every
    input record that passed the filter and is a PDU, in input order and
    with repetitions, after the header row if the list did not exist, and
    likewise for the other records and the device list; no other file
    changes, and the filtered list is returned without error. *)
Theorem SaveResults_appends_only_new_keys
    (can_open : string -> bool) (currentTime : string)
    (g0 g : Global.t) (fs : FS) (results : list Models.ScanInstanceInfo.t) :
  Global.InitScanList fs g0 = Some g ->
  (exists pdu_keys device_keys,
      Utils.ReadCSVByColumn fs Models.SCAN_PDU_LIST "ip_key" = Some pdu_keys /\
      Utils.ReadCSVByColumn fs Models.SCAN_DEVICE_LIST "ip_key"
        = Some device_keys /\
      Global.ScanIPKeyList g = pdu_keys ++ device_keys) /\
  (forall fs2 : FS,
      fs2 !! Models.SCAN_PDU_LIST = fs !! Models.SCAN_PDU_LIST ->
      fs2 !! Models.SCAN_DEVICE_LIST = fs !! Models.SCAN_DEVICE_LIST ->
      Global.InitScanList fs2 g0 = Some g) /\
  Persist.appended_only
    (fun row => Persist.is_header row \/ Persist.new_row g results row)
    fs (fst (fst (Persist.SaveResults can_open currentTime g results fs))) /\
  snd (fst (Persist.SaveResults can_open currentTime g results fs))
    ⊆ Persist.keyed <$> filter (Persist.is_new g) results /\
  ((forall filename, can_open filename = true) ->
   let filtered := Persist.keyed <$> filter (Persist.is_new g) results in
   let pdu := filter (fun r => Models.ScanInstanceInfo.InstanceType r
                               = Models.InstanceTypePDU) filtered in
   let dev := filter (fun r => Models.ScanInstanceInfo.InstanceType r
                               <> Models.InstanceTypePDU) filtered in
   exists fs' : FS,
     Persist.SaveResults can_open currentTime g results fs
       = (fs', filtered, None) /\
     fs' !! Models.SCAN_PDU_LIST
       = Persist.appended_file true currentTime pdu
           (fs !! Models.SCAN_PDU_LIST) /\
     fs' !! Models.SCAN_DEVICE_LIST
       = Persist.appended_file false currentTime dev
           (fs !! Models.SCAN_DEVICE_LIST) /\
     forall other,
       other <> Models.SCAN_PDU_LIST -> other <> Models.SCAN_DEVICE_LIST ->
       fs' !! other = fs !! other).
Proof.
  intros Hinit. unfold Global.InitScanList in Hinit.
  destruct (Utils.ReadCSVByColumn fs Models.SCAN_PDU_LIST "ip_key")
    as [pdu_keys|] eqn:Hpdu; [| discriminate Hinit].
  destruct (Utils.ReadCSVByColumn fs Models.SCAN_DEVICE_LIST "ip_key")
    as [device_keys|] eqn:Hdev; [| discriminate Hinit].
  cbn [mbind option_bind] in Hinit. injection Hinit as <-.
  split; [| split; [| split; [| split]]].
  - exists pdu_keys, device_keys. repeat split; reflexivity.
  - intros fs2 H1 H2. unfold Global.InitScanList, Utils.ReadCSVByColumn in *.
    rewrite H1, H2, Hpdu, Hdev. reflexivity.
  - apply SaveResults_appended.
  - unfold Persist.SaveResults.
    rewrite <- FilteredResults_spec.
    destruct (Collect.ClassifyResults _) as [pdu dev].
    destruct (_ && _); [apply list_subseteq_nil |].
    cbv beta iota zeta.
    destruct (0 <? length pdu)%nat;
      [destruct (Persist.saveToCSV _ _ pdu true fs) as [fsa [e|]] |];
      cbv beta iota zeta;
      (destruct (0 <? length dev)%nat;
       [match goal with
        | |- context [Persist.saveToCSV ?o ?t dev false ?f] =>
            destruct (Persist.saveToCSV o t dev false f) as [fsb [e'|]]
        end |]);
      cbn; try apply list_subseteq_nil; reflexivity.
  - intros Hopen. apply SaveResults_rows. exact Hopen.
Qed.

Lemma SaveResults_appends_only_new_keys_witness :
  Persist.appended_only
    (fun row => Persist.is_header row \/
                Persist.new_row Sample.gateway_config Sample.gateway_scan row)
    ∅ (fst (fst (Persist.SaveResults Sample.always_open Sample.sample_time
                   Sample.gateway_config Sample.gateway_scan ∅))) /\
  exists fs' : FS,
    fst (fst (Persist.SaveResults Sample.always_open Sample.sample_time
                Sample.gateway_config Sample.gateway_scan ∅)) = fs' /\
    fs' !! Models.SCAN_PDU_LIST
    = Some (Persist.pending_pdu_header
            :: (Persist.csv_record true Sample.sample_time
                  <$> [Persist.keyed SampleRest.swept_pdu;
                       Persist.keyed SampleRest.swept_pdu])).
Proof.
  assert (Hinit : Global.InitScanList (∅ : FS) Sample.gateway_config
                  = Some Sample.gateway_config) by (vm_compute; reflexivity).
  destruct (SaveResults_appends_only_new_keys Sample.always_open
              Sample.sample_time Sample.gateway_config Sample.gateway_config
              ∅ Sample.gateway_scan Hinit) as (_ & _ & Happ & _ & Hrows).
  split; [exact Happ |].
  destruct (Hrows (fun _ => eq_refl)) as (fs' & Hsave & Hpdu & _).
  exists fs'. rewrite Hsave. split; [reflexivity |].
  rewrite Hpdu. vm_compute. reflexivity.
Defined.

(** C3 as stated fails twice. The scan of the gateway reports the PDU
    behind it once per configured port, and both records, which share the
    identity key 10.1.1.1:7000:1, are appended to the pending PDU list. And a
    key that is already in the registry list is not in the pending index:
    its record is appended all the same. *)
Lemma SaveResults_same_key_appended_twice :
  Global.InitScanList ∅ Sample.gateway_config = Some Sample.gateway_config /\
  head <$> default []
    (fst (fst (Persist.SaveResults Sample.always_open Sample.sample_time
                 Sample.gateway_config Sample.gateway_scan ∅))
       !! Models.SCAN_PDU_LIST)
  = [Some "ip_key"; Some "10.1.1.1:7000:1"; Some "10.1.1.1:7000:1"] /\
  Global.InitScanList Sample.registry_files Sample.gateway_config
    = Some Sample.gateway_config /\
  head <$> default []
    (fst (fst (Persist.SaveResults Sample.always_open Sample.sample_time
                 Sample.gateway_config [Sample.pdu_record] Sample.registry_files))
       !! Models.SCAN_PDU_LIST)
  = [Some "ip_key"; Some "10.1.1.1:7000:1"].
Proof. repeat split; vm_compute; reflexivity. Qed.

(** C9, as the code has it. [saveToCSV] touches only the pending list it
    is called for. When the file cannot be opened nothing changes and an
    error is returned. Otherwise the file afterwards holds what it held, in
    the same order, then the header row if and only if the file did not
    exist before the call, then one row per result in input order. A row of
    the PDU list carries identity key, model, IP, protocol, version, serial
    number, MAC address, instance type, manufacturer, uptime-seconds and the
    update timestamp; a row of the device list carries identity key, IP,
    protocol, model, MAC address, instance type, manufacturer,
    uptime-seconds and the update timestamp. *)
Theorem saveToCSV_appends_rows
    (can_open : string -> bool) (currentTime : string)
    (results : list Models.ScanInstanceInfo.t) (isPDU : bool) (fs : FS) :
  let filename :=
    if isPDU then Models.SCAN_PDU_LIST else Models.SCAN_DEVICE_LIST in
  let header :=
    if isPDU then Persist.pending_pdu_header else Persist.pending_device_header in
  let columns := fun r : Models.ScanInstanceInfo.t =>
    if isPDU then
      [Models.ScanInstanceInfo.IPKey r; Models.ScanInstanceInfo.Model r;
       Models.ScanInstanceInfo.IP r; Models.ScanInstanceInfo.Protocol r;
       Models.ScanInstanceInfo.Version r; Models.ScanInstanceInfo.SerialNumber r;
       Models.ScanInstanceInfo.MacAddress r;
       Models.ScanInstanceInfo.InstanceType r;
       Models.ScanInstanceInfo.Manufacturer r;
       fmt_d (Models.ScanInstanceInfo.Uptime r); currentTime]
    else
      [Models.ScanInstanceInfo.IPKey r; Models.ScanInstanceInfo.IP r;
       Models.ScanInstanceInfo.Protocol r; Models.ScanInstanceInfo.Model r;
       Models.ScanInstanceInfo.MacAddress r;
       Models.ScanInstanceInfo.InstanceType r;
       Models.ScanInstanceInfo.Manufacturer r;
       fmt_d (Models.ScanInstanceInfo.Uptime r); currentTime] in
  let fs' := fst (Persist.saveToCSV can_open currentTime results isPDU fs) in
  let err := snd (Persist.saveToCSV can_open currentTime results isPDU fs) in
  (forall other, other <> filename -> fs' !! other = fs !! other) /\
  (can_open filename = false -> fs' = fs /\ err <> None) /\
  (can_open filename = true ->
   err = None /\
   (forall old, fs !! filename = Some old ->
                fs' !! filename = Some (old ++ (columns <$> results))) /\
   (fs !! filename = None ->
    fs' !! filename = Some (header :: (columns <$> results)))) /\
  length header = (if isPDU then 11 else 9)%nat /\
  (forall r, length (columns r) = length header).
Proof.
  intros filename header columns fs' err.
  assert (Hcols : forall r, Persist.csv_record isPDU currentTime r = columns r)
    by (intros r; subst columns; destruct isPDU; reflexivity).
  subst fs' err. unfold Persist.saveToCSV. fold filename. fold header.
  split; [| split; [| split; [| split]]].
  - intros other Hne. destruct (can_open filename); cbn [negb fst];
      [apply lookup_insert_ne; congruence | reflexivity].
  - intros Hopen. rewrite Hopen. cbn [negb fst snd]. split; [reflexivity | discriminate].
  - intros Hopen. rewrite Hopen. cbn [negb fst snd].
    split; [reflexivity | split].
    + intros old Hold. rewrite lookup_insert_eq, Hold.
      rewrite bool_decide_eq_true_2 by eauto. cbn [negb default].
      rewrite (list_fmap_ext _ columns results) by (intros; apply Hcols).
      reflexivity.
    + intros Hnone. rewrite lookup_insert_eq, Hnone.
      rewrite bool_decide_eq_false_2 by (intros [x Hx]; discriminate Hx).
      cbn [negb default app].
      rewrite (list_fmap_ext _ columns results) by (intros; apply Hcols).
      reflexivity.
  - subst header. destruct isPDU; reflexivity.
  - intros r. subst columns header. destruct isPDU; reflexivity.
Qed.

Lemma saveToCSV_appends_rows_witness :
  fst (Persist.saveToCSV Sample.always_open Sample.sample_time
         [Persist.keyed Sample.pdu_record] true
         {[ Models.SCAN_PDU_LIST := [Persist.pending_pdu_header] ]})
    !! Models.SCAN_PDU_LIST
  = Some [Persist.pending_pdu_header;
          ["10.1.1.1:7000:1"; "PDU1315"; "10.1.1.1"; "modbus"; "v1.2.3";
           "SN123456"; ""; "pdu"; "DELTA"; "0"; Sample.sample_time]].
Proof.
  destruct (saveToCSV_appends_rows Sample.always_open Sample.sample_time
              [Persist.keyed Sample.pdu_record] true
              {[ Models.SCAN_PDU_LIST := [Persist.pending_pdu_header] ]})
    as (_ & _ & Hopen & _).
  destruct (Hopen eq_refl) as (_ & Hexists & _).
  apply (Hexists [Persist.pending_pdu_header]).
  vm_compute. reflexivity.
Defined.

(** C9 as stated fails for the device list: its rows have nine columns, in
    another order, and carry neither the version nor the serial number of
    the record. *)
Lemma saveToCSV_device_row_has_nine_columns :
  fst (Persist.saveToCSV Sample.always_open Sample.sample_time
         [Persist.keyed Sample.gateway_record] false ∅)
    !! Models.SCAN_DEVICE_LIST
  = Some [["ip_key"; "ip"; "protocol"; "model"; "mac_address";
           "instance_type"; "manufacturer"; "uptime"; "updated_at"];
          ["10.1.1.1:161"; "10.1.1.1"; "snmp"; "WCM-421"; "00:18:23:68:4a:9d";
           "gateway"; "LIENEO"; "259200"; Sample.sample_time]] /\
  Models.ScanInstanceInfo.Version Sample.gateway_record = "r1.0".
Proof. split; vm_compute; reflexivity. Qed.

(** * Further properties of the code *)

(** ** Addresses as integers *)

Section Address_facts.
Import FpingIP.

Lemma to_byte_uint8 b : to_byte (uint8 b) = b.
Proof.
  unfold to_byte. pose proof (uint8_range b) as Hb.
  rewrite Z.mod_small by lia. unfold uint8. rewrite N2Z.id, Byte.of_to_N.
  reflexivity.
Qed.

Lemma uint8_to_byte n : uint8 (to_byte n) = n mod 256.
Proof.
  unfold to_byte, uint8.
  pose proof (Z.mod_pos_bound n 256 ltac:(lia)) as Hn.
  destruct (Byte.of_N (Z.to_N (n mod 256))) as [b|] eqn:Hb.
  - apply Byte.to_of_N in Hb. cbn [from_option id]. rewrite Hb. lia.
  - apply Byte.of_N_None_iff in Hb. lia.
Qed.

(** The bit [i] of a byte placed [k] bits up. *)
Lemma testbit_byte_at x k i :
  0 <= k -> 0 <= i ->
  Z.testbit (Z.shiftl (x mod 2 ^ 8) k) i
  = (k <=? i) && (i <? k + 8) && Z.testbit x (i - k).
Proof.
  intros Hk Hi. rewrite Z.shiftl_spec by lia.
  destruct (Z.leb_spec k i) as [Hki|Hki].
  - rewrite Z.testbit_mod_pow2 by lia.
    destruct (Z.ltb_spec (i - k) 8), (Z.ltb_spec i (k + 8)); try lia; reflexivity.
  - rewrite Z.testbit_neg_r by lia. reflexivity.
Qed.

Lemma bytes_bits a b c d i :
  0 <= i ->
  Z.testbit (Z.lor (Z.lor (Z.lor (Z.shiftl (a mod 2 ^ 8) 24)
                                 (Z.shiftl (b mod 2 ^ 8) 16))
                          (Z.shiftl (c mod 2 ^ 8) 8))
                   (d mod 2 ^ 8)) i
  = (24 <=? i) && (i <? 32) && Z.testbit a (i - 24)
    || (16 <=? i) && (i <? 24) && Z.testbit b (i - 16)
    || (8 <=? i) && (i <? 16) && Z.testbit c (i - 8)
    || (i <? 8) && Z.testbit d i.
Proof.
  intros Hi. rewrite !Z.lor_spec, !testbit_byte_at by lia.
  rewrite Z.testbit_mod_pow2 by lia. reflexivity.
Qed.

Lemma ipToUint32_bits (ip : IPv4) i :
  0 <= i ->
  Z.testbit (ipToUint32 ip) i
  = (24 <=? i) && (i <? 32) && Z.testbit (uint8 (ip0 ip)) (i - 24)
    || (16 <=? i) && (i <? 24) && Z.testbit (uint8 (ip1 ip)) (i - 16)
    || (8 <=? i) && (i <? 16) && Z.testbit (uint8 (ip2 ip)) (i - 8)
    || (i <? 8) && Z.testbit (uint8 (ip3 ip)) i.
Proof.
  intros Hi.
  pose proof (bytes_bits (uint8 (ip0 ip)) (uint8 (ip1 ip)) (uint8 (ip2 ip))
                (uint8 (ip3 ip)) i Hi) as H.
  rewrite !Z.mod_small in H by apply uint8_range. exact H.
Qed.

Lemma byte_of_address ip k (b : byte) :
  0 <= k ->
  (forall i, 0 <= i < 8 ->
             Z.testbit (ipToUint32 ip) (i + k) = Z.testbit (uint8 b) i) ->
  to_byte (Z.shiftr (ipToUint32 ip) k) = b.
Proof.
  intros Hk Hbits.
  assert (Hmod : Z.shiftr (ipToUint32 ip) k mod 256 = uint8 b mod 256).
  { change 256 with (2 ^ 8). apply Z.bits_inj'. intros i Hi.
    rewrite !Z.testbit_mod_pow2 by lia.
    destruct (Z.ltb_spec i 8); [| reflexivity]. cbn [andb].
    rewrite Z.shiftr_spec by lia. apply Hbits. lia. }
  rewrite <- (to_byte_uint8 b). unfold to_byte. rewrite Hmod. reflexivity.
Qed.

End Address_facts.

Ltac split_ranges :=
  repeat match goal with
         | |- context [?a <=? ?b] => destruct (Z.leb_spec a b)
         | |- context [?a <? ?b] => destruct (Z.ltb_spec a b)
         end; try lia; cbn [andb orb]; rewrite ?orb_false_r.

Lemma uint32ToIP_ipToUint32 (ip : FpingIP.IPv4) :
  FpingIP.IP_To4 (FpingIP.uint32ToIP (FpingIP.ipToUint32 ip)) = ip.
Proof.
  destruct ip as [b0 b1 b2 b3]. unfold FpingIP.uint32ToIP, FpingIP.net_IPv4.
  cbn [FpingIP.IP_To4].
  rewrite <- (Z.shiftr_0_r (FpingIP.ipToUint32 _)) at 4.
  f_equal; apply byte_of_address; try lia; intros i Hi;
    rewrite ipToUint32_bits by lia;
    cbn [FpingIP.ip0 FpingIP.ip1 FpingIP.ip2 FpingIP.ip3];
    split_ranges; f_equal; lia.
Qed.

Lemma ipToUint32_uint32ToIP n :
  0 <= n < 2 ^ 32 ->
  FpingIP.ipToUint32 (FpingIP.IP_To4 (FpingIP.uint32ToIP n)) = n.
Proof.
  intros Hn. apply Z.bits_inj'. intros i Hi.
  rewrite ipToUint32_bits by lia.
  unfold FpingIP.uint32ToIP, FpingIP.net_IPv4.
  cbn [FpingIP.IP_To4 FpingIP.ip0 FpingIP.ip1 FpingIP.ip2 FpingIP.ip3].
  rewrite !uint8_to_byte. change 256 with (2 ^ 8).
  destruct (Z.ltb_spec i 32) as [Hlt|Hge].
  - split_ranges;
      rewrite Z.testbit_mod_pow2 by lia;
      [rewrite Z.shiftr_spec by lia | rewrite Z.shiftr_spec by lia
       | rewrite Z.shiftr_spec by lia | ];
      split_ranges; f_equal; lia.
  - split_ranges. symmetry. apply Z.bits_above_log2; [lia |].
    destruct (Z.eq_dec n 0) as [->|Hne]; [simpl; lia |].
    assert (Z.log2 n < 32) by (apply Z.log2_lt_pow2; lia). lia.
Qed.

(** The slice [uint32ToIP] returns prints as the address it was built
    from. *)
Lemma IP_String_uint32ToIP (ip : FpingIP.IPv4) :
  FpingIP.IP_String (FpingIP.uint32ToIP (FpingIP.ipToUint32 ip))
  = FpingIP.IP_String ip.
Proof.
  unfold FpingIP.IP_String. rewrite uint32ToIP_ipToUint32. reflexivity.
Qed.

(** X1. [uint32ToIP] returns the 16-byte form of [net.IPv4], so the two
    conversions are inverse to each other only through [To4()]: a four-byte
    address survives the trip through its integer and [To4()], and an
    integer below 2^32 survives the trip through [To4()] of its address.
    Applied to the slice [uint32ToIP] returns as it is, [ipToUint32] reads
    the leading zero bytes and gives [0] for every integer. The text of the
    slice is that of the four bytes all the same. *)
Theorem uint32ToIP_inverse_through_To4 :
  (forall ip : FpingIP.IPv4,
      FpingIP.IP_To4 (FpingIP.uint32ToIP (FpingIP.ipToUint32 ip)) = ip) /\
  (forall n, 0 <= n < 2 ^ 32 ->
             FpingIP.ipToUint32 (FpingIP.IP_To4 (FpingIP.uint32ToIP n)) = n) /\
  (forall n, FpingIP.ipToUint32 (FpingIP.uint32ToIP n) = 0) /\
  (forall ip : FpingIP.IPv4,
      FpingIP.IP_String (FpingIP.uint32ToIP (FpingIP.ipToUint32 ip))
      = FpingIP.IP_String ip).
Proof.
  split; [apply uint32ToIP_ipToUint32 |].
  split; [apply ipToUint32_uint32ToIP |].
  split; [intros n; reflexivity | apply IP_String_uint32ToIP].
Qed.

Lemma uint32ToIP_inverse_through_To4_witness :
  FpingIP.ipToUint32 (FpingIP.IP_To4 (FpingIP.uint32ToIP 2886008833))
  = 2886008833 /\
  FpingIP.ipToUint32 (FpingIP.uint32ToIP 2886008833) = 0.
Proof.
  destruct uint32ToIP_inverse_through_To4 as (_ & Hint & Hzero & _).
  split; [apply Hint; lia | apply Hzero].
Defined.

(** ** Ranges of addresses *)

Section Range_facts.
Import FpingIP.

(** Whatever the loop of [ExpandRange] returns is the list it was given
    followed by the addresses from [i] to the end, ascending. *)
Lemma ExpandRange_loop_sound fuel : forall i e ips r,
  0 <= i -> e < max_uint32 ->
  ExpandRange_loop fuel i e ips = Some r ->
  r = ips ++ ((fun a => IP_String (uint32ToIP a)) <$> seqZ i (e - i + 1)).
Proof.
  unfold max_uint32.
  induction fuel as [|fuel IH]; intros i e ips r Hi He Hrun; [discriminate Hrun |].
  cbn [ExpandRange_loop] in Hrun. destruct (Z.leb_spec i e) as [Hle|Hgt].
  - assert (Hw : wrap32 (i + 1) = i + 1)
      by (unfold wrap32; apply Z.mod_small; lia).
    rewrite Hw in Hrun. apply IH in Hrun; [| lia | lia].
    rewrite Hrun, (seqZ_cons i (e - i + 1)) by lia.
    replace (Z.succ i) with (i + 1) by lia.
    replace (Z.pred (e - i + 1)) with (e - (i + 1) + 1) by lia.
    rewrite fmap_cons, <- app_assoc. reflexivity.
  - injection Hrun as <-. rewrite seqZ_nil by lia. rewrite app_nil_r. reflexivity.
Qed.

Lemma foldl_range_match (targetSet : gset string) aliveIPs : forall matched,
  foldl (FpingRest.range_match targetSet) matched aliveIPs
  = matched ++ filter (fun ip => ip ∈ targetSet) aliveIPs.
Proof.
  induction aliveIPs as [|ip aliveIPs IH]; intros matched; simpl.
  - rewrite app_nil_r. reflexivity.
  - rewrite IH, filter_cons. unfold FpingRest.range_match.
    destruct (decide (ip ∈ targetSet)) as [Hin|Hout].
    + rewrite bool_decide_eq_true_2 by exact Hin. rewrite <- app_assoc. reflexivity.
    + rewrite bool_decide_eq_false_2 by exact Hout. reflexivity.
Qed.

End Range_facts.

(** X2. For a valid pair with start <= end, whatever [ExpandRange] returns
    is the list of the [end - start + 1] addresses from start to end in
    ascending order, the address at position [k] being [start + k]; and
    when the end is below 255.255.255.255 it does return that list, given
    one unit of fuel per address and one more. *)
Theorem ExpandRange_ascending_addresses
    (ParseIP_To4 : string -> option FpingIP.IPv4) (fuel : nat)
    (startIP endIP : string) (start end_ : FpingIP.IPv4) :
  ParseIP_To4 startIP = Some start -> ParseIP_To4 endIP = Some end_ ->
  FpingIP.ipToUint32 start <= FpingIP.ipToUint32 end_ ->
  let s := FpingIP.ipToUint32 start in
  let e := FpingIP.ipToUint32 end_ in
  (forall ips,
      FpingIP.ExpandRange ParseIP_To4 fuel startIP endIP = Some (FpingIP.Ok ips) ->
      length ips = Z.to_nat (e - s + 1) /\
      forall k : nat,
        Z.of_nat k <= e - s ->
        ips !! k = Some (FpingIP.IP_String (FpingIP.uint32ToIP (s + Z.of_nat k)))) /\
  (e < FpingIP.max_uint32 -> (Z.to_nat (e - s + 1) < fuel)%nat ->
   exists ips,
     FpingIP.ExpandRange ParseIP_To4 fuel startIP endIP = Some (FpingIP.Ok ips)) /\
  (forall err,
      FpingIP.ExpandRange ParseIP_To4 fuel startIP endIP
        <> Some (FpingIP.Err err)).
Proof.
  intros Hs He Hle s e. fold s in Hle. fold e in Hle.
  pose proof (ipToUint32_range start) as Rs. fold s in Rs.
  pose proof (ipToUint32_range end_) as Re. fold e in Re.
  assert (Hrun : FpingIP.ExpandRange ParseIP_To4 fuel startIP endIP
                 = FpingIP.Ok <$> FpingIP.ExpandRange_loop fuel s e []).
  { unfold FpingIP.ExpandRange. rewrite Hs, He. fold s. fold e.
    destruct (Z.gtb_spec s e); [lia | reflexivity]. }
  split; [| split].
  - intros ips Hips. rewrite Hrun in Hips.
    destruct (FpingIP.ExpandRange_loop fuel s e []) as [r|] eqn:Hloop;
      [| discriminate Hips].
    injection Hips as <-.
    assert (Hmax : e < FpingIP.max_uint32).
    { destruct (Z.eq_dec e FpingIP.max_uint32) as [Heq|Hne].
      - rewrite Heq, ExpandRange_loop_max_end in Hloop by lia. discriminate Hloop.
      - unfold FpingIP.max_uint32 in *. lia. }
    apply ExpandRange_loop_sound in Hloop; [| lia | exact Hmax].
    rewrite app_nil_l in Hloop. subst r. split.
    + rewrite length_fmap, length_seqZ. reflexivity.
    + intros k Hk. rewrite list_lookup_fmap, lookup_seqZ_lt by lia. reflexivity.
  - intros Hmax Hfuel. eexists.
    apply (ExpandRange_below_max_returns ParseIP_To4 fuel startIP endIP start end_
             Hs He); [fold s; fold e; lia | exact Hfuel].
  - intros err Herr. rewrite Hrun in Herr.
    destruct (FpingIP.ExpandRange_loop fuel s e []); discriminate Herr.
Qed.

Lemma ExpandRange_ascending_addresses_witness :
  exists ips,
    FpingIP.ExpandRange FpingIP.parse_dotted_quad 5 "10.0.0.1" "10.0.0.3"
      = Some (FpingIP.Ok ips).
Proof.
  destruct (ExpandRange_ascending_addresses FpingIP.parse_dotted_quad 5
              "10.0.0.1" "10.0.0.3" (FpingIP.mkIPv4 x0a x00 x00 x01)
              (FpingIP.mkIPv4 x0a x00 x00 x03) eq_refl eq_refl
              ltac:(vm_compute; discriminate)) as (_ & Hret & _).
  apply Hret; vm_compute; [reflexivity | lia].
Defined.

(** X3. A range of one address: for a valid address [a], [CalculateCIDR a a]
    is the block [a/32] whose network address prints as [a] again. *)
Theorem CalculateCIDR_single_address
    (ParseIP_To4 : string -> option FpingIP.IPv4) (a : string)
    (ip : FpingIP.IPv4) :
  ParseIP_To4 a = Some ip ->
  FpingIP.CalculateCIDR ParseIP_To4 a a
    = FpingIP.Ok (FpingIP.IP_String ip +:+ "/32").
Proof.
  intros Ha. unfold FpingIP.CalculateCIDR. rewrite Ha.
  pose proof (ipToUint32_range ip) as Hr.
  destruct (Z.gtb_spec (FpingIP.ipToUint32 ip) (FpingIP.ipToUint32 ip)); [lia |].
  unfold FpingIP.cidr_network, FpingIP.cidr_maskLen. cbv zeta.
  rewrite Z.lxor_nilpotent. change (FpingIP.Len32 0) with 0.
  change (32 - 0) with 32. change (32 - 32) with 0.
  rewrite Z.shiftl_0_r.
  assert (Hmask : FpingIP.wrap32 FpingIP.max_uint32 = Z.ones 32) by reflexivity.
  rewrite Hmask, Z.land_ones, Z.mod_small by lia.
  unfold FpingIP.cidr_text. rewrite IP_String_uint32ToIP. reflexivity.
Qed.

Lemma CalculateCIDR_single_address_witness :
  FpingIP.CalculateCIDR FpingIP.parse_dotted_quad "10.1.249.34" "10.1.249.34"
    = FpingIP.Ok "10.1.249.34/32".
Proof.
  apply (CalculateCIDR_single_address FpingIP.parse_dotted_quad "10.1.249.34"
           (FpingIP.mkIPv4 x0a x01 xf9 x22)).
  reflexivity.
Defined.

(** X4. Whenever [HasAliveIPsInRange] returns, its flag says whether the
    returned list is non-empty, an error comes with an empty list, and
    without an error the list is the hosts the sweep of the covering block
    reported alive, restricted to the addresses of the expanded range, in
    the order of the sweep's output. *)
Theorem HasAliveIPsInRange_alive_in_range
    (ParseIP_To4 : string -> option FpingIP.IPv4)
    (exec_CombinedOutput : list string -> string * error)
    (bufio_ScanLines : string -> list string)
    (strings_TrimSpace : string -> string)
    (fuel : nat) (startIP endIP : string) (retries timeout : Z)
    (flag : bool) (matched : list string) (err : error) :
  FpingRest.HasAliveIPsInRange ParseIP_To4 exec_CombinedOutput bufio_ScanLines
    strings_TrimSpace fuel startIP endIP retries timeout
    = Some (flag, matched, err) ->
  (flag = true <-> matched <> []) /\
  (err <> None -> matched = []) /\
  (err = None ->
   exists cidr range,
     FpingIP.CalculateCIDR ParseIP_To4 startIP endIP = FpingIP.Ok cidr /\
     FpingIP.ExpandRange ParseIP_To4 fuel startIP endIP
       = Some (FpingIP.Ok range) /\
     matched = filter (fun ip => ip ∈ range)
                 (fst (FpingIP.ExecuteFping exec_CombinedOutput bufio_ScanLines
                         strings_TrimSpace cidr retries timeout))).
Proof.
  unfold FpingRest.HasAliveIPsInRange. intros Hrun.
  assert (Hfail : forall e : string,
             (false = true <-> @nil string <> []) /\
             (Some e <> None -> @nil string = []) /\
             (Some e = None ->
              exists cidr range,
                FpingIP.CalculateCIDR ParseIP_To4 startIP endIP = FpingIP.Ok cidr /\
                FpingIP.ExpandRange ParseIP_To4 fuel startIP endIP
                  = Some (FpingIP.Ok range) /\
                @nil string
                = filter (fun ip => ip ∈ range)
                    (fst (FpingIP.ExecuteFping exec_CombinedOutput
                            bufio_ScanLines strings_TrimSpace cidr retries
                            timeout)))).
  { intros e.
    split; [split; [discriminate | intros H; exfalso; apply H; reflexivity] |].
    split; [reflexivity | discriminate]. }
  destruct (FpingIP.CalculateCIDR ParseIP_To4 startIP endIP) as [cidr|e] eqn:Hcidr;
    [| injection Hrun as <- <- <-; apply Hfail].
  destruct (FpingIP.ExecuteFping _ _ _ cidr retries timeout)
    as [aliveIPs [e|]] eqn:Hfping;
    [injection Hrun as <- <- <-; apply Hfail |].
  destruct (FpingIP.ExpandRange ParseIP_To4 fuel startIP endIP)
    as [[range|e]|] eqn:Hrange; [| | discriminate Hrun];
    [| injection Hrun as <- <- <-; apply Hfail].
  cbv zeta in Hrun. rewrite foldl_range_match, app_nil_l in Hrun.
  injection Hrun as <- <- <-.
  assert (Hfilter : filter (fun ip => ip ∈ (list_to_set range : gset string))
                           aliveIPs
                    = filter (fun ip => ip ∈ range) aliveIPs).
  { apply list_filter_iff. intros ip. apply elem_of_list_to_set. }
  rewrite Hfilter.
  set (m := filter (fun ip => ip ∈ range) aliveIPs).
  split; [| split].
  - destruct m; cbn; split.
    + discriminate.
    + intros H; exfalso; apply H; reflexivity.
    + intros _. discriminate.
    + reflexivity.
  - intros H; exfalso; apply H; reflexivity.
  - intros _. exists cidr, range. rewrite Hfping. repeat split; reflexivity.
Qed.

Lemma HasAliveIPsInRange_alive_in_range_witness :
  exists cidr range,
    FpingIP.CalculateCIDR FpingIP.parse_dotted_quad "10.0.0.1" "10.0.0.3"
      = FpingIP.Ok cidr /\
    FpingIP.ExpandRange FpingIP.parse_dotted_quad 5 "10.0.0.1" "10.0.0.3"
      = Some (FpingIP.Ok range) /\
    ["10.0.0.1"]
    = filter (fun ip => ip ∈ range)
        (fst (FpingIP.ExecuteFping SampleRest.sweep_exec FpingIP.ascii_ScanLines
                FpingIP.ascii_TrimSpace cidr 2 100)).
Proof.
  assert (Hrun : FpingRest.HasAliveIPsInRange FpingIP.parse_dotted_quad
                   SampleRest.sweep_exec FpingIP.ascii_ScanLines
                   FpingIP.ascii_TrimSpace 5 "10.0.0.1" "10.0.0.3" 2 100
                 = Some (true, ["10.0.0.1"], None))
    by (vm_compute; reflexivity).
  destruct (HasAliveIPsInRange_alive_in_range _ _ _ _ _ _ _ _ _ _ _ _ Hrun)
    as (_ & _ & Hok).
  apply Hok. reflexivity.
Defined.

(** ** More on SNMP signature matching *)

Lemma GetSNMPTarget_last_match_wins_witness :
  Collect.GetSNMPTargetByMatchModelValue Sample.ab_config "10.1.1.1" 161 "snmp"
    ["PDUX-1000"; "later candidate"]
  = Some (Collect.matched_info Sample.target_B "10.1.1.1" 161 "snmp",
          Models.SnmpSession.mk Models.SnmpConn.zero []).
Proof.
  apply (GetSNMPTarget_last_match_wins Sample.ab_config "10.1.1.1" 161 "snmp"
           [Sample.target_A] Sample.target_B
           [Models.SnmpSession.mk Models.SnmpConn.zero []]
           (Models.SnmpSession.mk Models.SnmpConn.zero [])
           "PDUX-1000" ["later candidate"]);
    try reflexivity; discriminate.
Defined.

Section SNMP_skip_facts.
Import Models Collect.

Variables (lib : SNMPInstanceLib.t) (ip : string) (port : Z)
          (protocol : string).

(** A candidate in which no SNMP target's signature occurs leaves the
    variables of the loops as they are, and reads no detail session. *)
Lemma snmp_match_targets_no_match matchValue ts : forall i st,
  (forall t, t ∈ ts -> Target.Protocol t = PROTOCOL_SNMP ->
             strings_Contains matchValue (Target.SNMP_MatchValueContains t)
             = false) ->
  snmp_match_targets lib ip port protocol matchValue i ts st = Some st.
Proof.
  induction ts as [|t ts IH]; intros i st Hno; [reflexivity |].
  cbn [snmp_match_targets].
  assert (Hrest : forall t', t' ∈ ts -> Target.Protocol t' = PROTOCOL_SNMP ->
             strings_Contains matchValue (Target.SNMP_MatchValueContains t')
             = false)
    by (intros t' Hin; apply Hno; right; exact Hin).
  destruct (String.eqb_spec (Target.Protocol t) PROTOCOL_SNMP) as [Hp|Hp];
    cbn [negb]; [| apply IH, Hrest].
  rewrite (Hno t ltac:(left) Hp). apply IH, Hrest.
Qed.

(** A candidate in which some SNMP target's signature occurs sets the
    match flag, unless the loop panics. *)
Lemma snmp_match_targets_some_match matchValue ts : forall i st st',
  (exists t, t ∈ ts /\ Target.Protocol t = PROTOCOL_SNMP /\
             strings_Contains matchValue (Target.SNMP_MatchValueContains t)
             = true) ->
  snmp_match_targets lib ip port protocol matchValue i ts st = Some st' ->
  isMatchInstance st' = true.
Proof.
  induction ts as [|t ts IH]; intros i st st' (t0 & Hin & Hp & Hc) Hrun.
  - inversion Hin.
  - cbn [snmp_match_targets] in Hrun.
    destruct (strings_Contains matchValue (Target.SNMP_MatchValueContains t)
              && String.eqb (Target.Protocol t) PROTOCOL_SNMP) eqn:Hhere.
    + apply andb_true_iff in Hhere as [Hc' Hp']. rewrite Hp', Hc' in Hrun.
      cbn [negb] in Hrun.
      destruct (SNMPInstanceLib.DetailFieldSessions lib !! i) as [session|];
        [| discriminate Hrun].
      assert (Hkeep : forall ts' j s1 s2,
                 isMatchInstance s1 = true ->
                 snmp_match_targets lib ip port protocol matchValue j ts' s1
                   = Some s2 ->
                 isMatchInstance s2 = true).
      { induction ts' as [|u ts' IH']; intros j s1 s2 H1 H2;
          cbn [snmp_match_targets] in H2.
        - injection H2 as <-. exact H1.
        - destruct (negb (String.eqb (Target.Protocol u) PROTOCOL_SNMP));
            [eapply IH'; eassumption |].
          destruct (strings_Contains matchValue
                      (Target.SNMP_MatchValueContains u));
            [| eapply IH'; eassumption].
          destruct (SNMPInstanceLib.DetailFieldSessions lib !! j);
            [| discriminate H2].
          eapply IH'; [| exact H2]. reflexivity. }
      eapply Hkeep; [| exact Hrun]. reflexivity.
    + assert (Hin' : t0 ∈ ts).
      { apply elem_of_cons in Hin as [->|Hin]; [| exact Hin].
        rewrite Hc, Hp, String.eqb_refl in Hhere. discriminate Hhere. }
      destruct (negb (String.eqb (Target.Protocol t) PROTOCOL_SNMP)) eqn:Hneg.
      * eapply IH; [| exact Hrun]. exists t0. split; [exact Hin' | split; [exact Hp | exact Hc]].
      * apply negb_false_iff in Hneg. rewrite Hneg, andb_true_r in Hhere.
        rewrite Hhere in Hrun.
        eapply IH; [| exact Hrun]. exists t0. split; [exact Hin' | split; [exact Hp | exact Hc]].
Qed.

End SNMP_skip_facts.

(** X6. When no candidate holds the signature of an SNMP target (in
    particular for an empty candidate list), [GetSNMPTargetByMatchModelValue]
    returns the unknown record, with the default SNMP port and no address,
    together with the unknown-detail session, and does not panic. *)
Theorem GetSNMPTarget_unknown_when_nothing_matches
    (g : Global.t) (ip : string) (port : Z) (protocol : string)
    (matchResult : list string) :
  (forall v t,
      v ∈ matchResult ->
      t ∈ Models.SNMPInstanceLib.Targets (Global.SNMPInstanceLib g) ->
      Models.Target.Protocol t = Models.PROTOCOL_SNMP ->
      strings_Contains v (Models.Target.SNMP_MatchValueContains t) = false) ->
  Collect.GetSNMPTargetByMatchModelValue g ip port protocol matchResult
  = Some (Collect.unknown_info g,
          Models.SNMPInstanceLib.UnknownSession (Global.SNMPInstanceLib g)).
Proof.
  intros Hno. unfold Collect.GetSNMPTargetByMatchModelValue.
  assert (Hloop : forall st,
             Collect.snmp_match_values (Global.SNMPInstanceLib g) ip port
               protocol matchResult st = Some st).
  { induction matchResult as [|v rest IH]; intros st; [reflexivity |].
    cbn [Collect.snmp_match_values].
    assert (Hrest : forall st', Collect.snmp_match_values
                       (Global.SNMPInstanceLib g) ip port protocol rest st'
                     = Some st').
    { apply IH. intros v' t Hv. apply Hno. right. exact Hv. }
    destruct (_ || _); [apply Hrest |].
    rewrite snmp_match_targets_no_match; [apply Hrest |].
    intros t Ht. apply (Hno v t); [left | exact Ht]. }
  rewrite Hloop. reflexivity.
Qed.

Lemma GetSNMPTarget_unknown_when_nothing_matches_witness :
  Collect.GetSNMPTargetByMatchModelValue Sample.ab_config "10.1.1.1" 1161 "snmp"
    ["HPE 5130"; ""]
  = Some (Collect.unknown_info Sample.ab_config,
          Models.SNMPInstanceLib.UnknownSession
            (Global.SNMPInstanceLib Sample.ab_config)).
Proof.
  apply (GetSNMPTarget_unknown_when_nothing_matches Sample.ab_config "10.1.1.1"
           1161 "snmp" ["HPE 5130"; ""]).
  intros v t Hv Ht _.
  apply list_elem_of_In in Hv. apply list_elem_of_In in Ht.
  destruct Hv as [<-|[<-|[]]]; destruct Ht as [<-|[<-|[]]]; reflexivity.
Defined.

(** X7. Candidates are tried in order until one matches: a candidate that
    is empty, is ["<nil>"], or holds no SNMP target's signature is passed
    over, so the result is that of the remaining candidates; and once a
    candidate holds a signature, the candidates after it have no influence
    on the result. *)
Theorem GetSNMPTarget_first_matching_candidate_decides
    (g : Global.t) (ip : string) (port : Z) (protocol : string)
    (candidate : string) (rest : list string) :
  let targets := Models.SNMPInstanceLib.Targets (Global.SNMPInstanceLib g) in
  (candidate = "" \/ candidate = "<nil>" \/
   (forall t, t ∈ targets -> Models.Target.Protocol t = Models.PROTOCOL_SNMP ->
              strings_Contains candidate
                (Models.Target.SNMP_MatchValueContains t) = false) ->
   Collect.GetSNMPTargetByMatchModelValue g ip port protocol (candidate :: rest)
   = Collect.GetSNMPTargetByMatchModelValue g ip port protocol rest) /\
  (candidate <> "" -> candidate <> "<nil>" ->
   (exists t, t ∈ targets /\ Models.Target.Protocol t = Models.PROTOCOL_SNMP /\
              strings_Contains candidate
                (Models.Target.SNMP_MatchValueContains t) = true) ->
   Collect.GetSNMPTargetByMatchModelValue g ip port protocol (candidate :: rest)
   = Collect.GetSNMPTargetByMatchModelValue g ip port protocol [candidate]).
Proof.
  intros targets. unfold Collect.GetSNMPTargetByMatchModelValue.
  cbn [Collect.snmp_match_values Collect.isMatchInstance]. split.
  - intros [->|[->|Hno]]; [reflexivity | reflexivity |].
    destruct (_ || _); [reflexivity |].
    rewrite snmp_match_targets_no_match by exact Hno. reflexivity.
  - intros Hne Hnil Hex. apply String.eqb_neq in Hne, Hnil.
    rewrite Hne, Hnil. cbn [orb].
    destruct (Collect.snmp_match_targets _ ip port protocol candidate 0 _ _)
      as [st|] eqn:Hrun; [| reflexivity].
    apply snmp_match_targets_some_match in Hrun; [| exact Hex].
    rewrite snmp_match_values_matched by exact Hrun. reflexivity.
Qed.

Lemma GetSNMPTarget_first_matching_candidate_decides_witness :
  Collect.GetSNMPTargetByMatchModelValue Sample.ab_config "10.1.1.1" 161 "snmp"
    ["PDU-9"; "PDUX-1000"]
  = Collect.GetSNMPTargetByMatchModelValue Sample.ab_config "10.1.1.1" 161 "snmp"
      ["PDU-9"].
Proof.
  destruct (GetSNMPTarget_first_matching_candidate_decides Sample.ab_config
              "10.1.1.1" 161 "snmp" "PDU-9" ["PDUX-1000"]) as [_ Hmatch].
  apply Hmatch; [discriminate | discriminate |].
  exists Sample.target_A. split; [left | split; reflexivity].
Defined.

(** ** The signature libraries *)

Section SNMP_lib_facts.
Import Models Config.

Lemma snmp_lib_fold targets : forall lib,
  foldl snmp_lib_add lib targets
  = let sn := filter (fun t => Target.Protocol t = PROTOCOL_SNMP) targets in
    SNMPInstanceLib.mk
      (SNMPInstanceLib.TargetNames lib ++ (Target.Name <$> sn))
      (SNMPInstanceLib.Targets lib ++ sn)
      (SNMPInstanceLib.CustomModelSessions lib ++
       ((fun t => SnmpSession.mk SnmpConn.zero
                    [SNMPRequest.mk (Target.Name t) (Target.SNMP_MatchOID t)])
          <$> sn))
      (SNMPInstanceLib.DetailFieldSessions lib ++
       ((fun t => SnmpSession.mk SnmpConn.zero
                    (getSNMPInstanceFieldRequest (Target.Name t))) <$> sn))
      (SNMPInstanceLib.UnknownSession lib).
Proof.
  induction targets as [|t targets IH]; intros lib; cbv zeta.
  - cbn. rewrite !app_nil_r. destruct lib; reflexivity.
  - cbn [foldl]. rewrite IH. cbv zeta. rewrite filter_cons. unfold snmp_lib_add.
    destruct (String.eqb_spec (Target.Protocol t) PROTOCOL_SNMP) as [Hp|Hp];
      cbn [negb].
    + rewrite decide_True by exact Hp. cbn.
      rewrite <- !app_assoc. reflexivity.
    + rewrite decide_False by exact Hp. reflexivity.
Qed.

Lemma loadSNMPInstanceLib_parallel_lists_aux snmp targets :
  SNMPInstanceLib.Targets (loadSNMPInstanceLib snmp targets)
    = filter (fun t => Target.Protocol t = PROTOCOL_SNMP) targets /\
  SNMPInstanceLib.DetailFieldSessions (loadSNMPInstanceLib snmp targets)
    = ((fun t => SnmpSession.mk SnmpConn.zero
                   (getSNMPInstanceFieldRequest (Target.Name t)))
         <$> filter (fun t => Target.Protocol t = PROTOCOL_SNMP) targets).
Proof.
  unfold loadSNMPInstanceLib. rewrite snmp_lib_fold. cbv zeta. cbn.
  split; reflexivity.
Qed.

End SNMP_lib_facts.

(** X8. [loadSNMPInstanceLib] keeps the SNMP targets of the configuration,
    in configuration order, and builds its four lists in parallel: the name,
    the match session (one request, named after the target, for the
    target's match OID) and the detail session at a position belong to the
    target at that position. The unknown-detail session carries the
    scanner's own SNMP port, version and community. *)
Theorem loadSNMPInstanceLib_parallel_lists
    (snmp : Models.SNMPSettings.t) (targets : list Models.Target.t) :
  let lib := Config.loadSNMPInstanceLib snmp targets in
  let sn := filter (fun t => Models.Target.Protocol t = Models.PROTOCOL_SNMP)
                   targets in
  Models.SNMPInstanceLib.Targets lib = sn /\
  Models.SNMPInstanceLib.TargetNames lib = (Models.Target.Name <$> sn) /\
  Models.SNMPInstanceLib.CustomModelSessions lib
    = ((fun t => Models.SnmpSession.mk Models.SnmpConn.zero
                   [Models.SNMPRequest.mk (Models.Target.Name t)
                                          (Models.Target.SNMP_MatchOID t)])
         <$> sn) /\
  Models.SNMPInstanceLib.DetailFieldSessions lib
    = ((fun t => Models.SnmpSession.mk Models.SnmpConn.zero
                   (Config.getSNMPInstanceFieldRequest (Models.Target.Name t)))
         <$> sn) /\
  Models.SnmpSession.Conn (Models.SNMPInstanceLib.UnknownSession lib)
    = Models.SnmpConn.mk "" (Models.SNMPSettings.Port snmp)
        (Models.SNMPSettings.Version snmp) (Models.SNMPSettings.Community snmp).
Proof.
  cbv zeta. unfold Config.loadSNMPInstanceLib. rewrite snmp_lib_fold.
  cbv zeta. cbn. repeat split; reflexivity.
Qed.

(** X9. On a library built by [loadSNMPInstanceLib] the matching function
    never panics: for every address, port and candidate list it returns a
    record and a detail session. *)
Theorem GetSNMPTarget_total_on_loaded_library
    (g : Global.t) (snmp : Models.SNMPSettings.t)
    (targets : list Models.Target.t)
    (ip : string) (port : Z) (protocol : string) (matchResult : list string) :
  Global.SNMPInstanceLib g = Config.loadSNMPInstanceLib snmp targets ->
  is_Some (Collect.GetSNMPTargetByMatchModelValue g ip port protocol matchResult).
Proof.
  intros Hlib. unfold Collect.GetSNMPTargetByMatchModelValue.
  assert (Hlen : length (Models.SNMPInstanceLib.Targets (Global.SNMPInstanceLib g))
                 = length (Models.SNMPInstanceLib.DetailFieldSessions
                             (Global.SNMPInstanceLib g))).
  { rewrite Hlib.
    destruct (loadSNMPInstanceLib_parallel_lists_aux snmp targets) as [-> ->].
    rewrite length_fmap. reflexivity. }
  assert (Hloop : forall st,
             is_Some (Collect.snmp_match_values (Global.SNMPInstanceLib g) ip port
                        protocol matchResult st)).
  { induction matchResult as [|v rest IH]; intros st; [eexists; reflexivity |].
    cbn [Collect.snmp_match_values].
    destruct (_ || _); [apply IH |].
    destruct (snmp_match_targets_total (Global.SNMPInstanceLib g) ip port
                protocol v
                (Models.SNMPInstanceLib.Targets (Global.SNMPInstanceLib g)) 0 st)
      as [st' ->]; [rewrite Hlen; reflexivity | apply IH]. }
  destruct (Hloop (Collect.mk_snmp_match Models.SnmpSession.zero
                     Models.ScanInstanceInfo.zero false)) as [st ->].
  destruct (negb (Collect.isMatchInstance st)); eexists; reflexivity.
Qed.

Lemma GetSNMPTarget_total_on_loaded_library_witness :
  is_Some (Collect.GetSNMPTargetByMatchModelValue Sample.ab_config "10.1.1.1"
             161 "snmp" ["PDUX-1000"; "<nil>"]).
Proof.
  apply (GetSNMPTarget_total_on_loaded_library Sample.ab_config
           Sample.snmp_settings [Sample.target_A; Sample.target_B]).
  reflexivity.
Defined.

Section Modbus_repeat_facts.
Import Models Config.

Lemma modbus_lib_rounds {B} (f : ModbusInstanceLib.t -> B -> ModbusInstanceLib.t)
    (block : list Target.t) :
  (forall lib b, ModbusInstanceLib.Targets (f lib b)
                 = ModbusInstanceLib.Targets lib ++ block) ->
  forall l lib,
    ModbusInstanceLib.Targets (foldl f lib l)
    = ModbusInstanceLib.Targets lib ++ concat (replicate (length l) block).
Proof.
  intros Hstep. induction l as [|b l IH]; intros lib; simpl.
  - rewrite app_nil_r. reflexivity.
  - rewrite IH, Hstep, <- app_assoc. reflexivity.
Qed.

End Modbus_repeat_facts.

(** X10. [loadModbusInstanceLib] appends the Modbus targets of the
    configuration, in configuration order, once for every (port, slave ID)
    pair: the target list of the library is that block repeated
    ports x slave IDs times, whatever the manufacturers are. *)
Theorem loadModbusInstanceLib_repeats_targets
    (config : Models.ModbusSettings.t) (targets : list Models.Target.t) :
  Models.ModbusInstanceLib.Targets (Config.loadModbusInstanceLib config targets)
  = concat
      (replicate (length (Models.ModbusSettings.Port config)
                  * length (Models.ModbusSettings.SlaveID config))
                 (filter (fun t => Models.Target.Protocol t
                                   = Models.PROTOCOL_MODBUS) targets)).
Proof.
  unfold Config.loadModbusInstanceLib.
  set (mts := filter (fun t => Models.Target.Protocol t = Models.PROTOCOL_MODBUS)
                     targets).
  set (slaves := Models.ModbusSettings.SlaveID config).
  rewrite (modbus_lib_rounds _ (concat (replicate (length slaves) mts))).
  - cbn [Models.ModbusInstanceLib.Targets Models.ModbusInstanceLib.zero app].
    generalize (length (Models.ModbusSettings.Port config)) as n.
    induction n as [|n IH]; [reflexivity |].
    cbn [replicate concat Nat.mul]. rewrite IH, replicate_add, concat_app.
    reflexivity.
  - intros lib port. apply modbus_lib_rounds. intros lib' slaveID.
    destruct (modbus_lib_pass
                (Models.ModbusConn.mk "" port (Models.ModbusSettings.Mode config)
                                      (slaveID mod 256)) targets [] lib')
      as [Htargets _]. exact Htargets.
Qed.

(** ** The Modbus client *)

Section Modbus_client_facts.
Import Models Collect CollectRest.

Variable modbus_Connect : ModbusConn.t -> bool.
Variable ReadInputRegisters : ModbusConn.t -> Z -> Z -> option string.
Variable ReadHoldingRegisters : ModbusConn.t -> Z -> Z -> option string.

Lemma modbus_read_request_inv conn data request data' :
  modbus_read_request ReadInputRegisters ReadHoldingRegisters conn (Some data)
                      request = Some data' ->
  exists results,
    data' = <[ModbusRequest.RegisterName request := results]> data /\
    results <> "" /\ allZeros results = false /\
    (ModbusRequest.RegisterType request = "input" \/
     ModbusRequest.RegisterType request = "holding").
Proof.
  unfold modbus_read_request. cbn [mbind option_bind]. intros Hread.
  match type of Hread with
  | ?read ≫= _ = _ => destruct read as [results|] eqn:Hres
  end; [| discriminate Hread].
  cbn [mbind option_bind] in Hread.
  destruct results as [|b results]; [discriminate Hread |].
  cbn [String.length Nat.eqb orb] in Hread.
  destruct (allZeros (String b results)) eqn:Hzero; [discriminate Hread |].
  injection Hread as <-. exists (String b results).
  repeat split; [discriminate | exact Hzero |].
  destruct (String.eqb_spec (ModbusRequest.RegisterType request) "input");
    [left; assumption |].
  destruct (String.eqb_spec (ModbusRequest.RegisterType request) "holding");
    [right; assumption | discriminate Hres].
Qed.

Lemma modbus_read_loop_failed conn requests :
  foldl (modbus_read_request ReadInputRegisters ReadHoldingRegisters conn)
        None requests = None.
Proof. induction requests as [|r rs IH]; [reflexivity | exact IH]. Qed.

Lemma modbus_read_loop_inv conn requests : forall done data data',
  usable_reads done data ->
  foldl (modbus_read_request ReadInputRegisters ReadHoldingRegisters conn)
        (Some data) requests = Some data' ->
  usable_reads (done ++ requests) data' /\
  (forall request, request ∈ requests ->
                   is_Some (data' !! ModbusRequest.RegisterName request)) /\
  (forall name, is_Some (data !! name) -> is_Some (data' !! name)).
Proof.
  induction requests as [|r rs IH]; intros done data data' Hdone Hrun.
  - injection Hrun as <-. rewrite app_nil_r.
    split; [exact Hdone | split; [intros request Hin; inversion Hin | auto]].
  - cbn [foldl] in Hrun.
    destruct (modbus_read_request ReadInputRegisters ReadHoldingRegisters conn
                (Some data) r) as [data1|] eqn:Hstep;
      [| rewrite modbus_read_loop_failed in Hrun; discriminate Hrun].
    destruct (modbus_read_request_inv _ _ _ _ Hstep)
      as (results & -> & Hne & Hzero & _).
    destruct (IH (done ++ [r])
                 (<[ModbusRequest.RegisterName r := results]> data) data')
      as (Husable & Hall & Hkeep); [| exact Hrun |].
    + intros name value Hlook.
      destruct (decide (ModbusRequest.RegisterName r = name)) as [<-|Hother].
      * rewrite lookup_insert_eq in Hlook. injection Hlook as <-.
        split; [exact Hne | split; [exact Hzero |]].
        exists r. split; [apply elem_of_app; right; left | reflexivity].
      * rewrite lookup_insert_ne in Hlook by exact Hother.
        destruct (Hdone name value Hlook) as (H1 & H2 & request & Hin & Hname).
        split; [exact H1 | split; [exact H2 |]].
        exists request. split; [apply elem_of_app; left; exact Hin | exact Hname].
    + rewrite <- app_assoc in Husable. split; [exact Husable | split].
      * intros request Hin. apply elem_of_cons in Hin as [->|Hin];
          [| apply Hall, Hin].
        apply Hkeep. rewrite lookup_insert_eq. eauto.
      * intros name Hsome. apply Hkeep.
        destruct (decide (ModbusRequest.RegisterName r = name)) as [<-|Hother];
          [rewrite lookup_insert_eq; eauto
          | rewrite lookup_insert_ne by exact Hother; exact Hsome].
Qed.

(** One iteration of the read loop stores the bytes of its read. *)
Lemma modbus_read_request_read conn data request data' :
  modbus_read_request ReadInputRegisters ReadHoldingRegisters conn (Some data)
                      request = Some data' ->
  exists results,
    modbus_read ReadInputRegisters ReadHoldingRegisters conn request
      = Some results /\
    usable results /\
    data' = <[ModbusRequest.RegisterName request := results]> data.
Proof.
  unfold modbus_read_request, modbus_read. cbn [mbind option_bind].
  intros Hread.
  match type of Hread with
  | ?read ≫= _ = _ => destruct read as [results|] eqn:Hres
  end; [| discriminate Hread].
  cbn [mbind option_bind] in Hread.
  destruct results as [|b results]; [discriminate Hread |].
  cbn [String.length Nat.eqb orb] in Hread.
  destruct (allZeros (String b results)) eqn:Hzero; [discriminate Hread |].
  injection Hread as <-. exists (String b results).
  split; [reflexivity |]. split; [| reflexivity].
  split; [discriminate | exact Hzero].
Qed.

Lemma modbus_read_request_usable conn data request results :
  modbus_read ReadInputRegisters ReadHoldingRegisters conn request
    = Some results ->
  usable results ->
  modbus_read_request ReadInputRegisters ReadHoldingRegisters conn (Some data)
                      request
  = Some (<[ModbusRequest.RegisterName request := results]> data).
Proof.
  unfold modbus_read_request, modbus_read. cbn [mbind option_bind].
  intros Hres [Hne Hzero]. rewrite Hres. cbn [mbind option_bind].
  destruct results as [|b results]; [contradiction |].
  cbn [String.length Nat.eqb orb]. rewrite Hzero. reflexivity.
Qed.

(** The read loop, from any map: it ends without error exactly when every
    read is usable, and then a name holds the bytes read for the last
    request of that name. *)
Lemma modbus_read_loop_exact conn requests : forall data data',
  foldl (modbus_read_request ReadInputRegisters ReadHoldingRegisters conn)
        (Some data) requests = Some data' ->
  Forall (fun request =>
            exists results,
              modbus_read ReadInputRegisters ReadHoldingRegisters conn request
                = Some results /\ usable results) requests /\
  forall name,
    data' !! name
    = match last (filter (fun r => ModbusRequest.RegisterName r = name) requests)
      with
      | Some r => modbus_read ReadInputRegisters ReadHoldingRegisters conn r
      | None => data !! name
      end.
Proof.
  induction requests as [|r rs IH]; intros data data' Hrun.
  - injection Hrun as <-. split; [constructor | reflexivity].
  - cbn [foldl] in Hrun.
    destruct (modbus_read_request ReadInputRegisters ReadHoldingRegisters conn
                (Some data) r) as [data1|] eqn:Hstep;
      [| rewrite modbus_read_loop_failed in Hrun; discriminate Hrun].
    destruct (modbus_read_request_read _ _ _ _ Hstep)
      as (results & Hread & Husable & ->).
    destruct (IH _ _ Hrun) as [Hall Hlook].
    split; [constructor; [exists results; split; assumption | exact Hall] |].
    intros name. rewrite Hlook, filter_cons.
    destruct (decide (ModbusRequest.RegisterName r = name)) as [Heq|Hne].
    + rewrite last_cons.
      destruct (last (filter (fun r0 => ModbusRequest.RegisterName r0 = name) rs));
        [reflexivity |].
      rewrite Heq, lookup_insert_eq. symmetry. exact Hread.
    + destruct (last (filter (fun r0 => ModbusRequest.RegisterName r0 = name) rs));
        [reflexivity |].
      apply lookup_insert_ne. exact Hne.
Qed.

Lemma modbus_read_loop_runs conn requests :
  Forall (fun request =>
            exists results,
              modbus_read ReadInputRegisters ReadHoldingRegisters conn request
                = Some results /\ usable results) requests ->
  forall data,
    is_Some (foldl (modbus_read_request ReadInputRegisters ReadHoldingRegisters
                      conn) (Some data) requests).
Proof.
  induction 1 as [|r rs (results & Hread & Husable) _ IH]; intros data;
    cbn [foldl]; [eauto |].
  rewrite (modbus_read_request_usable _ _ _ _ Hread Husable). apply IH.
Qed.

End Modbus_client_facts.

(** X11. [GetModbusValue] fails for every communication mode other than
    ["RTUOverTCP"] and ["TCP"] and whenever the connection fails, whatever
    the device would answer. On a connection that opens it succeeds exactly
    when the read of every request returns bytes that are neither empty nor
    all zero. When it succeeds, the map holds a value under the register
    name of every request; every value in it is the bytes read for a
    request of that name; and a name holds the bytes read for the last
    request of that name. *)
Theorem GetModbusValue_values_are_usable
    (modbus_Connect : Models.ModbusConn.t -> bool)
    (ReadInputRegisters ReadHoldingRegisters :
       Models.ModbusConn.t -> Z -> Z -> option string)
    (session : Models.ModbusSession.t) :
  let conn := Models.ModbusSession.Conn session in
  let requests := Models.ModbusSession.Requests session in
  let mode := Models.ModbusConn.Mode conn in
  let read := CollectRest.modbus_read ReadInputRegisters ReadHoldingRegisters
                conn in
  let answer := Collect.GetModbusValue modbus_Connect ReadInputRegisters
                  ReadHoldingRegisters session in
  (mode <> "RTUOverTCP" -> mode <> "TCP" -> answer = None) /\
  (modbus_Connect conn = false -> answer = None) /\
  (mode = "RTUOverTCP" \/ mode = "TCP" -> modbus_Connect conn = true ->
   (is_Some answer <->
    forall request, request ∈ requests ->
      exists results, read request = Some results /\ CollectRest.usable results)) /\
  (forall data,
      answer = Some data ->
      (forall request,
          request ∈ requests ->
          is_Some (data !! Models.ModbusRequest.RegisterName request)) /\
      (forall name value,
          data !! name = Some value ->
          value <> "" /\ Collect.allZeros value = false /\
          exists request,
            request ∈ requests /\
            Models.ModbusRequest.RegisterName request = name /\
            read request = Some value) /\
      (forall name,
          data !! name
          = last (filter (fun r => Models.ModbusRequest.RegisterName r = name)
                         requests) ≫= read)).
Proof.
  cbv zeta. unfold Collect.GetModbusValue.
  split; [| split; [| split]].
  - intros H1 H2. apply String.eqb_neq in H1, H2. rewrite H1, H2. reflexivity.
  - intros Hconn. rewrite Hconn.
    destruct (negb _); reflexivity.
  - intros Hmode Hconn. rewrite Hconn. cbn [negb].
    assert (Hm : negb (String.eqb (Models.ModbusConn.Mode
                                     (Models.ModbusSession.Conn session))
                                  "RTUOverTCP"
                       || String.eqb (Models.ModbusConn.Mode
                                        (Models.ModbusSession.Conn session))
                                     "TCP") = false).
    { destruct Hmode as [->| ->]; reflexivity. }
    rewrite Hm. rewrite <- Forall_forall. split.
    + intros [data Hrun].
      apply (modbus_read_loop_exact _ _ _ _ _ _ Hrun).
    + intros Hall. apply modbus_read_loop_runs. exact Hall.
  - intros data Hrun.
    destruct (negb _); [discriminate Hrun |].
    destruct (negb _); [discriminate Hrun |].
    destruct (modbus_read_loop_inv ReadInputRegisters ReadHoldingRegisters
                (Models.ModbusSession.Conn session)
                (Models.ModbusSession.Requests session) [] ∅ data)
      as (_ & Hall & _); [| exact Hrun |].
    { intros name value Hlook. rewrite lookup_empty in Hlook.
      discriminate Hlook. }
    destruct (modbus_read_loop_exact _ _ _ _ _ _ Hrun) as [Hreads Hexact].
    assert (Hlast : forall name,
      data !! name
      = last (filter (fun r => Models.ModbusRequest.RegisterName r = name)
                     (Models.ModbusSession.Requests session))
          ≫= CollectRest.modbus_read ReadInputRegisters ReadHoldingRegisters
                (Models.ModbusSession.Conn session)).
    { intros name. rewrite Hexact.
      destruct (last _); [reflexivity | apply lookup_empty]. }
    split; [exact Hall |]. split; [| exact Hlast].
    intros name value Hlook. rewrite Hlast in Hlook.
    destruct (last _) as [request|] eqn:Hl; [| discriminate Hlook].
    cbn [mbind option_bind] in Hlook.
    apply last_Some in Hl as [front Hl].
    assert (Hin : request ∈ filter
                    (fun r => Models.ModbusRequest.RegisterName r = name)
                    (Models.ModbusSession.Requests session))
      by (rewrite Hl; apply elem_of_app; right; left).
    apply list_elem_of_filter in Hin as [Hname Hin].
    rewrite Forall_forall in Hreads.
    destruct (Hreads request Hin) as (results & Hread & Hne & Hzero).
    assert (results = value) by congruence. subst results.
    split; [exact Hne |]. split; [exact Hzero |].
    exists request. split; [exact Hin |]. split; [exact Hname | exact Hlook].
Qed.

Lemma GetModbusValue_values_are_usable_witness :
  exists data,
    Collect.GetModbusValue Sample.gateway_connect Sample.gateway_input
      Sample.gateway_holding
      (Models.ModbusSession.mk
         (Models.ModbusConn.mk "10.1.1.1" 7000 "RTUOverTCP" 1)
         (Config.getModbusInstanceFieldRequest Models.PDU1315_NAME))
    = Some data /\
    data !! Models.FIELD_MODEL_NAME = Some "PDU1315 " /\
    data !! Models.FIELD_SERIAL_NUMBER_NAME = Some "SN123456".
Proof.
  destruct (GetModbusValue_values_are_usable Sample.gateway_connect
              Sample.gateway_input Sample.gateway_holding
              (Models.ModbusSession.mk
                 (Models.ModbusConn.mk "10.1.1.1" 7000 "RTUOverTCP" 1)
                 (Config.getModbusInstanceFieldRequest Models.PDU1315_NAME)))
    as (_ & _ & Hruns & Hdata).
  destruct (proj2 (Hruns (or_introl eq_refl) eq_refl)) as [data Hrun].
  { intros request Hin. apply list_elem_of_In in Hin.
    destruct Hin as [<-|[<-|[]]]; eexists;
      (split; [reflexivity | split; [discriminate | reflexivity]]). }
  exists data. split; [exact Hrun |].
  destruct (Hdata data Hrun) as (_ & _ & Hexact).
  split; rewrite Hexact; reflexivity.
Defined.

(** ** The Modbus sweep *)

Section Modbus_sweep_facts.
Import Models Collect CollectRest.

Variable modbus_Connect : ModbusConn.t -> bool.
Variable ReadInputRegisters : ModbusConn.t -> Z -> Z -> option string.
Variable ReadHoldingRegisters : ModbusConn.t -> Z -> Z -> option string.
Variables (g : Global.t) (ip : string).

Lemma foldl_Forall {A B} (P : A -> Prop) (f : list A -> B -> list A) :
  (forall acc b, Forall P acc -> Forall P (f acc b)) ->
  forall l acc, Forall P acc -> Forall P (foldl f acc l).
Proof.
  intros Hstep. induction l as [|b l IH]; intros acc Hacc; [exact Hacc |].
  simpl. apply IH, Hstep, Hacc.
Qed.

Lemma foldl_Forall_in {A B} (P : A -> Prop) (f : list A -> B -> list A)
    (l : list B) :
  (forall acc b, b ∈ l -> Forall P acc -> Forall P (f acc b)) ->
  forall acc, Forall P acc -> Forall P (foldl f acc l).
Proof.
  induction l as [|b l IH]; intros Hstep acc Hacc; [exact Hacc |].
  simpl. apply IH.
  - intros acc' b' Hb'. apply Hstep. right. exact Hb'.
  - apply Hstep; [left | exact Hacc].
Qed.

Lemma modbus_match_pair_candidates port slaveID infos :
  port ∈ ModbusSettings.Port (Global.ModbusSettings g) ->
  slaveID ∈ ModbusSettings.SlaveID (Global.ModbusSettings g) ->
  Forall (modbus_candidate_of g ip) infos ->
  Forall (modbus_candidate_of g ip)
    (modbus_match_pair modbus_Connect ReadInputRegisters ReadHoldingRegisters
                       g ip port infos slaveID).
Proof.
  intros Hport Hslave Hinfos. unfold modbus_match_pair.
  destruct (GetModbusValue _ _ _ _) as [data|]; [| exact Hinfos].
  apply foldl_Forall; [| exact Hinfos].
  intros acc modelValue Hacc. unfold modbus_match_targets.
  destruct (ModbusInstanceLib.Targets (Global.ModbusInstanceLib g))
    as [|first rest] eqn:Htargets; [exact Hacc |].
  destruct (strings_Contains _ _); [| exact Hacc].
  apply Forall_app. split; [exact Hacc |].
  apply Forall_cons; split; [| constructor].
  split; [reflexivity | split; [exact Hport | split; [exact Hslave |]]].
  exists first. rewrite Htargets. repeat split; reflexivity.
Qed.

Lemma modbus_detail_records results info :
  modbus_candidate_of g ip info ->
  Forall (modbus_record_of g ip) results ->
  Forall (modbus_record_of g ip)
    (modbus_detail modbus_Connect ReadInputRegisters ReadHoldingRegisters
                   g ip results info).
Proof.
  intros (Hip & Hport & Hslave & first & Hhead & Hmodel & Hmfg & Htype) Hresults.
  unfold modbus_detail.
  destruct (GetModbusValue _ _ _ _) as [data|]; [| exact Hresults].
  apply Forall_app. split; [exact Hresults |].
  apply Forall_cons; split; [| constructor].
  repeat (split; [first [reflexivity | assumption] |]).
  exists first. repeat split; assumption.
Qed.

Lemma modbus_sweep_port_inv st port :
  port ∈ ModbusSettings.Port (Global.ModbusSettings g) ->
  Forall (modbus_candidate_of g ip) (fst st) ->
  Forall (modbus_record_of g ip) (snd st) ->
  let st' := modbus_sweep_port modbus_Connect ReadInputRegisters
               ReadHoldingRegisters g ip st port in
  Forall (modbus_candidate_of g ip) (fst st') /\
  Forall (modbus_record_of g ip) (snd st').
Proof.
  destruct st as [infos results]. cbn [fst snd]. intros Hport Hinfos Hresults.
  cbv zeta. unfold modbus_sweep_port.
  assert (Hinfos' : Forall (modbus_candidate_of g ip)
            (foldl (modbus_match_pair modbus_Connect ReadInputRegisters
                      ReadHoldingRegisters g ip port) infos
                   (ModbusSettings.SlaveID (Global.ModbusSettings g)))).
  { apply foldl_Forall_in; [| exact Hinfos].
    intros acc slaveID Hslave Hacc.
    apply modbus_match_pair_candidates; assumption. }
  destruct (length _ =? 0)%nat; cbn [fst snd]; [split; assumption |].
  split; [exact Hinfos' |].
  revert Hresults. generalize results.
  induction Hinfos' as [|info rest Hinfo Hrest IH]; intros acc Hacc;
    [exact Hacc |].
  cbn [foldl]. apply IH, modbus_detail_records; assumption.
Qed.

Lemma MatchModbusInstances_records :
  Forall (modbus_record_of g ip)
    (MatchModbusInstances modbus_Connect ReadInputRegisters ReadHoldingRegisters
                          g ip).
Proof.
  unfold MatchModbusInstances.
  assert (Hgen : forall ports st,
             (forall port, port ∈ ports ->
                           port ∈ ModbusSettings.Port (Global.ModbusSettings g)) ->
             Forall (modbus_candidate_of g ip) (fst st) ->
             Forall (modbus_record_of g ip) (snd st) ->
             Forall (modbus_record_of g ip)
               (snd (foldl (modbus_sweep_port modbus_Connect ReadInputRegisters
                              ReadHoldingRegisters g ip) st ports))).
  { induction ports as [|port ports IH]; intros st Hsub Hinfos Hresults;
      [exact Hresults |].
    cbn [foldl].
    destruct (modbus_sweep_port_inv st port (Hsub port ltac:(left)) Hinfos
                Hresults) as [H1 H2].
    apply IH; [intros p Hp; apply Hsub; right; exact Hp | exact H1 | exact H2]. }
  apply Hgen; [auto | constructor | constructor].
Qed.

End Modbus_sweep_facts.

(** X12. Every record [MatchModbusInstances] returns for an address is a
    Modbus record of that address at a configured port and slave ID, and
    carries the model, manufacturer and instance type of the first target
    of the Modbus library; its target name and identity key are empty. No
    record is ever classified as another target. *)
Theorem MatchModbusInstances_only_first_target_records
    (modbus_Connect : Models.ModbusConn.t -> bool)
    (ReadInputRegisters ReadHoldingRegisters :
       Models.ModbusConn.t -> Z -> Z -> option string)
    (g : Global.t) (ip : string) (r : Models.ScanInstanceInfo.t) :
  r ∈ Collect.MatchModbusInstances modbus_Connect ReadInputRegisters
        ReadHoldingRegisters g ip ->
  Models.ScanInstanceInfo.Protocol r = Models.PROTOCOL_MODBUS /\
  Models.ScanInstanceInfo.IP r = ip /\
  Models.ScanInstanceInfo.TargetName r = "" /\
  Models.ScanInstanceInfo.IPKey r = "" /\
  Models.ScanInstanceInfo.Port r
    ∈ Models.ModbusSettings.Port (Global.ModbusSettings g) /\
  Models.ScanInstanceInfo.SlaveID r
    ∈ Models.ModbusSettings.SlaveID (Global.ModbusSettings g) /\
  exists first,
    head (Models.ModbusInstanceLib.Targets (Global.ModbusInstanceLib g))
      = Some first /\
    Models.ScanInstanceInfo.Model r = Models.Target.Model first /\
    Models.ScanInstanceInfo.Manufacturer r = Models.Target.Manufacturer first /\
    Models.ScanInstanceInfo.InstanceType r = Models.Target.InstanceType first.
Proof.
  intros Hin.
  pose proof (MatchModbusInstances_records modbus_Connect ReadInputRegisters
                ReadHoldingRegisters g ip) as Hall.
  rewrite Forall_forall in Hall. exact (Hall r Hin).
Qed.

Lemma MatchModbusInstances_only_first_target_records_witness :
  Models.ScanInstanceInfo.TargetName SampleRest.swept_pdu = "" /\
  Models.ScanInstanceInfo.Port SampleRest.swept_pdu
    ∈ Models.ModbusSettings.Port (Global.ModbusSettings Sample.gateway_config).
Proof.
  assert (Hin : SampleRest.swept_pdu
                ∈ Collect.MatchModbusInstances Sample.gateway_connect
                    Sample.gateway_input Sample.gateway_holding
                    Sample.gateway_config "10.1.1.1")
    by (vm_compute; left).
  destruct (MatchModbusInstances_only_first_target_records _ _ _ _ _ _ Hin)
    as (_ & _ & Hname & _ & Hport & _).
  split; [exact Hname | exact Hport].
Defined.

Section ScanDevice_shape_facts.
Import Models Collect CollectRest.

Variable modbus_Connect : ModbusConn.t -> bool.
Variable ReadInputRegisters : ModbusConn.t -> Z -> Z -> option string.
Variable ReadHoldingRegisters : ModbusConn.t -> Z -> Z -> option string.

Lemma scan_dependency_results g r deps : forall out modbus,
  results out = r :: modbus ->
  Forall (modbus_record_of g (ScanInstanceInfo.IP r)) modbus ->
  exists modbus',
    results (foldl (scan_dependency modbus_Connect ReadInputRegisters
                      ReadHoldingRegisters g r) out deps) = r :: modbus' /\
    Forall (modbus_record_of g (ScanInstanceInfo.IP r)) modbus'.
Proof.
  induction deps as [|d deps IH]; intros out modbus Hout Hmodbus.
  - exists modbus. split; assumption.
  - cbn [foldl]. unfold scan_dependency at 2.
    destruct (String.eqb _ _); [| eapply IH; eassumption].
    destruct (0 <? length _)%nat; [| eapply IH; eassumption].
    eapply IH.
    + cbn [results]. rewrite Hout. reflexivity.
    + apply Forall_app. split; [exact Hmodbus |].
      apply MatchModbusInstances_records.
Qed.

(** The dependency loop only appends to the list. *)
Lemma scan_dependency_prefix g r deps : forall out,
  results out
    `prefix_of` results (foldl (scan_dependency modbus_Connect ReadInputRegisters
                                  ReadHoldingRegisters g r) out deps).
Proof.
  induction deps as [|d deps IH]; intros out; cbn [foldl]; [reflexivity |].
  etransitivity; [| apply IH].
  unfold scan_dependency.
  destruct (String.eqb _ _); [| reflexivity].
  destruct (0 <? length _)%nat; cbn [results];
    [apply prefix_app_r; reflexivity | reflexivity].
Qed.

End ScanDevice_shape_facts.

(** X13. Whatever [ScanDevice] returns, after the end of its worker or on a
    time-out, the list is a prefix of the list of the completed worker.
    When the SNMP step does not panic the list is empty only if the timer
    fired before the SNMP step had ended; otherwise it starts with the SNMP
    record, also when that record is the unknown one, and all records
    after it are Modbus records of the address stored in the SNMP record.
    When the SNMP step panics the list is empty and an error is returned. A
    time-out always comes with an error; without a time-out the list is
    that of the completed worker and the error is [nil] exactly when the
    worker recorded no error. *)
Theorem ScanDevice_snmp_record_first
    (gosnmp_Get : Models.SnmpConn.t -> list string -> option (list Models.any))
    (modbus_Connect : Models.ModbusConn.t -> bool)
    (ReadInputRegisters ReadHoldingRegisters :
       Models.ModbusConn.t -> Z -> Z -> option string)
    (GetMacByArp : string -> string * error)
    (timer : option nat)
    (g : Global.t) (snmpConnInfo : Models.SnmpConnInfo.t) :
  let out := Collect.ScanDevice gosnmp_Get modbus_Connect ReadInputRegisters
               ReadHoldingRegisters GetMacByArp g snmpConnInfo in
  let ret := CollectRest.ScanDevice_select gosnmp_Get modbus_Connect
               ReadInputRegisters ReadHoldingRegisters GetMacByArp timer
               g snmpConnInfo in
  ret.1 `prefix_of` Collect.results out /\
  (forall r err,
      Collect.MatchSnmpInstances gosnmp_Get GetMacByArp g snmpConnInfo
        = Some (r, err) ->
      (timer = Some O /\ ret.1 = []) \/
      exists modbus,
        ret.1 = r :: modbus /\
        Forall (fun m =>
                  Models.ScanInstanceInfo.Protocol m = Models.PROTOCOL_MODBUS /\
                  Models.ScanInstanceInfo.IP m = Models.ScanInstanceInfo.IP r)
               modbus) /\
  (Collect.MatchSnmpInstances gosnmp_Get GetMacByArp g snmpConnInfo = None ->
   ret.1 = [] /\ ret.2 <> None) /\
  (timer <> None -> ret.2 <> None) /\
  (timer = None ->
   ret.1 = Collect.results out /\
   (ret.2 = None <-> Collect.scanErrors out = [])).
Proof.
  intros out ret. subst out ret.
  assert (Hshape : forall r deps,
    exists modbus,
      Collect.results
        (foldl (Collect.scan_dependency modbus_Connect ReadInputRegisters
                  ReadHoldingRegisters g r)
               (Collect.mk_scan_outcome [r] [] []) deps) = r :: modbus /\
      Forall (fun m =>
                Models.ScanInstanceInfo.Protocol m = Models.PROTOCOL_MODBUS /\
                Models.ScanInstanceInfo.IP m = Models.ScanInstanceInfo.IP r)
             modbus).
  { intros r deps.
    destruct (scan_dependency_results modbus_Connect ReadInputRegisters
                ReadHoldingRegisters g r deps
                (Collect.mk_scan_outcome [r] [] []) [] eq_refl
                ltac:(constructor)) as (modbus & Hres & Hall).
    exists modbus. split; [exact Hres |].
    eapply Forall_impl; [exact Hall |].
    intros m (Hp & Hip & _). split; assumption. }
  unfold CollectRest.ScanDevice_select, Collect.ScanDevice.
  destruct timer as [steps|]; cbn [fst snd].
  - (* the timer fired *)
    split; [| split; [| split; [| split]]].
    + destruct steps as [|n]; cbn [CollectRest.worker_progress fst];
        [apply prefix_nil |].
      destruct (Collect.MatchSnmpInstances gosnmp_Get GetMacByArp g snmpConnInfo)
        as [[r [e|]]|]; cbn [fst Collect.results]; [reflexivity | | reflexivity].
      rewrite <- (take_drop n (Global.Dependencies g)) at 2.
      rewrite foldl_app. apply scan_dependency_prefix.
    + intros r err Hrun.
      destruct steps as [|n]; [left; split; reflexivity | right].
      cbn [CollectRest.worker_progress]. rewrite Hrun.
      destruct err as [e|]; cbn [fst Collect.results].
      * exists []. split; [reflexivity | constructor].
      * apply Hshape.
    + intros Hpanic. split; [| discriminate].
      destruct steps as [|n]; cbn [CollectRest.worker_progress]; [reflexivity |].
      rewrite Hpanic. reflexivity.
    + intros _. discriminate.
    + intros Hc. discriminate Hc.
  - (* the worker ended first *)
    split; [reflexivity |]. split; [| split; [| split]].
    + intros r err Hrun. right. rewrite Hrun.
      destruct err as [e|]; cbn [Collect.results].
      * exists []. split; [reflexivity | constructor].
      * apply Hshape.
    + intros Hpanic. rewrite Hpanic. cbn. split; [reflexivity | discriminate].
    + intros Hc. exfalso. apply Hc. reflexivity.
    + intros _. split; [reflexivity |].
      destruct (Collect.scanErrors _) as [|e errs]; cbn;
        split; (reflexivity || discriminate).
Qed.

Lemma ScanDevice_snmp_record_first_witness :
  exists r modbus,
    (CollectRest.ScanDevice_select Sample.gateway_snmp Sample.gateway_connect
       Sample.gateway_input Sample.gateway_holding Sample.no_arp (Some 2%nat)
       Sample.gateway_config
       (Models.SnmpConnInfo.mk "10.1.1.1" 161 "public" 2)).1
    = r :: modbus /\
    Models.ScanInstanceInfo.Protocol r = "snmp".
Proof.
  destruct (ScanDevice_snmp_record_first Sample.gateway_snmp
              Sample.gateway_connect Sample.gateway_input Sample.gateway_holding
              Sample.no_arp (Some 2%nat) Sample.gateway_config
              (Models.SnmpConnInfo.mk "10.1.1.1" 161 "public" 2))
    as (_ & Hfirst & _).
  destruct (Collect.MatchSnmpInstances Sample.gateway_snmp Sample.no_arp
              Sample.gateway_config
              (Models.SnmpConnInfo.mk "10.1.1.1" 161 "public" 2))
    as [[r err]|] eqn:Hrun; [| vm_compute in Hrun; discriminate Hrun].
  destruct (Hfirst r err eq_refl) as [[Htimer _]|(modbus & Hres & _)];
    [discriminate Htimer |].
  exists r, modbus. split; [exact Hres |].
  vm_compute in Hrun. injection Hrun as <- _. reflexivity.
Defined.

(** ** Reading back what was saved *)

Section Pending_facts.
Import Models Persist PendingFiles.

Variable can_open : string -> bool.
Variable currentTime : string.

Lemma mapM_first_column (rows : list (list string)) :
  Forall (fun row => row <> []) rows ->
  mapM (fun record : list string => record !! O) rows = Some (first_column rows).
Proof.
  induction 1 as [|row rows Hrow Hrows IH]; [reflexivity |].
  cbn [mapM]. destruct row as [|k row]; [contradiction |].
  cbn [lookup list_lookup mbind option_bind]. rewrite IH. reflexivity.
Qed.

(** [ReadCSVByColumn] returns the keys of a well-formed pending list. *)
Lemma ReadCSVByColumn_keys (fs : FS) filename :
  file_ok (fs !! filename) ->
  Utils.ReadCSVByColumn fs filename "ip_key" = Some (file_keys (fs !! filename)).
Proof.
  unfold Utils.ReadCSVByColumn, file_ok, file_keys.
  destruct (fs !! filename) as [content|]; [| reflexivity].
  intros (header & rows & -> & Hcol & Hrows).
  rewrite Hcol. apply mapM_first_column, Hrows.
Qed.

Lemma first_column_app (rows more : list (list string)) :
  first_column (rows ++ more) = first_column rows ++ first_column more.
Proof. apply fmap_app. Qed.

Lemma first_column_records (isPDU : bool) results :
  first_column (csv_record isPDU currentTime <$> results)
  = ScanInstanceInfo.IPKey <$> results.
Proof.
  unfold first_column. rewrite <- list_fmap_compose.
  apply list_fmap_ext. intros i r _. destruct isPDU; reflexivity.
Qed.

Lemma csv_records_nonempty (isPDU : bool) results :
  Forall (fun row : list string => row <> [])
         (csv_record isPDU currentTime <$> results).
Proof.
  apply Forall_fmap, Forall_forall. intros r _.
  destruct isPDU; discriminate.
Qed.

Lemma header_ip_key_first (isPDU : bool) :
  Utils.column_index
    (if isPDU then pending_pdu_header else pending_device_header) "ip_key"
  = Some O.
Proof. destruct isPDU; reflexivity. Qed.

(** The effect of one [saveToCSV] on the file it writes and on the other
    files. *)
Lemma saveToCSV_file results (isPDU : bool) (fs : FS) :
  can_open (list_name isPDU) = true ->
  file_ok (fs !! list_name isPDU) ->
  let fs' := fst (saveToCSV can_open currentTime results isPDU fs) in
  snd (saveToCSV can_open currentTime results isPDU fs) = None /\
  file_ok (fs' !! list_name isPDU) /\
  file_keys (fs' !! list_name isPDU)
    = file_keys (fs !! list_name isPDU) ++ (ScanInstanceInfo.IPKey <$> results) /\
  (forall other, other <> list_name isPDU -> fs' !! other = fs !! other).
Proof.
  intros Hopen Hok. cbv zeta. unfold saveToCSV. fold (list_name isPDU).
  rewrite Hopen. cbn [negb fst snd].
  split; [reflexivity |]. split; [| split].
  - rewrite lookup_insert_eq. unfold file_ok in *.
    destruct (fs !! list_name isPDU) as [content|] eqn:Hfile.
    + destruct Hok as (header & rows & -> & Hcol & Hrows).
      rewrite bool_decide_eq_true_2 by eauto. cbn [negb default].
      exists header, (rows ++ (csv_record isPDU currentTime <$> results)).
      split; [reflexivity | split; [exact Hcol |]].
      apply Forall_app. split; [exact Hrows | apply csv_records_nonempty].
    + rewrite bool_decide_eq_false_2 by (intros [x Hx]; discriminate Hx).
      cbn [negb default app].
      eexists _, _. split; [reflexivity |].
      split; [apply header_ip_key_first | apply csv_records_nonempty].
  - rewrite lookup_insert_eq. unfold file_keys, file_ok in *.
    destruct (fs !! list_name isPDU) as [content|] eqn:Hfile.
    + destruct Hok as (header & rows & -> & _ & _).
      rewrite bool_decide_eq_true_2 by eauto. cbn [negb default app].
      change (first_column (rows ++ (csv_record isPDU currentTime <$> results))
              = first_column rows ++ (ScanInstanceInfo.IPKey <$> results)).
      rewrite first_column_app, first_column_records. reflexivity.
    + rewrite bool_decide_eq_false_2 by (intros [x Hx]; discriminate Hx).
      cbn [negb default app]. apply first_column_records.
  - intros other Hne. apply lookup_insert_ne. congruence.
Qed.

Lemma saveToCSV_failed results (isPDU : bool) (fs : FS) :
  can_open (list_name isPDU) = false ->
  saveToCSV can_open currentTime results isPDU fs = (fs, Some "open failed").
Proof.
  intros Hopen. unfold saveToCSV. fold (list_name isPDU).
  rewrite Hopen. reflexivity.
Qed.

(** One of the two save steps of [SaveResults]: it fails and leaves the
    files as they are, or it appends the keys of its records to its file. *)
Lemma save_step {A} rs (isPDU : bool) (fs : FS) (k_err : string -> A) (k_ok : A) :
  file_ok (fs !! list_name isPDU) ->
  let step :=
    if (0 <? length rs)%nat
    then match saveToCSV can_open currentTime rs isPDU fs with
         | (fs', Some e) => (fs', k_err e)
         | (fs', None) => (fs', k_ok)
         end
    else (fs, k_ok) in
  (exists e, step = (fs, k_err e)) \/
  (exists fs',
     step = (fs', k_ok) /\
     file_ok (fs' !! list_name isPDU) /\
     file_keys (fs' !! list_name isPDU)
       = file_keys (fs !! list_name isPDU) ++ (ScanInstanceInfo.IPKey <$> rs) /\
     forall other, other <> list_name isPDU -> fs' !! other = fs !! other).
Proof.
  intros Hok. cbv zeta.
  destruct rs as [|r rs].
  { right. exists fs. cbn [length Nat.ltb Nat.leb fmap list_fmap].
    rewrite app_nil_r. auto. }
  cbn [length Nat.ltb Nat.leb].
  destruct (can_open (list_name isPDU)) eqn:Hopen.
  - right.
    destruct (saveToCSV_file (r :: rs) isPDU fs Hopen Hok)
      as (Herr & Hok' & Hkeys & Hother).
    destruct (saveToCSV can_open currentTime (r :: rs) isPDU fs) as [fs' e].
    cbn [fst snd] in *. subst e. exists fs'. auto.
  - left. rewrite (saveToCSV_failed _ _ _ Hopen). eauto.
Qed.

(** A run of [SaveResults] that reports no error leaves well-formed lists
    and has appended the keys of the filtered records, PDU records to the
    PDU list and the others to the device list. *)
Lemma SaveResults_files g results (fs fs1 : FS) saved :
  well_formed fs ->
  SaveResults can_open currentTime g results fs = (fs1, saved, None) ->
  well_formed fs1 /\
  file_keys (fs1 !! SCAN_PDU_LIST)
    = file_keys (fs !! SCAN_PDU_LIST)
      ++ (ScanInstanceInfo.IPKey
            <$> fst (Collect.ClassifyResults (FilteredResults g results))) /\
  file_keys (fs1 !! SCAN_DEVICE_LIST)
    = file_keys (fs !! SCAN_DEVICE_LIST)
      ++ (ScanInstanceInfo.IPKey
            <$> snd (Collect.ClassifyResults (FilteredResults g results))).
Proof.
  intros [Hpdu Hdev] Hsave. unfold SaveResults in Hsave.
  destruct (Collect.ClassifyResults (FilteredResults g results))
    as [pduResult deviceResult].
  cbn [fst snd].
  destruct ((length pduResult =? 0)%nat && (length deviceResult =? 0)%nat)
    eqn:Hnone.
  { injection Hsave as <- _.
    apply andb_true_iff in Hnone as [Hp Hd].
    apply Nat.eqb_eq in Hp, Hd.
    apply length_zero_iff_nil in Hp, Hd. subst.
    cbn [fmap list_fmap]. rewrite !app_nil_r.
    split; [split; assumption | split; reflexivity]. }
  pose proof (save_step pduResult true fs
                (fun e => ["pdu: " +:+ e]) [] Hpdu) as Hfirst.
  cbv zeta beta in Hfirst.
  destruct Hfirst as [[e He]|(fsA & HeA & HokA & HkeysA & HotherA)].
  { rewrite He in Hsave.
    pose proof (save_step deviceResult false fs
                  (fun e' => ["pdu: " +:+ e] ++ ["device: " +:+ e'])
                  ["pdu: " +:+ e] Hdev) as Hsecond.
    cbv zeta beta in Hsecond.
    destruct Hsecond as [[e' He']|(fsB & HeB & _)].
    - rewrite He' in Hsave. discriminate Hsave.
    - rewrite HeB in Hsave. discriminate Hsave. }
  rewrite HeA in Hsave.
  assert (HdevA : file_ok (fsA !! SCAN_DEVICE_LIST)).
  { rewrite HotherA by discriminate. exact Hdev. }
  pose proof (save_step deviceResult false fsA
                (fun e' => [] ++ ["device: " +:+ e']) [] HdevA) as Hsecond.
  cbv zeta beta in Hsecond.
  destruct Hsecond as [[e' He']|(fsB & HeB & HokB & HkeysB & HotherB)].
  { rewrite He' in Hsave. discriminate Hsave. }
  rewrite HeB in Hsave. cbn in Hsave. injection Hsave as <- _.
  change (list_name true) with SCAN_PDU_LIST in *.
  change (list_name false) with SCAN_DEVICE_LIST in *.
  split; [split |]; [| exact HokB | split].
  - rewrite HotherB by discriminate. exact HokA.
  - rewrite HotherB by discriminate. exact HkeysA.
  - rewrite HkeysB, HotherA by discriminate. reflexivity.
Qed.

Lemma InitScanList_keys (fs : FS) g0 :
  well_formed fs ->
  Global.InitScanList fs g0
  = Some (Global.with_ScanIPKeyList
            (file_keys (fs !! SCAN_PDU_LIST) ++ file_keys (fs !! SCAN_DEVICE_LIST))
            g0).
Proof.
  intros [Hpdu Hdev]. unfold Global.InitScanList.
  rewrite (ReadCSVByColumn_keys _ _ Hpdu), (ReadCSVByColumn_keys _ _ Hdev).
  reflexivity.
Qed.

Lemma filter_none {A} (P : A -> Prop) `{forall x, Decision (P x)} (l : list A) :
  (forall x, x ∈ l -> ~ P x) -> filter P l = [].
Proof.
  induction l as [|x l IH]; intros Hnone; [reflexivity |].
  rewrite filter_cons, decide_False by (apply Hnone; left).
  apply IH. intros y Hy. apply Hnone. right. exact Hy.
Qed.

(** After a save without error every record of the cycle is filtered out
    once the index has been read again. *)
Lemma nothing_new_after_save g0 g results (fs fs1 : FS) saved :
  well_formed fs ->
  Global.InitScanList fs g0 = Some g ->
  SaveResults can_open currentTime g results fs = (fs1, saved, None) ->
  exists g1,
    Global.InitScanList fs1 g0 = Some g1 /\
    FilteredResults g1 results = [].
Proof.
  intros Hwf Hinit Hsave.
  destruct (SaveResults_files _ _ _ _ _ Hwf Hsave) as (Hwf1 & Hkp & Hkd).
  rewrite (InitScanList_keys _ _ Hwf) in Hinit. injection Hinit as <-.
  eexists. split; [apply (InitScanList_keys _ _ Hwf1) |].
  rewrite FilteredResults_spec, filter_none; [reflexivity |].
  intros r Hr [Hmodel Hkey]. apply Hkey. clear Hkey.
  cbn [Global.ScanIPKeyList Global.with_ScanIPKeyList].
  rewrite Hkp, Hkd.
  destruct (decide (ip_key r ∈ file_keys (fs !! SCAN_PDU_LIST)
                                ++ file_keys (fs !! SCAN_DEVICE_LIST)))
    as [Hold|Hnew].
  { apply elem_of_app in Hold as [Hold|Hold];
      rewrite !elem_of_app; auto. }
  assert (Hin : keyed r ∈ FilteredResults
                  (Global.with_ScanIPKeyList
                     (file_keys (fs !! SCAN_PDU_LIST)
                      ++ file_keys (fs !! SCAN_DEVICE_LIST)) g0) results).
  { rewrite FilteredResults_spec. apply list_elem_of_fmap.
    exists r. split; [reflexivity |].
    apply list_elem_of_filter. split; [| exact Hr].
    split; [exact Hmodel | exact Hnew]. }
  rewrite ClassifyResults_spec. cbn [fst snd].
  destruct (decide (ScanInstanceInfo.InstanceType (keyed r) = InstanceTypePDU))
    as [Hp|Hd].
  - apply elem_of_app. left. apply elem_of_app. right.
    apply list_elem_of_fmap. exists (keyed r). split; [reflexivity |].
    apply list_elem_of_filter. split; assumption.
  - apply elem_of_app. right. apply elem_of_app. right.
    apply list_elem_of_fmap. exists (keyed r). split; [reflexivity |].
    apply list_elem_of_filter. split; assumption.
Qed.

End Pending_facts.

(** X14. Saving is idempotent across cycles. When the pending lists are
    well formed (absent, or a header row that starts with [ip_key] and rows
    that are not empty) and a run of [SaveResults] reports no error, then
    the index can be read again with [InitScanList], and saving the same
    results against the new index writes nothing: the files stay as they
    are, and the returned list is empty. *)
Theorem SaveResults_second_run_writes_nothing
    (can_open : string -> bool) (currentTime laterTime : string)
    (g0 g : Global.t) (results : list Models.ScanInstanceInfo.t)
    (fs fs1 : FS) (saved : list Models.ScanInstanceInfo.t) :
  PendingFiles.well_formed fs ->
  Global.InitScanList fs g0 = Some g ->
  Persist.SaveResults can_open currentTime g results fs = (fs1, saved, None) ->
  exists g1,
    Global.InitScanList fs1 g0 = Some g1 /\
    Persist.SaveResults can_open laterTime g1 results fs1 = (fs1, [], None).
Proof.
  intros Hwf Hinit Hsave.
  destruct (nothing_new_after_save can_open currentTime g0 g results fs fs1
              saved Hwf Hinit Hsave) as (g1 & Hinit1 & Hnone).
  exists g1. split; [exact Hinit1 |].
  unfold Persist.SaveResults. rewrite Hnone. reflexivity.
Qed.

Lemma SaveResults_second_run_writes_nothing_witness :
  exists fs1 g1,
    fst (fst (Persist.SaveResults Sample.always_open Sample.sample_time
                Sample.gateway_config Sample.gateway_scan ∅)) = fs1 /\
    fs1 !! Models.SCAN_PDU_LIST <> None /\
    Global.InitScanList fs1 Sample.gateway_config = Some g1 /\
    Persist.SaveResults Sample.always_open Sample.sample_time g1
      Sample.gateway_scan fs1 = (fs1, [], None).
Proof.
  assert (Hwf : PendingFiles.well_formed (∅ : FS)) by (split; exact I).
  assert (Hinit : Global.InitScanList (∅ : FS) Sample.gateway_config
                  = Some Sample.gateway_config) by reflexivity.
  destruct (Persist.SaveResults Sample.always_open Sample.sample_time
              Sample.gateway_config Sample.gateway_scan (∅ : FS))
    as [[fs1 saved] err] eqn:Hsave.
  assert (Herr : err = None).
  { apply (f_equal snd) in Hsave. vm_compute in Hsave. congruence. }
  subst err.
  destruct (SaveResults_second_run_writes_nothing Sample.always_open
              Sample.sample_time Sample.sample_time Sample.gateway_config
              Sample.gateway_config Sample.gateway_scan ∅ fs1 saved
              Hwf Hinit Hsave) as (g1 & Hinit1 & Hagain).
  exists fs1, g1. cbn [fst].
  split; [reflexivity |]. split; [| split; assumption].
  apply (f_equal (fun x => fst (fst x) !! Models.SCAN_PDU_LIST)) in Hsave.
  cbn [fst] in Hsave. rewrite <- Hsave. vm_compute. discriminate.
Defined.

(** ** The scan schedule of a room *)

Section Schedule_facts.
Import ScanTask.

(** A task the loop of [GetRoomInterval] passes over at the instant [now]. *)
Lemma room_interval_drop now room d x before after :
  active_for room x = false \/ TemporaryScanTask.EndTime x < now ->
  room_interval now room d (before ++ x :: after)
  = room_interval now room d (before ++ after).
Proof.
  intros Hskip. induction before as [|b before IH]; cbn [app room_interval].
  - destruct (active_for room x) eqn:Hact; [| reflexivity].
    destruct Hskip as [Hc|Hlt]; [discriminate Hc |].
    replace (now >? TemporaryScanTask.EndTime x) with true
      by (symmetry; apply Z.gtb_lt; lia).
    reflexivity.
  - rewrite IH. reflexivity.
Qed.

Lemma room_interval_skip now room d before rest :
  Forall (fun t => active_for room t = false) before ->
  room_interval now room d (before ++ rest) = room_interval now room d rest.
Proof.
  induction 1 as [|b before Hb _ IH]; cbn [app room_interval]; [reflexivity |].
  rewrite Hb. exact IH.
Qed.

Lemma replace_active_inv room task tasks :
  match replace_active room task tasks with
  | Some tasks' =>
      exists before old after,
        tasks = before ++ old :: after /\
        tasks' = before ++ task :: after /\
        Forall (fun t => active_for room t = false) before /\
        active_for room old = true
  | None => Forall (fun t => active_for room t = false) tasks
  end.
Proof.
  induction tasks as [|t tasks IH]; cbn [replace_active].
  - constructor.
  - destruct (active_for room t) eqn:Ht.
    + exists [], t, tasks. repeat split; [constructor | exact Ht].
    + destruct (replace_active room task tasks) as [tasks'|];
        cbn [fmap option_fmap option_map].
      * destruct IH as (before & old & after & -> & -> & Hb & Ho).
        exists (t :: before), old, after.
        repeat split; [constructor; assumption | exact Ho].
      * constructor; assumption.
Qed.

Lemma active_for_other room room' t :
  room' <> room -> active_for room t = true -> active_for room' t = false.
Proof.
  unfold active_for. intros Hne Hact.
  apply andb_true_iff in Hact as [Hroom _].
  apply String.eqb_eq in Hroom. rewrite Hroom.
  replace (room =? room')%string with false; [reflexivity |].
  symmetry. apply String.eqb_neq. congruence.
Qed.

(** The task [AddTemporaryTask] stores decides the interval of its room
    until it ends. *)
Lemma AddTemporaryTask_interval now room interval duration s t :
  t <= now + duration ->
  GetRoomInterval t room (AddTemporaryTask now room interval duration s)
  = interval.
Proof.
  intros Ht. unfold GetRoomInterval, AddTemporaryTask.
  cbn [RoomScanSchedule.DefaultInterval RoomScanSchedule.TemporaryTasks].
  set (task := TemporaryScanTask.mk room interval now (now + duration) true
                                    now now).
  assert (Htask : forall d rest, room_interval t room d (task :: rest) = interval).
  { intros d rest. cbn [room_interval]. unfold active_for, task.
    cbn [TemporaryScanTask.Room TemporaryScanTask.IsActive
         TemporaryScanTask.EndTime TemporaryScanTask.Interval].
    rewrite String.eqb_refl. cbn [andb].
    replace (t >? now + duration) with false; [reflexivity |].
    symmetry. rewrite Z.gtb_ltb. apply Z.ltb_ge. exact Ht. }
  pose proof (replace_active_inv room task (RoomScanSchedule.TemporaryTasks s))
    as Hinv.
  destruct (replace_active room task (RoomScanSchedule.TemporaryTasks s))
    as [tasks'|].
  - destruct Hinv as (before & old & after & _ & -> & Hb & _).
    rewrite room_interval_skip by exact Hb. apply Htask.
  - rewrite room_interval_skip by exact Hinv. apply Htask.
Qed.

Lemma AddTemporaryTask_other now room interval duration s t room' :
  room' <> room ->
  GetRoomInterval t room' (AddTemporaryTask now room interval duration s)
  = GetRoomInterval t room' s.
Proof.
  intros Hne. unfold GetRoomInterval, AddTemporaryTask.
  cbn [RoomScanSchedule.DefaultInterval RoomScanSchedule.TemporaryTasks].
  set (task := TemporaryScanTask.mk room interval now (now + duration) true
                                    now now).
  assert (Htask : active_for room' task = false).
  { unfold active_for, task. cbn [TemporaryScanTask.Room].
    replace (room =? room')%string with false; [reflexivity |].
    symmetry. apply String.eqb_neq. congruence. }
  pose proof (replace_active_inv room task (RoomScanSchedule.TemporaryTasks s))
    as Hinv.
  destruct (replace_active room task (RoomScanSchedule.TemporaryTasks s))
    as [tasks'|].
  - destruct Hinv as (before & old & after & -> & -> & _ & Hold).
    rewrite !room_interval_drop; [reflexivity | |].
    + left. exact (active_for_other room room' old Hne Hold).
    + left. exact Htask.
  - rewrite room_interval_drop by (left; exact Htask).
    rewrite app_nil_r. reflexivity.
Qed.

(** What [CleanupExpiredTasks] removes is passed over by [GetRoomInterval]
    at every later instant. *)
Lemma CleanupExpiredTasks_interval now s t room :
  now < t ->
  GetRoomInterval t room (CleanupExpiredTasks now s) = GetRoomInterval t room s.
Proof.
  intros Hlater. unfold GetRoomInterval, CleanupExpiredTasks.
  cbn [RoomScanSchedule.DefaultInterval RoomScanSchedule.TemporaryTasks].
  generalize (RoomScanSchedule.DefaultInterval s) as d.
  intros d.
  assert (Hgen : forall tasks activeTasks,
    room_interval t room d
      (foldl (fun activeTasks task =>
                if TemporaryScanTask.IsActive task
                   && (now <? TemporaryScanTask.EndTime task)
                then activeTasks ++ [task] else activeTasks)
             activeTasks tasks)
    = room_interval t room d (activeTasks ++ tasks)).
  { induction tasks as [|x tasks IH]; intros activeTasks; cbn [foldl].
    - rewrite app_nil_r. reflexivity.
    - rewrite IH.
      destruct (TemporaryScanTask.IsActive x
                && (now <? TemporaryScanTask.EndTime x)) eqn:Hkeep.
      + rewrite <- app_assoc. reflexivity.
      + symmetry. apply room_interval_drop.
        apply andb_false_iff in Hkeep as [Hinactive|Hended].
        * left. unfold active_for. rewrite Hinactive. apply andb_false_r.
        * right. apply Z.ltb_ge in Hended. lia. }
  apply (Hgen (RoomScanSchedule.TemporaryTasks s) []).
Qed.

End Schedule_facts.

(** X15. [UpdateRoomInterval] on a room that has a schedule reports no
    error, and from then on [GetScanInterval] returns the requested interval
    for that room at every instant up to the end of the duration, whatever
    tasks the schedule held. On a room without a schedule it reports an
    error and leaves the scanner as it is. *)
Theorem UpdateRoomInterval_sets_interval
    (now : Z) (room : string) (interval duration : Z) (s : ScanTask.Scanner.t) :
  (forall schedule t,
     ScanTask.Scanner.roomSchedules s !! room = Some schedule ->
     t <= now + duration ->
     snd (ScanTask.UpdateRoomInterval now room interval duration s) = None /\
     ScanTask.GetScanInterval t room
       (fst (ScanTask.UpdateRoomInterval now room interval duration s))
     = interval) /\
  (ScanTask.Scanner.roomSchedules s !! room = None ->
   fst (ScanTask.UpdateRoomInterval now room interval duration s) = s /\
   snd (ScanTask.UpdateRoomInterval now room interval duration s) <> None).
Proof.
  unfold ScanTask.UpdateRoomInterval. split.
  - intros schedule t Hroom Ht. rewrite Hroom. cbn [fst snd].
    split; [reflexivity |].
    unfold ScanTask.GetScanInterval, ScanTask.with_schedule.
    cbn [ScanTask.Scanner.roomSchedules]. rewrite lookup_insert_eq.
    apply AddTemporaryTask_interval. exact Ht.
  - intros Hroom. rewrite Hroom. cbn [fst snd]. split; [reflexivity | discriminate].
Qed.

Lemma UpdateRoomInterval_sets_interval_witness :
  snd (ScanTask.UpdateRoomInterval 1000 "room-a" 15 3600 SampleRest.sample_scanner)
  = None /\
  ScanTask.GetScanInterval 4600 "room-a"
    (fst (ScanTask.UpdateRoomInterval 1000 "room-a" 15 3600
            SampleRest.sample_scanner))
  = 15.
Proof.
  destruct (UpdateRoomInterval_sets_interval 1000 "room-a" 15 3600
              SampleRest.sample_scanner) as [Hset _].
  apply (Hset SampleRest.room_a_schedule 4600); [reflexivity | lia].
Defined.

(** X16. A temporary task of one room does not change the interval
    [GetRoomInterval] returns for any other room of the same schedule, at any
    instant, whether [AddTemporaryTask] overwrote a task or appended one. *)
Theorem AddTemporaryTask_leaves_other_rooms
    (now : Z) (room : string) (interval duration : Z)
    (s : ScanTask.RoomScanSchedule.t) (t : Z) (other : string) :
  other <> room ->
  ScanTask.GetRoomInterval t other
    (ScanTask.AddTemporaryTask now room interval duration s)
  = ScanTask.GetRoomInterval t other s.
Proof. apply AddTemporaryTask_other. Qed.

Lemma AddTemporaryTask_leaves_other_rooms_witness :
  ScanTask.GetRoomInterval 2000 "room-b"
    (ScanTask.AddTemporaryTask 1000 "room-a" 15 3600 SampleRest.room_a_schedule)
  = ScanTask.GetRoomInterval 2000 "room-b" SampleRest.room_a_schedule.
Proof.
  apply (AddTemporaryTask_leaves_other_rooms 1000 "room-a" 15 3600
           SampleRest.room_a_schedule 2000 "room-b").
  discriminate.
Defined.

(** X17. [CleanupExpiredSchedules] does not change what [GetScanInterval]
    returns at any instant after the clean-up, for any room: the tasks it
    removes are inactive or have ended, and [GetRoomInterval] passes over
    those. *)
Theorem CleanupExpiredSchedules_keeps_intervals
    (now t : Z) (room : string) (s : ScanTask.Scanner.t) :
  now < t ->
  ScanTask.GetScanInterval t room (ScanTask.CleanupExpiredSchedules now s)
  = ScanTask.GetScanInterval t room s.
Proof.
  intros Hlater.
  unfold ScanTask.GetScanInterval, ScanTask.CleanupExpiredSchedules.
  cbn [ScanTask.Scanner.roomSchedules ScanTask.Scanner.ScanInterval].
  rewrite lookup_fmap.
  destruct (ScanTask.Scanner.roomSchedules s !! room) as [schedule|];
    cbn [fmap option_fmap option_map]; [| reflexivity].
  apply CleanupExpiredTasks_interval. exact Hlater.
Qed.

Lemma CleanupExpiredSchedules_keeps_intervals_witness :
  ScanTask.GetScanInterval 501 "room-a"
    (ScanTask.CleanupExpiredSchedules 500 SampleRest.sample_scanner)
  = ScanTask.GetScanInterval 501 "room-a" SampleRest.sample_scanner.
Proof.
  apply (CleanupExpiredSchedules_keeps_intervals 500 501 "room-a"
           SampleRest.sample_scanner).
  lia.
Defined.

(** X18. After [AddTemporaryScanTask] for a room, [GetScanInterval] returns
    the configured scan interval for that room at every instant up to the end
    of the duration, also when the room's schedule has another default
    interval or held other tasks; the rooms with another name keep their
    schedules. *)
Theorem AddTemporaryScanTask_uses_configured_interval
    (now : Z) (roomID : string) (duration : Z) (s : ScanTask.Scanner.t) (t : Z) :
  t <= now + duration ->
  ScanTask.GetScanInterval t roomID
    (ScanTask.AddTemporaryScanTask now roomID duration s)
  = ScanTask.Scanner.ScanInterval s /\
  forall other,
    other <> roomID ->
    ScanTask.Scanner.roomSchedules
      (ScanTask.AddTemporaryScanTask now roomID duration s) !! other
    = ScanTask.Scanner.roomSchedules s !! other.
Proof.
  intros Ht. unfold ScanTask.AddTemporaryScanTask, ScanTask.with_schedule.
  split.
  - unfold ScanTask.GetScanInterval.
    cbn [ScanTask.Scanner.roomSchedules]. rewrite lookup_insert_eq.
    apply AddTemporaryTask_interval. exact Ht.
  - intros other Hne. cbn [ScanTask.Scanner.roomSchedules].
    apply lookup_insert_ne. congruence.
Qed.

Lemma AddTemporaryScanTask_uses_configured_interval_witness :
  ScanTask.GetScanInterval 2000 "room-a"
    (ScanTask.AddTemporaryScanTask 1000 "room-a" 3600 SampleRest.sample_scanner)
  = 600.
Proof.
  apply (AddTemporaryScanTask_uses_configured_interval 1000 "room-a" 3600
           SampleRest.sample_scanner 2000).
  lia.
Defined.

(** X19. [GetRoomSchedule] returns the schedule that the scanner holds for
    the room afterwards, and creating a missing schedule changes the interval
    [GetScanInterval] returns for no room at no instant. *)
Theorem GetRoomSchedule_keeps_intervals
    (room : string) (s : ScanTask.Scanner.t) :
  ScanTask.Scanner.roomSchedules (fst (ScanTask.GetRoomSchedule room s)) !! room
  = Some (snd (ScanTask.GetRoomSchedule room s)) /\
  forall t other,
    ScanTask.GetScanInterval t other (fst (ScanTask.GetRoomSchedule room s))
    = ScanTask.GetScanInterval t other s.
Proof.
  unfold ScanTask.GetRoomSchedule.
  destruct (ScanTask.Scanner.roomSchedules s !! room) as [schedule|] eqn:Hroom;
    cbn [fst snd].
  - split; [exact Hroom | reflexivity].
  - unfold ScanTask.with_schedule, ScanTask.GetScanInterval.
    cbn [ScanTask.Scanner.roomSchedules ScanTask.Scanner.ScanInterval].
    split; [apply lookup_insert_eq |].
    intros t other. destruct (decide (other = room)) as [->|Hne].
    + rewrite lookup_insert_eq, Hroom. reflexivity.
    + rewrite lookup_insert_ne by congruence. reflexivity.
Qed.

(** ** The registry filter and the in-memory index *)

Section Index_facts.
Import Models Persist CollectRest.

Lemma FilterRegisteredDevices_filter (fs : FS) results pdu dev :
  Utils.ReadCSVByColumn fs REGISTRY_PDU_LIST "ip_key" = Some pdu ->
  Utils.ReadCSVByColumn fs REGISTRY_DEVICE_LIST "ip_key" = Some dev ->
  FilterRegisteredDevices fs results
  = Some (filter (fun r => ip_key r ∉ pdu ++ dev) results).
Proof.
  intros Hpdu Hdev. unfold FilterRegisteredDevices.
  rewrite Hpdu, Hdev. cbn [mbind option_bind]. f_equal.
  assert (Hgen : forall acc,
    foldl (fun filtered_results result =>
             if negb (slices_Contains (pdu ++ dev) (ip_key result))
             then filtered_results ++ [result] else filtered_results)
          acc results
    = acc ++ filter (fun r => ip_key r ∉ pdu ++ dev) results).
  { induction results as [|r results IH]; intros acc; cbn [foldl].
    - rewrite app_nil_r. reflexivity.
    - rewrite IH, filter_cons. unfold slices_Contains.
      destruct (decide (ip_key r ∈ pdu ++ dev)) as [Hin|Hout].
      + rewrite bool_decide_eq_true_2 by exact Hin. cbn [negb].
        rewrite decide_False by (intros Hc; contradiction). reflexivity.
      + rewrite bool_decide_eq_false_2 by exact Hout. cbn [negb].
        rewrite decide_True by exact Hout.
        rewrite <- app_assoc. reflexivity. }
  apply (Hgen []).
Qed.

(** The loop of [UpdateScanResults], from any map and key list. *)
Lemma UpdateScanResults_fold results :
  forall (m m' : gmap string ScanInstanceInfo.t) (keys keys' : list string),
  foldl (fun '(m, keys) result =>
           let ipKey := ScanInstanceInfo.IPKey result in
           (<[ipKey := result]> m,
            if slices_Contains keys ipKey then keys else keys ++ [ipKey]))
        (m, keys) results = (m', keys') ->
  keys `prefix_of` keys' /\
  (forall k, k ∈ keys' <-> k ∈ keys \/ k ∈ ScanInstanceInfo.IPKey <$> results) /\
  (NoDup keys -> NoDup keys') /\
  (forall k,
     m' !! k
     = match last (filter (fun r => ScanInstanceInfo.IPKey r = k) results) with
       | Some r => Some r
       | None => m !! k
       end).
Proof.
  induction results as [|r results IH]; intros m m' keys keys' Hfold;
    cbn [foldl] in Hfold.
  { injection Hfold as <- <-. cbn [fmap list_fmap].
    split; [reflexivity |].
    split; [| split; [auto | reflexivity]].
    intros k. rewrite elem_of_nil. tauto. }
  apply IH in Hfold. destruct Hfold as (Hprefix & Hkeys & Hnodup & Hmap).
  set (keys1 := if slices_Contains keys (ScanInstanceInfo.IPKey r)
                then keys else keys ++ [ScanInstanceInfo.IPKey r]) in *.
  assert (Hkeys1 : forall k, k ∈ keys1 <-> k ∈ keys \/ k = ScanInstanceInfo.IPKey r).
  { intros k. unfold keys1, slices_Contains.
    destruct (decide (ScanInstanceInfo.IPKey r ∈ keys)) as [Hin|Hout].
    - rewrite bool_decide_eq_true_2 by exact Hin.
      split; [auto | intros [Hk| ->]; assumption].
    - rewrite bool_decide_eq_false_2 by exact Hout.
      rewrite elem_of_app, list_elem_of_singleton. reflexivity. }
  split; [| split; [| split]].
  - etransitivity; [| exact Hprefix]. unfold keys1.
    destruct (slices_Contains keys (ScanInstanceInfo.IPKey r));
      [reflexivity | apply prefix_app_r; reflexivity].
  - intros k. rewrite Hkeys, Hkeys1, fmap_cons, elem_of_cons. tauto.
  - intros Hnd. apply Hnodup. unfold keys1, slices_Contains.
    destruct (decide (ScanInstanceInfo.IPKey r ∈ keys)) as [Hin|Hout].
    + rewrite bool_decide_eq_true_2 by exact Hin. exact Hnd.
    + rewrite bool_decide_eq_false_2 by exact Hout.
      apply NoDup_app. split; [exact Hnd |].
      split; [| apply NoDup_singleton].
      intros x Hx Hx'. apply list_elem_of_singleton in Hx'. subst x.
      contradiction.
  - intros k. rewrite Hmap, filter_cons.
    destruct (decide (ScanInstanceInfo.IPKey r = k)) as [Heq|Hne].
    + rewrite last_cons.
      destruct (last (filter (fun r0 => ScanInstanceInfo.IPKey r0 = k) results));
        [reflexivity |].
      rewrite Heq. apply lookup_insert_eq.
    + destruct (last (filter (fun r0 => ScanInstanceInfo.IPKey r0 = k) results));
        [reflexivity |].
      apply lookup_insert_ne. exact Hne.
Qed.

Lemma UpdateScanResults_keys results g :
  Global.ScanIPKeyList g
    `prefix_of` Global.ScanIPKeyList (Global.UpdateScanResults results g) /\
  (forall k,
     k ∈ Global.ScanIPKeyList (Global.UpdateScanResults results g)
     <-> k ∈ Global.ScanIPKeyList g \/ k ∈ ScanInstanceInfo.IPKey <$> results) /\
  (NoDup (Global.ScanIPKeyList g) ->
   NoDup (Global.ScanIPKeyList (Global.UpdateScanResults results g))).
Proof.
  unfold Global.UpdateScanResults.
  destruct (foldl _ _ results) as [m keys] eqn:Hfold.
  apply UpdateScanResults_fold in Hfold.
  destruct Hfold as (Hp & Hk & Hn & _).
  cbn [Global.ScanIPKeyList Global.with_ScanResults Global.with_ScanIPKeyList].
  auto.
Qed.

(** The keys the loop appends are new to the index and pairwise
    different. *)
Lemma UpdateScanResults_fold_added results :
  forall (m m' : gmap string ScanInstanceInfo.t) (keys keys' : list string),
  foldl (fun '(m, keys) result =>
           let ipKey := ScanInstanceInfo.IPKey result in
           (<[ipKey := result]> m,
            if slices_Contains keys ipKey then keys else keys ++ [ipKey]))
        (m, keys) results = (m', keys') ->
  exists added, keys' = keys ++ added /\ NoDup added /\
                forall k, k ∈ added -> k ∉ keys.
Proof.
  induction results as [|r results IH]; intros m m' keys keys' Hfold;
    cbn [foldl] in Hfold.
  { injection Hfold as <- <-. exists []. rewrite app_nil_r.
    split; [reflexivity |]. split; [constructor |].
    intros k Hk. apply elem_of_nil in Hk. contradiction. }
  apply IH in Hfold. destruct Hfold as (added & -> & Hnd & Hfresh).
  unfold slices_Contains in *.
  destruct (decide (ScanInstanceInfo.IPKey r ∈ keys)) as [Hin|Hout].
  - rewrite bool_decide_eq_true_2 in * by exact Hin.
    exists added. split; [reflexivity | split; assumption].
  - rewrite bool_decide_eq_false_2 in * by exact Hout.
    exists (ScanInstanceInfo.IPKey r :: added).
    rewrite <- app_assoc. split; [reflexivity |]. split.
    + apply NoDup_cons. split; [| exact Hnd].
      intros Hk. apply (Hfresh _ Hk). apply elem_of_app. right. left.
    + intros k Hk Hold. apply elem_of_cons in Hk as [->|Hk];
        [contradiction |].
      apply (Hfresh _ Hk). apply elem_of_app. left. exact Hold.
Qed.

Lemma UpdateScanResults_added results g :
  exists added,
    Global.ScanIPKeyList (Global.UpdateScanResults results g)
    = Global.ScanIPKeyList g ++ added /\
    NoDup added /\ forall k, k ∈ added -> k ∉ Global.ScanIPKeyList g.
Proof.
  unfold Global.UpdateScanResults.
  destruct (foldl _ _ results) as [m keys] eqn:Hfold.
  apply UpdateScanResults_fold_added in Hfold.
  cbn [Global.ScanIPKeyList Global.with_ScanResults Global.with_ScanIPKeyList].
  exact Hfold.
Qed.

Lemma UpdateScanResults_map results g k :
  Global.ScanResults (Global.UpdateScanResults results g) !! k
  = last (filter (fun r => ScanInstanceInfo.IPKey r = k) results).
Proof.
  unfold Global.UpdateScanResults.
  destruct (foldl _ _ results) as [m keys] eqn:Hfold.
  apply UpdateScanResults_fold in Hfold.
  destruct Hfold as (_ & _ & _ & Hm).
  cbn [Global.ScanResults Global.with_ScanResults]. rewrite Hm.
  destruct (last _); [reflexivity | apply lookup_empty].
Qed.

(** What [SaveResults] returns beside the files. *)
Lemma SaveResults_saved can_open currentTime g results (fs fs1 : FS) saved err :
  SaveResults can_open currentTime g results fs = (fs1, saved, err) ->
  (err = None -> saved = FilteredResults g results) /\
  (err <> None -> saved = []).
Proof.
  unfold SaveResults. rewrite (ClassifyResults_spec (FilteredResults g results)).
  destruct ((length (filter _ (FilteredResults g results)) =? 0)%nat
            && (length (filter _ (FilteredResults g results)) =? 0)%nat)
    eqn:Hnone.
  - intros Heq. injection Heq as _ <- <-.
    split; [intros _ | reflexivity].
    apply andb_true_iff in Hnone as [Hp Hd].
    apply Nat.eqb_eq, length_zero_iff_nil in Hp, Hd.
    destruct (FilteredResults g results) as [|r rest]; [reflexivity |].
    rewrite filter_cons in Hp, Hd.
    destruct (decide (ScanInstanceInfo.InstanceType r = InstanceTypePDU))
      as [Hpdu|Hother].
    + discriminate Hp.
    + rewrite decide_True in Hd by exact Hother. discriminate Hd.
  - intros Heq.
    repeat match type of Heq with
           | context [if ?c then _ else _] => destruct c
           | context [saveToCSV ?a ?b ?c ?d ?e] =>
               destruct (saveToCSV a b c d e) as [? [?|]]
           end;
      cbn in Heq; injection Heq as _ <- <-;
      split; (reflexivity || discriminate || (intros H; exfalso; apply H; reflexivity)).
Qed.

End Index_facts.

(** X20. When both registry lists can be read, [FilterRegisteredDevices]
    returns the records whose identity key is in neither list, unchanged and
    in input order: a record is returned exactly when it is in the input and
    its key is registered in neither list. *)
Theorem FilterRegisteredDevices_drops_registered
    (fs : FS) (results : list Models.ScanInstanceInfo.t) (pdu dev : list string) :
  Utils.ReadCSVByColumn fs Models.REGISTRY_PDU_LIST "ip_key" = Some pdu ->
  Utils.ReadCSVByColumn fs Models.REGISTRY_DEVICE_LIST "ip_key" = Some dev ->
  exists out,
    CollectRest.FilterRegisteredDevices fs results = Some out /\
    out `sublist_of` results /\
    forall r, r ∈ out <->
              (r ∈ results /\ (Persist.ip_key r ∉ pdu) /\ (Persist.ip_key r ∉ dev)).
Proof.
  intros Hpdu Hdev. eexists. split.
  - apply (FilterRegisteredDevices_filter fs results pdu dev Hpdu Hdev).
  - split; [apply sublist_filter |].
    intros r. rewrite list_elem_of_filter, not_elem_of_app. tauto.
Qed.

Lemma FilterRegisteredDevices_drops_registered_witness :
  exists out,
    CollectRest.FilterRegisteredDevices Sample.registry_files
      [Sample.gateway_record; Sample.pdu_record] = Some out /\
    out `sublist_of` [Sample.gateway_record; Sample.pdu_record] /\
    forall r, r ∈ out <->
              (r ∈ [Sample.gateway_record; Sample.pdu_record] /\
               (Persist.ip_key r ∉ ["10.1.1.1:7000:1"]) /\
               (Persist.ip_key r ∉ [])).
Proof.
  apply (FilterRegisteredDevices_drops_registered Sample.registry_files
           [Sample.gateway_record; Sample.pdu_record] ["10.1.1.1:7000:1"] []);
    vm_compute; reflexivity.
Defined.

(** X21. [UpdateScanResults] extends the key index and never shortens or
    reorders it: for every index, with or without duplicates, the old index
    is a prefix of the new one and the new index holds exactly the old keys
    and the [IPKey] of every given record; a key that was not in the old
    index occurs once in the new one, so an index without duplicates stays
    without duplicates. *)
Theorem UpdateScanResults_extends_index
    (results : list Models.ScanInstanceInfo.t) (g : Global.t) :
  let old := Global.ScanIPKeyList g in
  let new := Global.ScanIPKeyList (Global.UpdateScanResults results g) in
  old `prefix_of` new /\
  (forall k,
     k ∈ new <->
     k ∈ old \/ exists r, r ∈ results /\ Models.ScanInstanceInfo.IPKey r = k) /\
  (exists added, new = old ++ added /\ NoDup added /\
                 forall k, k ∈ added -> k ∉ old) /\
  (NoDup old -> NoDup new).
Proof.
  cbv zeta. destruct (UpdateScanResults_keys results g) as (Hp & Hk & Hn).
  split; [exact Hp |]. split; [| split; [| exact Hn]].
  - intros k. rewrite Hk, list_elem_of_fmap.
    split; (intros [Hold|(r & H1 & H2)]; [left; exact Hold |]);
      right; exists r; split; congruence.
  - apply UpdateScanResults_added.
Qed.

Lemma UpdateScanResults_extends_index_witness :
  Global.ScanIPKeyList
    (Global.UpdateScanResults
       [Persist.keyed Sample.pdu_record; Persist.keyed Sample.pdu_record]
       (Global.with_ScanIPKeyList ["10.1.1.1:161"; "10.1.1.1:161"]
          Sample.gateway_config))
  = ["10.1.1.1:161"; "10.1.1.1:161"; "10.1.1.1:7000:1"].
Proof.
  destruct (UpdateScanResults_extends_index
              [Persist.keyed Sample.pdu_record; Persist.keyed Sample.pdu_record]
              (Global.with_ScanIPKeyList ["10.1.1.1:161"; "10.1.1.1:161"]
                 Sample.gateway_config))
    as (_ & _ & (added & Hnew & _ & _) & _).
  rewrite Hnew. vm_compute in Hnew.
  apply app_inv_head with (l := ["10.1.1.1:161"; "10.1.1.1:161"]) in Hnew.
  rewrite <- Hnew. reflexivity.
Defined.

(** X22. After [UpdateScanResults], [GetScanResultByIPKey] finds for a key
    the last of the given records that carries it, and nothing for a key that
    none of them carries: the map of the cycle replaces the map of the
    earlier cycles. *)
Theorem GetScanResultByIPKey_after_update
    (results : list Models.ScanInstanceInfo.t) (g : Global.t) (ipKey : string) :
  CollectRest.GetScanResultByIPKey (Global.UpdateScanResults results g) ipKey
  = match last (filter (fun r => Models.ScanInstanceInfo.IPKey r = ipKey) results)
    with
    | Some r => (r, true)
    | None => (Models.ScanInstanceInfo.zero, false)
    end.
Proof.
  unfold CollectRest.GetScanResultByIPKey.
  rewrite UpdateScanResults_map. reflexivity.
Qed.

(** X23. The cycle of [main]: after [SaveResults] without error and
    [UpdateScanResults] on the list it returned, [FilteredResults] lets none
    of the same results through. After a [SaveResults] that reported an
    error the update adds nothing, and the filter selects what it selected
    before. *)
Theorem FilteredResults_empty_after_cycle
    (can_open : string -> bool) (currentTime : string) (g : Global.t)
    (results : list Models.ScanInstanceInfo.t) (fs fs1 : FS)
    (saved : list Models.ScanInstanceInfo.t) (err : error) :
  Persist.SaveResults can_open currentTime g results fs = (fs1, saved, err) ->
  (err = None ->
   Persist.FilteredResults (Global.UpdateScanResults saved g) results = []) /\
  (err <> None ->
   Persist.FilteredResults (Global.UpdateScanResults saved g) results
   = Persist.FilteredResults g results).
Proof.
  intros Hsave.
  destruct (SaveResults_saved _ _ _ _ _ _ _ _ Hsave) as [Hok Hfail].
  destruct (UpdateScanResults_keys saved g) as (_ & Hkeys & _).
  split; intros Herr.
  - rewrite FilteredResults_spec, filter_none; [reflexivity |].
    intros r Hr [Hmodel Hkey]. apply Hkey. apply Hkeys.
    destruct (decide (Persist.ip_key r ∈ Global.ScanIPKeyList g)) as [Hold|Hnew];
      [left; exact Hold | right].
    rewrite (Hok Herr), FilteredResults_spec, <- list_fmap_compose.
    apply list_elem_of_fmap. exists r. split; [reflexivity |].
    apply list_elem_of_filter. split; [| exact Hr].
    split; assumption.
  - rewrite (Hfail Herr), !FilteredResults_spec. reflexivity.
Qed.

Lemma FilteredResults_empty_after_cycle_witness :
  Persist.FilteredResults
    (Global.UpdateScanResults
       (snd (fst (Persist.SaveResults Sample.always_open Sample.sample_time
                    Sample.gateway_config Sample.gateway_scan ∅)))
       Sample.gateway_config)
    Sample.gateway_scan = [].
Proof.
  destruct (Persist.SaveResults Sample.always_open Sample.sample_time
              Sample.gateway_config Sample.gateway_scan (∅ : FS))
    as [[fs1 saved] err] eqn:Hsave.
  assert (Herr : err = None).
  { apply (f_equal snd) in Hsave. vm_compute in Hsave. congruence. }
  cbn [fst snd].
  destruct (FilteredResults_empty_after_cycle Sample.always_open
              Sample.sample_time Sample.gateway_config Sample.gateway_scan
              ∅ fs1 saved err Hsave) as [Hok _].
  exact (Hok Herr).
Defined.

(** ** The filter on addresses, the classification and the defaults *)

Section Filter_facts.
Import Models Persist CollectRest.

Lemma FilterScanList_filter g results :
  FilterScanList g results
  = filter (fun c => SnmpConnInfo.IP c ∉ Global.ScanIPKeyList g) results.
Proof.
  unfold FilterScanList.
  assert (Hgen : forall acc,
    foldl (fun filteredResults result =>
             if slices_Contains (Global.ScanIPKeyList g) (SnmpConnInfo.IP result)
             then filteredResults else filteredResults ++ [result])
          acc results
    = acc ++ filter (fun c => SnmpConnInfo.IP c ∉ Global.ScanIPKeyList g) results).
  { induction results as [|c results IH]; intros acc; cbn [foldl].
    - rewrite app_nil_r. reflexivity.
    - rewrite IH, filter_cons. unfold slices_Contains.
      destruct (decide (SnmpConnInfo.IP c ∈ Global.ScanIPKeyList g)) as [Hin|Hout].
      + rewrite bool_decide_eq_true_2 by exact Hin.
        rewrite decide_False by (intros Hc; contradiction). reflexivity.
      + rewrite bool_decide_eq_false_2 by exact Hout.
        rewrite decide_True by exact Hout.
        rewrite <- app_assoc. reflexivity. }
  apply (Hgen []).
Qed.

(** Every identity key has a colon after the address. *)
Lemma ip_key_has_colon r : strings_Contains (ip_key r) ":" = true.
Proof.
  apply strings_Contains_iff. unfold ip_key.
  destruct (String.eqb (ScanInstanceInfo.Protocol r) PROTOCOL_MODBUS);
    [| destruct (String.eqb (ScanInstanceInfo.Protocol r) PROTOCOL_SNMP)];
    eexists _, _; reflexivity.
Qed.

Lemma filter_all {A} (P : A -> Prop) `{forall x, Decision (P x)} (l : list A) :
  (forall x, x ∈ l -> P x) -> filter P l = l.
Proof.
  induction l as [|x l IH]; intros Hall; [reflexivity |].
  rewrite filter_cons, decide_True by (apply Hall; left).
  f_equal. apply IH. intros y Hy. apply Hall. right. exact Hy.
Qed.

Lemma or_default_nonempty value d : d <> "" -> or_default value d <> "".
Proof.
  unfold or_default. intros Hd.
  destruct (String.eqb_spec value ""); assumption.
Qed.

Lemma or_default_idem value d :
  d <> "" -> or_default (or_default value d) d = or_default value d.
Proof.
  intros Hd. unfold or_default at 1.
  destruct (String.eqb_spec (or_default value d) "") as [Hempty|_];
    [| reflexivity].
  exfalso. exact (or_default_nonempty value d Hd Hempty).
Qed.

Lemma find_target_first targets name before t after :
  targets = before ++ t :: after ->
  Forall (fun b => Target.Name b <> name) before ->
  Target.Name t = name ->
  find_target targets name = t.
Proof.
  intros -> Hbefore Ht.
  induction Hbefore as [|b before Hb _ IH]; cbn [app find_target].
  - rewrite Ht, String.eqb_refl. reflexivity.
  - replace (Target.Name b =? name)%string with false; [exact IH |].
    symmetry. apply String.eqb_neq. exact Hb.
Qed.

Lemma find_target_none targets name :
  Forall (fun b => Target.Name b <> name) targets ->
  find_target targets name = Target_zero.
Proof.
  induction 1 as [|b targets Hb _ IH]; cbn [find_target]; [reflexivity |].
  replace (Target.Name b =? name)%string with false; [exact IH |].
  symmetry. apply String.eqb_neq. exact Hb.
Qed.

End Filter_facts.

(** X24. [FilterScanList] compares the bare address of a connection with
    the entries of the key index. When every entry of the index is an
    identity key as [FilteredResults] builds it (address, colon, port, ...)
    and no address holds a colon, no connection is removed: the list comes
    back as it was given, also for an address whose key is in the index. *)
Theorem FilterScanList_keeps_bare_addresses
    (g : Global.t) (results : list Models.SnmpConnInfo.t) :
  (forall k, k ∈ Global.ScanIPKeyList g -> exists r, k = Persist.ip_key r) ->
  (forall c, c ∈ results ->
             strings_Contains (Models.SnmpConnInfo.IP c) ":" = false) ->
  CollectRest.FilterScanList g results = results.
Proof.
  intros Hkeys Hbare. rewrite FilterScanList_filter.
  apply filter_all. intros c Hc Hin.
  destruct (Hkeys _ Hin) as [r Hr].
  pose proof (ip_key_has_colon r) as Hcolon.
  rewrite <- Hr, (Hbare c Hc) in Hcolon. discriminate Hcolon.
Qed.

Lemma FilterScanList_keeps_bare_addresses_witness :
  CollectRest.FilterScanList
    (Global.with_ScanIPKeyList ["10.1.1.1:161"] Sample.gateway_config)
    [Models.SnmpConnInfo.mk "10.1.1.1" 161 "public" 2]
  = [Models.SnmpConnInfo.mk "10.1.1.1" 161 "public" 2].
Proof.
  apply (FilterScanList_keeps_bare_addresses
           (Global.with_ScanIPKeyList ["10.1.1.1:161"] Sample.gateway_config)
           [Models.SnmpConnInfo.mk "10.1.1.1" 161 "public" 2]).
  - intros k Hk. apply list_elem_of_singleton in Hk. subst k.
    exists Sample.gateway_record. reflexivity.
  - intros c Hc. apply list_elem_of_singleton in Hc. subst c. reflexivity.
Defined.

(** X25. [ClassifyResults] splits without loss: the first list holds the
    records of instance type [pdu] and the second all the others, each in
    input order, and the two lists together are a rearrangement of the
    input. *)
Theorem ClassifyResults_partitions (results : list Models.ScanInstanceInfo.t) :
  Forall (fun r => Models.ScanInstanceInfo.InstanceType r = Models.InstanceTypePDU)
         (Collect.ClassifyResults results).1 /\
  Forall (fun r => Models.ScanInstanceInfo.InstanceType r <> Models.InstanceTypePDU)
         (Collect.ClassifyResults results).2 /\
  (Collect.ClassifyResults results).1 `sublist_of` results /\
  (Collect.ClassifyResults results).2 `sublist_of` results /\
  (Collect.ClassifyResults results).1 ++ (Collect.ClassifyResults results).2
    ≡ₚ results.
Proof.
  rewrite ClassifyResults_spec. cbn [fst snd].
  split; [| split; [| split; [| split]]].
  - apply Forall_forall. intros r Hr. apply list_elem_of_filter in Hr. tauto.
  - apply Forall_forall. intros r Hr. apply list_elem_of_filter in Hr. tauto.
  - apply sublist_filter.
  - apply sublist_filter.
  - apply filter_app_complement.
Qed.

(** X26. [formatInstances] is idempotent, leaves none of the eight
    descriptive fields empty, and keeps the fields that identify the
    endpoint. *)
Theorem formatInstances_defaults (result : Models.ScanInstanceInfo.t) :
  let out := CollectRest.formatInstances result in
  CollectRest.formatInstances out = out /\
  Models.ScanInstanceInfo.Model out <> "" /\
  Models.ScanInstanceInfo.Version out <> "" /\
  Models.ScanInstanceInfo.SerialNumber out <> "" /\
  Models.ScanInstanceInfo.MacAddress out <> "" /\
  Models.ScanInstanceInfo.InstanceType out <> "" /\
  Models.ScanInstanceInfo.Manufacturer out <> "" /\
  Models.ScanInstanceInfo.SysName out <> "" /\
  Models.ScanInstanceInfo.SysDescr out <> "" /\
  Persist.ip_key out = Persist.ip_key result /\
  Models.ScanInstanceInfo.Uptime out = Models.ScanInstanceInfo.Uptime result.
Proof.
  cbv zeta.
  assert (Hd : Models.DEFAULT_UNKNOWN_VALUE <> "") by discriminate.
  assert (Hu : Models.InstanceTypeUnknown <> "") by discriminate.
  split.
  { unfold CollectRest.formatInstances.
    cbn [Models.ScanInstanceInfo.TargetName Models.ScanInstanceInfo.IPKey
         Models.ScanInstanceInfo.IP Models.ScanInstanceInfo.Port
         Models.ScanInstanceInfo.SlaveID Models.ScanInstanceInfo.Protocol
         Models.ScanInstanceInfo.Model Models.ScanInstanceInfo.Version
         Models.ScanInstanceInfo.SerialNumber Models.ScanInstanceInfo.SnmpEngineID
         Models.ScanInstanceInfo.SysName Models.ScanInstanceInfo.SysDescr
         Models.ScanInstanceInfo.Uptime Models.ScanInstanceInfo.InstanceType
         Models.ScanInstanceInfo.Manufacturer Models.ScanInstanceInfo.MacAddress
         Models.ScanInstanceInfo.Factory Models.ScanInstanceInfo.Phase
         Models.ScanInstanceInfo.Datacenter Models.ScanInstanceInfo.Room].
    rewrite !(or_default_idem _ _ Hd), ?(or_default_idem _ _ Hu).
    destruct (Models.ScanInstanceInfo.Uptime result =? 0) eqn:Hup.
    - reflexivity.
    - rewrite Hup. reflexivity. }
  unfold CollectRest.formatInstances.
  cbn [Models.ScanInstanceInfo.Model Models.ScanInstanceInfo.Version
       Models.ScanInstanceInfo.SerialNumber Models.ScanInstanceInfo.SysName
       Models.ScanInstanceInfo.SysDescr Models.ScanInstanceInfo.Uptime
       Models.ScanInstanceInfo.InstanceType Models.ScanInstanceInfo.Manufacturer
       Models.ScanInstanceInfo.MacAddress].
  repeat (split; [apply or_default_nonempty; assumption |]).
  split; [reflexivity |].
  destruct (Models.ScanInstanceInfo.Uptime result =? 0) eqn:Hup;
    [apply Z.eqb_eq in Hup; congruence | reflexivity].
Qed.

(** X27. [FindTargetByName] returns the first configured target of the
    given name, whatever follows it, and the zero value of the struct when
    no configured target has the name. *)
Theorem FindTargetByName_first_of_name (g : Global.t) (targetName : string) :
  (forall before t after,
     Global.TargetSettings g = before ++ t :: after ->
     Forall (fun b => Models.Target.Name b <> targetName) before ->
     Models.Target.Name t = targetName ->
     CollectRest.FindTargetByName g targetName = t) /\
  (Forall (fun b => Models.Target.Name b <> targetName) (Global.TargetSettings g) ->
   CollectRest.FindTargetByName g targetName = CollectRest.Target_zero).
Proof.
  unfold CollectRest.FindTargetByName. split.
  - intros before t after. apply find_target_first.
  - apply find_target_none.
Qed.

Lemma FindTargetByName_first_of_name_witness :
  CollectRest.FindTargetByName
    (Sample.load [Sample.target_A; Sample.target_B; Sample.target_B] []) "B"
  = Sample.target_B.
Proof.
  destruct (FindTargetByName_first_of_name
              (Sample.load [Sample.target_A; Sample.target_B; Sample.target_B] [])
              "B") as [Hfirst _].
  apply (Hfirst [Sample.target_A] Sample.target_B [Sample.target_B]).
  - reflexivity.
  - constructor; [discriminate | constructor].
  - reflexivity.
Defined.

(** ** The SNMP query *)

Section Snmp_query_facts.
Import Models Collect.

Lemma oid_index_from_bound oids : forall i oid,
  oid ∈ oids ->
  (i <= oid_index_from i oids oid < i + length oids)%nat.
Proof.
  induction oids as [|o oids IH]; intros i oid Hin.
  - apply elem_of_nil in Hin. contradiction.
  - cbn [oid_index_from length].
    destruct (String.eqb_spec o oid) as [Heq|Hne]; [lia |].
    apply elem_of_cons in Hin as [Heq|Hin]; [congruence |].
    specialize (IH (S i) oid Hin). lia.
Qed.

Lemma oid_index_from_NoDup oids : forall i k oid,
  NoDup oids -> oids !! k = Some oid ->
  oid_index_from i oids oid = (i + k)%nat.
Proof.
  induction oids as [|o oids IH]; intros i k oid Hnd Hk.
  - discriminate Hk.
  - apply NoDup_cons in Hnd as [Hfresh Hnd]. cbn [oid_index_from].
    destruct k as [|k]; cbn [lookup list_lookup] in Hk.
    + injection Hk as ->. rewrite String.eqb_refl. lia.
    + destruct (String.eqb_spec o oid) as [Heq|Hne].
      * exfalso. apply Hfresh. rewrite Heq.
        apply (list_elem_of_lookup_2 _ _ _ Hk).
      * rewrite (IH (S i) k oid Hnd Hk). lia.
Qed.

(** The loop of [GetSnmpValue] that fills the result map, from any map. *)
Lemma snmp_info_fold (variables : list any) (snmpOids : list string)
    (requests : list SNMPRequest.t) :
  forall m : gmap string any,
  (forall r, r ∈ requests ->
     is_Some (variables !! oid_index_from O snmpOids (SNMPRequest.OID r))) ->
  exists info,
    foldl (fun (info : option (gmap string any)) request =>
             info ← info;
             value ← variables !! oid_index_from O snmpOids
                                    (SNMPRequest.OID request);
             Some (<[SNMPRequest.Name request := value]> info))
          (Some m) requests = Some info /\
    (forall name,
       is_Some (info !! name)
       <-> is_Some (m !! name) \/ name ∈ SNMPRequest.Name <$> requests) /\
    (forall name,
       name ∉ SNMPRequest.Name <$> requests -> info !! name = m !! name) /\
    (NoDup (SNMPRequest.Name <$> requests) ->
     forall r, r ∈ requests ->
       info !! SNMPRequest.Name r
       = variables !! oid_index_from O snmpOids (SNMPRequest.OID r)).
Proof.
  induction requests as [|r requests IH]; intros m Hvals.
  { exists m. cbn [foldl fmap list_fmap]. split; [reflexivity |].
    split; [| split; [reflexivity |]].
    - intros name. rewrite elem_of_nil. tauto.
    - intros _ r Hr. apply elem_of_nil in Hr. contradiction. }
  destruct (Hvals r ltac:(left)) as [v Hv].
  destruct (IH (<[SNMPRequest.Name r := v]> m)
               ltac:(intros r' Hr'; apply Hvals; right; exact Hr'))
    as (info & Hfold & Hdom & Hrest & Hval).
  exists info. cbn [foldl mbind option_bind]. rewrite Hv.
  cbn [mbind option_bind]. split; [exact Hfold |].
  rewrite fmap_cons. split; [| split].
  - intros name. rewrite Hdom, lookup_insert_is_Some, elem_of_cons.
    destruct (decide (SNMPRequest.Name r = name)); intuition congruence.
  - intros name Hname. apply not_elem_of_cons in Hname as [Hne Hname].
    rewrite (Hrest name Hname). apply lookup_insert_ne. congruence.
  - intros Hnd r' Hr'. apply NoDup_cons in Hnd as [Hfresh Hnd].
    apply elem_of_cons in Hr' as [->|Hr'].
    + rewrite (Hrest _ Hfresh), lookup_insert_eq. symmetry. exact Hv.
    + apply (Hval Hnd r' Hr').
Qed.

End Snmp_query_facts.

(** X28. When the device answers the query and returns at least as many
    variables as the session has requests, [GetSnmpValue] returns a map
    without a run-time panic; the map has exactly the names of the requests
    as keys; and when neither two OIDs nor two names of the session are the
    same, every name holds the variable at the position of its request. *)
Theorem GetSnmpValue_values_by_position
    (gosnmp_Get : Models.SnmpConn.t -> list string -> option (list Models.any))
    (snmpSession : Models.SnmpSession.t) (variables : list Models.any) :
  let requests := Models.SnmpSession.Requests snmpSession in
  gosnmp_Get (Models.SnmpSession.Conn snmpSession)
             (Models.SNMPRequest.OID <$> requests) = Some variables ->
  (length requests <= length variables)%nat ->
  exists info,
    Collect.GetSnmpValue gosnmp_Get snmpSession = Some (Some info) /\
    (forall name,
       is_Some (info !! name) <-> name ∈ Models.SNMPRequest.Name <$> requests) /\
    (NoDup (Models.SNMPRequest.OID <$> requests) ->
     NoDup (Models.SNMPRequest.Name <$> requests) ->
     forall i request,
       requests !! i = Some request ->
       info !! Models.SNMPRequest.Name request = variables !! i).
Proof.
  intros requests Hget Hlen. unfold Collect.GetSnmpValue.
  fold requests. rewrite Hget.
  destruct (snmp_info_fold variables (Models.SNMPRequest.OID <$> requests)
              requests ∅) as (info & Hfold & Hdom & _ & Hval).
  { intros r Hr. apply lookup_lt_is_Some.
    pose proof (oid_index_from_bound (Models.SNMPRequest.OID <$> requests) O
                  (Models.SNMPRequest.OID r)
                  ltac:(apply list_elem_of_fmap; exists r; split;
                        [reflexivity | exact Hr])) as Hbound.
    rewrite length_fmap in Hbound. lia. }
  exists info. rewrite Hfold. cbn [mbind option_bind].
  split; [reflexivity |]. split.
  - intros name. rewrite Hdom, lookup_empty, is_Some_alt. tauto.
  - intros Hoids Hnames i request Hi.
    rewrite (Hval Hnames request (list_elem_of_lookup_2 _ _ _ Hi)).
    rewrite (oid_index_from_NoDup _ O i _ Hoids); [reflexivity |].
    rewrite list_lookup_fmap, Hi. reflexivity.
Qed.

Lemma GetSnmpValue_values_by_position_witness :
  exists info,
    Collect.GetSnmpValue Sample.gateway_snmp
      (Models.SnmpSession.mk
         (Models.SnmpConn.mk "10.1.1.1" 161 2 "public")
         (Config.getSNMPInstanceFieldRequest Models.IOT_CLIENT_NAME))
    = Some (Some info) /\
    info !! Models.FIELD_UPTIME_NAME = Some (Models.AnyString "(3 days)").
Proof.
  destruct (GetSnmpValue_values_by_position Sample.gateway_snmp
              (Models.SnmpSession.mk
                 (Models.SnmpConn.mk "10.1.1.1" 161 2 "public")
                 (Config.getSNMPInstanceFieldRequest Models.IOT_CLIENT_NAME))
              [Models.AnyString "lieneo"; Models.AnyString "lieneo";
               Models.AnyString "lieneo"; Models.AnyString "(3 days)"]
              eq_refl ltac:(vm_compute; lia))
    as (info & Hrun & _ & Hvalues).
  exists info. split; [exact Hrun |].
  apply (Hvalues ltac:(apply (bool_decide_unpack _); vm_compute; exact I)
                 ltac:(apply (bool_decide_unpack _); vm_compute; exact I)
                 3%nat
                 (Models.SNMPRequest.mk Models.FIELD_UPTIME_NAME
                                        Models.SNMP_OID_UPTIME)).
  reflexivity.
Defined.

(** X29. For every target name, the detail requests
    [getSNMPInstanceFieldRequest] builds have pairwise different names and
    pairwise different OIDs, so that no field of the answer is overwritten
    and every field comes from its own position; the uptime is requested for
    every name that has requests at all. *)
Theorem getSNMPInstanceFieldRequest_distinct (targetName : string) :
  NoDup (Models.SNMPRequest.Name <$> Config.getSNMPInstanceFieldRequest targetName) /\
  NoDup (Models.SNMPRequest.OID <$> Config.getSNMPInstanceFieldRequest targetName) /\
  (Config.getSNMPInstanceFieldRequest targetName = [] \/
   Models.SNMPRequest.mk Models.FIELD_UPTIME_NAME Models.SNMP_OID_UPTIME
     ∈ Config.getSNMPInstanceFieldRequest targetName).
Proof.
  unfold Config.getSNMPInstanceFieldRequest.
  destruct (String.eqb targetName Models.PDUE428_NAME);
    [| destruct (String.eqb targetName Models.PDU6PS56_NAME);
       [| destruct (String.eqb targetName Models.SWITCH5130_NAME
                    || String.eqb targetName Models.SWITCH5945_NAME
                    || String.eqb targetName Models.IOT_CLIENT_NAME);
          [| destruct (String.eqb targetName Models.UNKNOWN_NAME)]]].
  all: split; [apply (bool_decide_unpack _); vm_compute; exact I |].
  all: split; [apply (bool_decide_unpack _); vm_compute; exact I |].
  1-4: right; apply list_elem_of_In; cbn [In]; auto 10.
  left; reflexivity.
Qed.
